(** * DriveNest Marketplace: the listing / transaction / rating / messaging core

    A shallow embedding of the request handlers of [app.py] that write the
    marketplace tables, and the properties of the specification proved (or
    refuted) against them.

    Modelling conventions.
    - A SQLite table is the list of its rows in rowid order: [SELECT ... WHERE]
      is [List.filter] (and [fetchone] is [List.find]), [UPDATE ... WHERE] maps
      over the rows, [DELETE ... WHERE] filters them out, [INSERT] appends.
      An [INTEGER PRIMARY KEY AUTOINCREMENT] column is fed by a per-table
      counter holding the largest id ever handed out.
    - The [favorites] table has the composite primary key (user_id, car_id)
      and no rowid of its own in the code's queries: it is a finite map from
      the key to the [created_at] column.
    - Integers are [Z]; TEXT columns and form fields are [string], read as
      sequences of code points below 256. The lines of a PDF are sequences of
      arbitrary code points ([Pdf.text]).
    - An id that a request names reaches SQLite only if it is a 64-bit
      integer ([sqlite_int]); the OverflowError raised on a larger one is not
      part of the handlers below, and statements about an id that has no row
      ask for [sqlite_int].
    - [datetime.utcnow().isoformat()] is an input of every handler ([now]).
    - A handler returns the new store and what it answered: a redirect
      (with the message it flashed, if any), a rendered page, or an uncaught
      exception. *)

From Stdlib Require Import ZArith List String Ascii Bool Lia.
From Stdlib Require Import Sorting.Sorted Sorting.Permutation.
From stdpp Require Import base gmap.

Import ListNotations.
Open Scope string_scope.
Open Scope list_scope.
Open Scope Z_scope.

(** ** Python string primitives used by the handlers *)

Module Py.

Definition code (c : ascii) : N := N_of_ascii c.

(** [str.isspace] on one code point below 256. *)
Definition isspace_char (c : ascii) : bool :=
  let n := code c in
  ((9 <=? n) && (n <=? 13) || (28 <=? n) && (n <=? 32)
   || (n =? 133) || (n =? 160))%N.

Fixpoint lstrip (s : string) : string :=
  match s with
  | EmptyString => EmptyString
  | String c r => if isspace_char c then lstrip r else s
  end.

Fixpoint rstrip (s : string) : string :=
  match s with
  | EmptyString => EmptyString
  | String c r =>
      match rstrip r with
      | EmptyString => if isspace_char c then EmptyString else String c EmptyString
      | r' => String c r'
      end
  end.

(** [s.strip()] *)
Definition strip (s : string) : string := rstrip (lstrip s).

(** The characters [int()] reads as decimal digits: '0' .. '9'. *)
Definition isdecimal_char (c : ascii) : bool :=
  let n := code c in ((48 <=? n) && (n <=? 57))%N.

(** [str.isdigit] on one code point below 256: the decimal digits and the
    superscript digits U+00B2, U+00B3 and U+00B9. *)
Definition isdigit_char (c : ascii) : bool :=
  let n := code c in
  (isdecimal_char c || (n =? 178) || (n =? 179) || (n =? 185))%N.

Fixpoint all_chars (p : ascii -> bool) (s : string) : bool :=
  match s with
  | EmptyString => true
  | String c r => p c && all_chars p r
  end.

(** [s.isdigit()]: false on the empty string. *)
Definition isdigit (s : string) : bool :=
  match s with
  | EmptyString => false
  | _ => all_chars isdigit_char s
  end.

Fixpoint int_acc (acc : Z) (s : string) : option Z :=
  match s with
  | EmptyString => Some acc
  | String c r =>
      if isdecimal_char c
      then int_acc (10 * acc + Z.of_N (code c - 48)) r
      else None
  end.

(** [int(s)] for a string on which [isdigit] answered true; [None] is the
    [ValueError] that [int] raises on a superscript digit. The cap that
    recent interpreters put on the number of digits [int] converts is not
    modelled. *)
Definition int (s : string) : option Z :=
  match s with
  | EmptyString => None
  | _ => int_acc 0 s
  end.

End Py.

(** ** Rows *)

Inductive CarStatus := CAR_STATUS_ACTIVE | CAR_STATUS_COMPLETED.

Inductive TxStatus := pending | completed | canceled.

Definition car_status_eqb (a b : CarStatus) : bool :=
  match a, b with
  | CAR_STATUS_ACTIVE, CAR_STATUS_ACTIVE => true
  | CAR_STATUS_COMPLETED, CAR_STATUS_COMPLETED => true
  | _, _ => false
  end.

Definition tx_status_eqb (a b : TxStatus) : bool :=
  match a, b with
  | pending, pending => true
  | completed, completed => true
  | canceled, canceled => true
  | _, _ => false
  end.

(** [users]: the columns the handlers below read or write. *)
Record User := mkUser {
  u_id : Z;
  u_username : string;
  u_email : string;
  u_verified : bool;
  u_is_admin : bool
}.

(** [cars]: the descriptive columns (price, make, ...) are written by
    [add_listing], [edit_car] and [profile] only and read by no handler
    below; they are left out. *)
Record Car := mkCar {
  c_id : Z;
  c_user_id : Z;
  c_status : CarStatus
}.

Record Transaction := mkTransaction {
  t_id : Z;
  t_car_id : Z;
  t_seller_id : Z;
  t_buyer_id : Z;
  t_status : TxStatus;
  t_completed_at : string
}.

Record Rating := mkRating {
  r_id : Z;
  r_transaction_id : Z;
  r_seller_id : Z;
  r_buyer_id : Z;
  r_reliability : Z;
  r_accuracy : Z;
  r_communication : Z;
  r_product : Z;
  r_comment : string;
  r_created_at : string
}.

Record Thread := mkThread {
  th_id : Z;
  th_car_id : Z;
  th_seller_id : Z;
  th_buyer_id : Z;
  th_created_at : string
}.

Record Message := mkMessage {
  m_id : Z;
  m_thread_id : Z;
  m_sender_id : Z;
  m_recipient_id : Z;
  m_body : string;
  m_created_at : string;
  m_read_at : option string
}.

(** ** The store: Users.db and Cars.db *)

Record Store := mkStore {
  users : list User;
  users_seq : Z;
  cars : list Car;
  cars_seq : Z;
  transactions : list Transaction;
  transactions_seq : Z;
  ratings : list Rating;
  ratings_seq : Z;
  threads : list Thread;
  threads_seq : Z;
  messages : list Message;
  messages_seq : Z;
  favorites : gmap (Z * Z) string
}.

Definition set_users (st : Store) (us : list User) (seq : Z) : Store :=
  mkStore us seq (cars st) (cars_seq st) (transactions st) (transactions_seq st)
    (ratings st) (ratings_seq st) (threads st) (threads_seq st)
    (messages st) (messages_seq st) (favorites st).

Definition set_cars (st : Store) (cs : list Car) (seq : Z) : Store :=
  mkStore (users st) (users_seq st) cs seq (transactions st) (transactions_seq st)
    (ratings st) (ratings_seq st) (threads st) (threads_seq st)
    (messages st) (messages_seq st) (favorites st).

Definition set_transactions (st : Store) (ts : list Transaction) (seq : Z) : Store :=
  mkStore (users st) (users_seq st) (cars st) (cars_seq st) ts seq
    (ratings st) (ratings_seq st) (threads st) (threads_seq st)
    (messages st) (messages_seq st) (favorites st).

Definition set_ratings (st : Store) (rs : list Rating) (seq : Z) : Store :=
  mkStore (users st) (users_seq st) (cars st) (cars_seq st)
    (transactions st) (transactions_seq st) rs seq (threads st) (threads_seq st)
    (messages st) (messages_seq st) (favorites st).

Definition set_threads (st : Store) (ths : list Thread) (seq : Z) : Store :=
  mkStore (users st) (users_seq st) (cars st) (cars_seq st)
    (transactions st) (transactions_seq st) (ratings st) (ratings_seq st) ths seq
    (messages st) (messages_seq st) (favorites st).

Definition set_messages (st : Store) (ms : list Message) (seq : Z) : Store :=
  mkStore (users st) (users_seq st) (cars st) (cars_seq st)
    (transactions st) (transactions_seq st) (ratings st) (ratings_seq st)
    (threads st) (threads_seq st) ms seq (favorites st).

Definition set_favorites (st : Store) (fs : gmap (Z * Z) string) : Store :=
  mkStore (users st) (users_seq st) (cars st) (cars_seq st)
    (transactions st) (transactions_seq st) (ratings st) (ratings_seq st)
    (threads st) (threads_seq st) (messages st) (messages_seq st) fs.

(** What a handler answers. The target of a redirect is not modelled; the
    flashed message is the failure signal the caller sees. *)
Inductive Response :=
| Redirect (flashed : option string)
| Template (flashed : option string)
| MessageThreadPage (messages_rows : list Message)
| Abort500.

Inductive Method := GET | POST.

(** ** Lookups shared by the handlers *)

(** The integers SQLite stores and binds: 64-bit, signed. A request can name
    a larger id (the URL converter and [int] put no bound on it); binding it
    to a statement raises OverflowError before any row is read, and no
    handler catches that. The lookups below are the queries on an id that
    can be bound; where a statement says what a handler answers for an id
    that has no row, it asks for [sqlite_int] of that id. *)
Definition sqlite_int (n : Z) : bool := (- 2 ^ 63 <=? n) && (n <? 2 ^ 63).

Definition get_user_by_username (st : Store) (username : string) : option User :=
  if String.eqb username "" then None
  else List.find (fun u => String.eqb (u_username u) username) (users st).

Definition get_user_by_id (st : Store) (user_id : Z) : option User :=
  if user_id =? 0 then None
  else List.find (fun u => u_id u =? user_id) (users st).

(** [get_car_by_id] without the image list, which no handler below uses. *)
Definition get_car_by_id (st : Store) (car_id : Z) : option Car :=
  List.find (fun c => c_id c =? car_id) (cars st).

Definition admin_required (user : option User) : bool :=
  match user with
  | Some u => u_is_admin u
  | None => false
  end.

Definition find_transaction (st : Store) (transaction_id : Z) : option Transaction :=
  List.find (fun t => t_id t =? transaction_id) (transactions st).

Definition find_thread (st : Store) (thread_id : Z) : option Thread :=
  List.find (fun th => th_id th =? thread_id) (threads st).

(** ** Row updates *)

Definition car_set_status (s : CarStatus) (c : Car) : Car :=
  mkCar (c_id c) (c_user_id c) s.

Definition tx_set_status (s : TxStatus) (t : Transaction) : Transaction :=
  mkTransaction (t_id t) (t_car_id t) (t_seller_id t) (t_buyer_id t) s (t_completed_at t).

Definition user_set_verified (v : bool) (u : User) : User :=
  mkUser (u_id u) (u_username u) (u_email u) v (u_is_admin u).

Definition rating_set_scores (reliability accuracy communication product : Z)
    (comment : string) (r : Rating) : Rating :=
  mkRating (r_id r) (r_transaction_id r) (r_seller_id r) (r_buyer_id r)
    reliability accuracy communication product comment (r_created_at r).

Definition message_set_read (read_at : string) (m : Message) : Message :=
  mkMessage (m_id m) (m_thread_id m) (m_sender_id m) (m_recipient_id m)
    (m_body m) (m_created_at m) (Some read_at).

(** UPDATE cars SET status = ? WHERE id = ? *)
Definition update_car_status (s : CarStatus) (car_id : Z) (cs : list Car) : list Car :=
  List.map (fun c => if c_id c =? car_id then car_set_status s c else c) cs.

(** UPDATE transactions SET status = ? WHERE id = ? *)
Definition update_tx_status (s : TxStatus) (transaction_id : Z)
    (ts : list Transaction) : list Transaction :=
  List.map (fun t => if t_id t =? transaction_id then tx_set_status s t else t) ts.

(** UPDATE users SET verified = ? WHERE id = ? *)
Definition update_verified (v : bool) (user_id : Z) (us : list User) : list User :=
  List.map (fun u => if u_id u =? user_id then user_set_verified v u else u) us.

(** ** init_db on an empty pair of databases: the tables and the admin row *)

Definition init_db : Store :=
  mkStore [mkUser 1 "admin" "admin@example.com" true true] 1
    [] 0 [] 0 [] 0 [] 0 [] 0 ∅.

(** ** register *)

Definition register (st : Store) (method : Method)
    (first_name last_name username email password confirm_password : string)
    : Store * Response :=
  match method with
  | GET => (st, Template None)
  | POST =>
      let first_name := Py.strip first_name in
      let last_name := Py.strip last_name in
      let username := Py.strip username in
      let email := Py.strip email in
      if String.eqb first_name "" || String.eqb last_name ""
         || String.eqb username "" || String.eqb email ""
         || String.eqb password "" || String.eqb confirm_password ""
      then (st, Template (Some "All fields are required."))
      else if negb (String.eqb password confirm_password)
      then (st, Template (Some "Passwords do not match."))
      else if (Z.of_nat (String.length password) <? 8)
      then (st, Template (Some "Password must be at least 8 characters."))
      else if List.existsb
                (fun u => String.eqb (u_username u) username
                          || String.eqb (u_email u) email) (users st)
      then (st, Template (Some "Username or email already exists."))
      else (set_users st
              (users st ++ [mkUser (users_seq st + 1) username email false false])
              (users_seq st + 1),
            Redirect (Some "Registration successful. You can now log in."))
  end.

(** ** add_listing

    [accepted] stands for the outcome of the form validation that precedes
    the INSERT (required fields, allowed makes, year range, numeric price and
    mileage); the row is inserted with status active and the caller as owner. *)
Definition add_listing (st : Store) (username : string) (accepted : bool)
    : Store * Response :=
  match get_user_by_username st username with
  | None => (st, Redirect (Some "Please log in to add a listing."))
  | Some user =>
      if accepted
      then (set_cars st
              (cars st ++ [mkCar (cars_seq st + 1) (u_id user) CAR_STATUS_ACTIVE])
              (cars_seq st + 1),
            Redirect None)
      else (st, Template None)
  end.

(** ** complete_car: the seller marks a listing as sold to a buyer *)

Definition complete_car (st : Store) (now : string) (username : string)
    (car_id : Z) (buyer_id : string) : Store * Response :=
  match get_user_by_username st username with
  | None => (st, Redirect (Some "Please log in to manage listings."))
  | Some user =>
      match get_car_by_id st car_id with
      | None => (st, Redirect (Some "Listing not found."))
      | Some car =>
          if negb (c_user_id car =? u_id user)
          then (st, Redirect (Some "You can only update your own listings."))
          else
            let buyer_id := Py.strip buyer_id in
            if negb (Py.isdigit buyer_id)
            then (st, Redirect (Some "Please select a valid buyer."))
            else
              match Py.int buyer_id with
              | None => (st, Abort500)
              | Some b =>
                  if b =? u_id user
                  then (st, Redirect (Some "Please select a valid buyer."))
                  else
                    match get_user_by_id st b with
                    | None => (st, Redirect (Some "Buyer not found."))
                    | Some _ =>
                        let st1 :=
                          set_cars st
                            (update_car_status CAR_STATUS_COMPLETED car_id (cars st))
                            (cars_seq st) in
                        (set_transactions st1
                           (transactions st1 ++
                              [mkTransaction (transactions_seq st1 + 1) car_id
                                 (u_id user) b pending now])
                           (transactions_seq st1 + 1),
                         Redirect None)
                    end
              end
      end
  end.

(** ** remove_car_record, delete_car *)

Definition remove_car_record (st : Store) (car_id : Z) : Store * bool :=
  match get_car_by_id st car_id with
  | None => (st, false)
  | Some _ =>
      let tx_ids :=
        List.map t_id (List.filter (fun t => t_car_id t =? car_id) (transactions st)) in
      let st1 :=
        match tx_ids with
        | [] => st
        | _ =>
            set_ratings st
              (List.filter
                 (fun r => negb (List.existsb (Z.eqb (r_transaction_id r)) tx_ids))
                 (ratings st))
              (ratings_seq st)
        end in
      let st2 :=
        set_transactions st1
          (List.filter (fun t => negb (t_car_id t =? car_id)) (transactions st1))
          (transactions_seq st1) in
      (set_cars st2
         (List.filter (fun c => negb (c_id c =? car_id)) (cars st2))
         (cars_seq st2),
       true)
  end.

Definition delete_car (st : Store) (username : string) (car_id : Z)
    : Store * Response :=
  match get_user_by_username st username with
  | None => (st, Redirect (Some "Please log in to manage listings."))
  | Some user =>
      match get_car_by_id st car_id with
      | None => (st, Redirect (Some "Listing not found."))
      | Some car =>
          if negb (c_user_id car =? u_id user)
          then (st, Redirect (Some "You can only delete your own listings."))
          else (fst (remove_car_record st car_id), Redirect None)
      end
  end.

(** ** Messaging *)

Definition get_or_create_thread (st : Store) (now : string)
    (car_id seller_id buyer_id : Z) : Store * Z :=
  match List.find
          (fun th => (th_car_id th =? car_id) && (th_seller_id th =? seller_id)
                     && (th_buyer_id th =? buyer_id)) (threads st) with
  | Some row => (st, th_id row)
  | None =>
      (set_threads st
         (threads st ++ [mkThread (threads_seq st + 1) car_id seller_id buyer_id now])
         (threads_seq st + 1),
       threads_seq st + 1)
  end.

Definition new_message (st : Store) (now : string) (username : string)
    (car_id : string) : Store * Response :=
  match get_user_by_username st username with
  | None => (st, Redirect None)
  | Some user =>
      let car_id := Py.strip car_id in
      if negb (Py.isdigit car_id) then (st, Redirect None)
      else
        match Py.int car_id with
        | None => (st, Abort500)
        | Some cid =>
            match get_car_by_id st cid with
            | None => (st, Redirect None)
            | Some car =>
                if c_user_id car =? u_id user
                then (st, Redirect (Some "You cannot message yourself."))
                else
                  (fst (get_or_create_thread st now (c_id car) (c_user_id car) (u_id user)),
                   Redirect None)
            end
        end
  end.

(** ORDER BY created_at ASC: TEXT compares code point by code point; rows
    with equal keys stay in rowid order. *)
Fixpoint insert_by_created_at (m : Message) (l : list Message) : list Message :=
  match l with
  | [] => [m]
  | x :: r =>
      if String.leb (m_created_at m) (m_created_at x)
      then m :: l
      else x :: insert_by_created_at m r
  end.

Fixpoint order_by_created_at (l : list Message) : list Message :=
  match l with
  | [] => []
  | m :: r => insert_by_created_at m (order_by_created_at r)
  end.

Definition is_null (o : option string) : bool :=
  match o with
  | None => true
  | Some _ => false
  end.

(** UPDATE messages SET read_at = ?
    WHERE thread_id = ? AND recipient_id = ? AND read_at IS NULL *)
Definition mark_read (read_at : string) (thread_id recipient_id : Z)
    (ms : list Message) : list Message :=
  List.map
    (fun m =>
       if (m_thread_id m =? thread_id) && (m_recipient_id m =? recipient_id)
          && is_null (m_read_at m)
       then message_set_read read_at m
       else m) ms.

Definition message_thread (st : Store) (now : string) (username : string)
    (thread_id : Z) (method : Method) (body : string) : Store * Response :=
  match get_user_by_username st username with
  | None => (st, Redirect None)
  | Some user =>
      match find_thread st thread_id with
      | None => (st, Redirect (Some "Thread not found."))
      | Some thread =>
          if negb (th_seller_id thread =? u_id user)
             && negb (th_buyer_id thread =? u_id user)
          then (st, Redirect (Some "Thread not found."))
          else
            match method with
            | POST =>
                let body := Py.strip body in
                if String.eqb body "" then (st, Redirect None)
                else
                  let recipient_id :=
                    if th_seller_id thread =? u_id user
                    then th_buyer_id thread else th_seller_id thread in
                  (set_messages st
                     (messages st ++
                        [mkMessage (messages_seq st + 1) thread_id (u_id user)
                           recipient_id body now None])
                     (messages_seq st + 1),
                   Redirect None)
            | GET =>
                let st1 :=
                  set_messages st
                    (mark_read now thread_id (u_id user) (messages st))
                    (messages_seq st) in
                (st1,
                 MessageThreadPage
                   (order_by_created_at
                      (List.filter (fun m => m_thread_id m =? thread_id)
                         (messages st1))))
            end
      end
  end.

(** ** Favorites *)

Definition toggle_favorite (st : Store) (now : string) (username : string)
    (car_id : Z) : Store * Response :=
  match get_user_by_username st username with
  | None => (st, Redirect (Some "Please log in to manage favorites."))
  | Some user =>
      match get_car_by_id st car_id with
      | None => (st, Redirect (Some "Listing not found."))
      | Some car =>
          if negb (car_status_eqb (c_status car) CAR_STATUS_ACTIVE)
          then (st, Redirect (Some "Listing not found."))
          else
            match favorites st !! (u_id user, car_id) with
            | Some _ =>
                (set_favorites st (delete (u_id user, car_id) (favorites st)),
                 Redirect None)
            | None =>
                (set_favorites st (<[(u_id user, car_id) := now]> (favorites st)),
                 Redirect None)
            end
      end
  end.

(** ** Administration *)

Definition admin_verify_user (st : Store) (username : string)
    (user_id value : string) : Store * Response :=
  if negb (admin_required (get_user_by_username st username))
  then (st, Redirect None)
  else
    let user_id := Py.strip user_id in
    let value := Py.strip value in
    if negb (Py.isdigit user_id) then (st, Redirect None)
    else
      match Py.int user_id with
      | None => (st, Abort500)
      | Some uid =>
          (set_users st
             (update_verified (String.eqb value "1") uid (users st))
             (users_seq st),
           Redirect None)
      end.

Definition admin_delete_car (st : Store) (username : string) (car_id : string)
    : Store * Response :=
  if negb (admin_required (get_user_by_username st username))
  then (st, Redirect None)
  else
    let car_id := Py.strip car_id in
    if negb (Py.isdigit car_id) then (st, Redirect None)
    else
      match Py.int car_id with
      | None => (st, Abort500)
      | Some cid => (fst (remove_car_record st cid), Redirect None)
      end.

Definition admin_delete_rating (st : Store) (username : string)
    (rating_id : string) : Store * Response :=
  if negb (admin_required (get_user_by_username st username))
  then (st, Redirect None)
  else
    let rating_id := Py.strip rating_id in
    if negb (Py.isdigit rating_id) then (st, Redirect None)
    else
      match Py.int rating_id with
      | None => (st, Abort500)
      | Some rid =>
          (set_ratings st
             (List.filter (fun r => negb (r_id r =? rid)) (ratings st))
             (ratings_seq st),
           Redirect None)
      end.

(** ** Seller verification *)

(** SELECT COUNT( * ) FROM transactions WHERE seller_id = ? AND status = 'completed' *)
Definition completed_sales (st : Store) (seller_id : Z) : Z :=
  Z.of_nat
    (List.length
       (List.filter
          (fun t => (t_seller_id t =? seller_id) && tx_status_eqb (t_status t) completed)
          (transactions st))).

Definition verify_seller (st : Store) (username : string) (agree : string)
    : Store * Response :=
  match get_user_by_username st username with
  | None => (st, Redirect None)
  | Some user =>
      if negb (String.eqb agree "yes")
      then (st, Redirect (Some "Please confirm the verification terms."))
      else if completed_sales st (u_id user) <? 5
      then (st, Redirect (Some "You need at least 5 completed transactions to verify."))
      else
        (set_users st (update_verified true (u_id user) (users st)) (users_seq st),
         Redirect (Some "Your seller profile is now verified."))
  end.

(** ** Rating ledger *)

(** all(score.isdigit() and 1 <= int(score) <= 5 for score in scores):
    evaluated left to right, stopping at the first false; [None] when
    [int] raises. *)
Fixpoint all_scores_valid (scores : list string) : option bool :=
  match scores with
  | [] => Some true
  | score :: rest =>
      if Py.isdigit score then
        match Py.int score with
        | None => None
        | Some n =>
            if (1 <=? n) && (n <=? 5) then all_scores_valid rest else Some false
        end
      else Some false
  end.

(** INSERT INTO transaction_ratings ... ON CONFLICT(transaction_id) DO UPDATE
    SET reliability, accuracy, communication, product, comment.
    On a conflict the row keeps its id, seller, buyer and created_at; whether
    SQLite advances the id counter there is immaterial to what follows and
    the counter is left as it was. *)
Definition upsert_rating (st : Store) (transaction_id seller_id buyer_id : Z)
    (reliability accuracy communication product : Z) (comment now : string)
    : Store :=
  if List.existsb (fun r => r_transaction_id r =? transaction_id) (ratings st)
  then
    set_ratings st
      (List.map
         (fun r =>
            if r_transaction_id r =? transaction_id
            then rating_set_scores reliability accuracy communication product comment r
            else r) (ratings st))
      (ratings_seq st)
  else
    set_ratings st
      (ratings st ++
         [mkRating (ratings_seq st + 1) transaction_id seller_id buyer_id
            reliability accuracy communication product comment now])
      (ratings_seq st + 1).

Definition rate_transaction (st : Store) (now : string) (username : string)
    (transaction_id : Z)
    (reliability accuracy communication product comment : string)
    : Store * Response :=
  match get_user_by_username st username with
  | None => (st, Redirect (Some "Please log in to leave a rating."))
  | Some user =>
      let reliability := Py.strip reliability in
      let accuracy := Py.strip accuracy in
      let communication := Py.strip communication in
      let product := Py.strip product in
      let comment := Py.strip comment in
      match all_scores_valid [reliability; accuracy; communication; product] with
      | None => (st, Abort500)
      | Some false => (st, Redirect (Some "All ratings must be between 1 and 5."))
      | Some true =>
          match find_transaction st transaction_id with
          | None =>
              (st, Redirect (Some "You can only rate your own completed purchases."))
          | Some tx =>
              if negb (t_buyer_id tx =? u_id user)
                 || negb (tx_status_eqb (t_status tx) completed)
              then (st, Redirect (Some "You can only rate your own completed purchases."))
              else
                match Py.int reliability, Py.int accuracy,
                      Py.int communication, Py.int product with
                | Some rel, Some acc, Some com, Some prod =>
                    (upsert_rating st transaction_id (t_seller_id tx) (t_buyer_id tx)
                       rel acc com prod comment now,
                     Redirect (Some "Thanks for your rating!"))
                | _, _, _, _ => (st, Abort500)
                end
          end
      end
  end.

(** ** Transaction manager *)

Definition confirm_transaction (st : Store) (username : string)
    (transaction_id : Z) : Store * Response :=
  match get_user_by_username st username with
  | None => (st, Redirect None)
  | Some user =>
      match find_transaction st transaction_id with
      | None => (st, Redirect (Some "You can only confirm your own purchase."))
      | Some tx =>
          if negb (t_buyer_id tx =? u_id user)
          then (st, Redirect (Some "You can only confirm your own purchase."))
          else
            (set_transactions st
               (update_tx_status completed transaction_id (transactions st))
               (transactions_seq st),
             Redirect None)
      end
  end.

Definition cancel_transaction (st : Store) (username : string)
    (transaction_id : Z) : Store * Response :=
  match get_user_by_username st username with
  | None => (st, Redirect None)
  | Some user =>
      match find_transaction st transaction_id with
      | None => (st, Redirect (Some "You can only cancel your own transaction."))
      | Some tx =>
          if negb (t_buyer_id tx =? u_id user) && negb (t_seller_id tx =? u_id user)
          then (st, Redirect (Some "You can only cancel your own transaction."))
          else
            let st1 :=
              set_transactions st
                (update_tx_status canceled transaction_id (transactions st))
                (transactions_seq st) in
            (set_cars st1
               (update_car_status CAR_STATUS_ACTIVE (t_car_id tx) (cars st1))
               (cars_seq st1),
             Redirect None)
      end
  end.

(** ** Requests and reachable stores

    One constructor per route that writes a modelled column. [username] is
    what [get_current_username] returns for the request. The routes
    [edit_car], [profile] and [car_details] write only columns left out of the
    rows above (the listing's description, contact fields, recent views) and
    are the identity on the store. [remove_car_record] is itself registered
    as a route; it answers with a [bool], which is not a response. *)

Inductive Request :=
| ReqRegister (method : Method)
    (first_name last_name username email password confirm_password : string)
| ReqAddListing (username : string) (accepted : bool)
| ReqCompleteCar (username : string) (car_id : Z) (buyer_id : string)
| ReqRemoveCarRecord (car_id : Z)
| ReqDeleteCar (username : string) (car_id : Z)
| ReqNewMessage (username : string) (car_id : string)
| ReqMessageThread (username : string) (thread_id : Z) (method : Method) (body : string)
| ReqToggleFavorite (username : string) (car_id : Z)
| ReqAdminVerifyUser (username : string) (user_id value : string)
| ReqAdminDeleteCar (username : string) (car_id : string)
| ReqAdminDeleteRating (username : string) (rating_id : string)
| ReqVerifySeller (username : string) (agree : string)
| ReqRateTransaction (username : string) (transaction_id : Z)
    (reliability accuracy communication product comment : string)
| ReqConfirmTransaction (username : string) (transaction_id : Z)
| ReqCancelTransaction (username : string) (transaction_id : Z).

Definition handle (st : Store) (now : string) (req : Request) : Store * Response :=
  match req with
  | ReqRegister method fn ln un em pw cpw => register st method fn ln un em pw cpw
  | ReqAddListing username accepted => add_listing st username accepted
  | ReqCompleteCar username car_id buyer_id => complete_car st now username car_id buyer_id
  | ReqRemoveCarRecord car_id => (fst (remove_car_record st car_id), Abort500)
  | ReqDeleteCar username car_id => delete_car st username car_id
  | ReqNewMessage username car_id => new_message st now username car_id
  | ReqMessageThread username thread_id method body =>
      message_thread st now username thread_id method body
  | ReqToggleFavorite username car_id => toggle_favorite st now username car_id
  | ReqAdminVerifyUser username user_id value => admin_verify_user st username user_id value
  | ReqAdminDeleteCar username car_id => admin_delete_car st username car_id
  | ReqAdminDeleteRating username rating_id => admin_delete_rating st username rating_id
  | ReqVerifySeller username agree => verify_seller st username agree
  | ReqRateTransaction username transaction_id rel acc com prod comment =>
      rate_transaction st now username transaction_id rel acc com prod comment
  | ReqConfirmTransaction username transaction_id =>
      confirm_transaction st username transaction_id
  | ReqCancelTransaction username transaction_id =>
      cancel_transaction st username transaction_id
  end.

(** The stores the application can be in: [init_db] on empty databases,
    then any sequence of requests, each at its own clock reading. *)
Inductive reachable : Store -> Prop :=
| reachable_init : reachable init_db
| reachable_handle st now req :
    reachable st -> reachable (fst (handle st now req)).

(** Running a list of timestamped requests from a store. *)
Fixpoint run (st : Store) (reqs : list (string * Request)) : Store :=
  match reqs with
  | [] => st
  | (now, req) :: rest => run (fst (handle st now req)) rest
  end.

(** ** The specification's names for the failure signals

    The handlers signal a refused operation by flashing a message and
    redirecting; the specification names the kinds of refusal. *)

Inductive ErrorKind := NotFound | Forbidden | InvalidState | ValidationError.

Definition error_kind (resp : Response) : option ErrorKind :=
  match resp with
  | Redirect (Some msg) =>
      if String.eqb msg "Listing not found." then Some NotFound
      else if String.eqb msg "Thread not found." then Some NotFound
      else if String.eqb msg "Buyer not found." then Some NotFound
      else if String.eqb msg "You can only update your own listings." then Some Forbidden
      else if String.eqb msg "You can only confirm your own purchase." then Some Forbidden
      else if String.eqb msg "You can only cancel your own transaction." then Some Forbidden
      else if String.eqb msg "You can only rate your own completed purchases."
      then Some InvalidState
      else if String.eqb msg "All ratings must be between 1 and 5."
      then Some ValidationError
      else if String.eqb msg "Please select a valid buyer." then Some ValidationError
      else None
  | _ => None
  end.

(** ** Queries and example stores used in the statements *)

(** SELECT * FROM message_threads
    WHERE car_id = ? AND seller_id = ? AND buyer_id = ? *)
Definition threads_for (st : Store) (car_id seller_id buyer_id : Z) : list Thread :=
  List.filter
    (fun th => (th_car_id th =? car_id) && (th_seller_id th =? seller_id)
               && (th_buyer_id th =? buyer_id)) (threads st).

(** SELECT * FROM transaction_ratings WHERE transaction_id = ? *)
Definition ratings_for (st : Store) (transaction_id : Z) : list Rating :=
  List.filter (fun r => r_transaction_id r =? transaction_id) (ratings st).

(** At most one thread per (listing, seller, buyer). *)
Definition threads_unique (st : Store) : Prop :=
  forall car_id seller_id buyer_id,
    (List.length (threads_for st car_id seller_id buyer_id) <= 1)%nat.

(** The UNIQUE constraint on transaction_ratings.transaction_id. *)
Definition ratings_unique (st : Store) : Prop :=
  forall transaction_id, (List.length (ratings_for st transaction_id) <= 1)%nat.

(** A seller and a buyer have registered and the seller has listed a car:
    users 2 ("seller") and 3 ("buyer"), listing 1. *)
Definition listed_store : Store :=
  run init_db
    [("2026-01-01T09:00:00",
      ReqRegister POST "Sam" "Seller" "seller" "sam@example.com" "password1" "password1");
     ("2026-01-01T09:05:00",
      ReqRegister POST "Bea" "Buyer" "buyer" "bea@example.com" "password2" "password2");
     ("2026-01-01T10:00:00", ReqAddListing "seller" true)].

(** The seller has then reserved listing 1 for the buyer: transaction 1. *)
Definition reserved_store : Store :=
  run listed_store [("2026-01-02T10:00:00", ReqCompleteCar "seller" 1 "3")].

(** The buyer has then confirmed transaction 1. *)
Definition confirmed_store : Store :=
  run reserved_store [("2026-01-03T10:00:00", ReqConfirmTransaction "buyer" 1)].

(** (user_id, car_id) is a row of the favorites table. *)
Definition is_favorite (st : Store) (user_id car_id : Z) : Prop :=
  is_Some (favorites st !! (user_id, car_id)).

(** The seller has canceled transaction 1 of [reserved_store]: the listing
    is active again. *)
Definition canceled_store : Store :=
  run reserved_store [("2026-01-03T10:00:00", ReqCancelTransaction "seller" 1)].

(** The seller has then reserved listing 1 again: transaction 2 is pending,
    transaction 1 stays canceled. *)
Definition rereserved_store : Store :=
  run canceled_store [("2026-01-04T10:00:00", ReqCompleteCar "seller" 1 "3")].

(** The relation between a transaction row and the same row after an
    UPDATE that may only change the status of the rows with id
    [transaction_id], and sets it to [s] there. *)
Definition only_status_changed (s : TxStatus) (transaction_id : Z)
    (t t' : Transaction) : Prop :=
  t_id t' = t_id t /\ t_car_id t' = t_car_id t
  /\ t_seller_id t' = t_seller_id t /\ t_buyer_id t' = t_buyer_id t
  /\ t_completed_at t' = t_completed_at t
  /\ (t_id t = transaction_id -> t_status t' = s)
  /\ (t_id t <> transaction_id -> t' = t).

(** Every rating row refers to a transaction row that is not pending. *)
Definition rated_not_pending (st : Store) : Prop :=
  forall r, In r (ratings st) ->
    exists t, In t (transactions st) /\ t_id t = r_transaction_id r
              /\ t_status t <> pending.

(** What rate_transaction answers when it has written the rating. *)
Definition rated : Response := Redirect (Some "Thanks for your rating!").

(** The buyer has rated the confirmed transaction 1. *)
Definition rated_store : Store :=
  run confirmed_store
    [("2026-01-04T10:00:00", ReqRateTransaction "buyer" 1 "5" "4" "5" "5" "great")].

(** The buyer has then canceled the rated transaction 1. *)
Definition rated_canceled_store : Store :=
  run rated_store [("2026-01-05T10:00:00", ReqCancelTransaction "buyer" 1)].

(** The verified flag of user [user_id] is set. *)
Definition is_verified (st : Store) (user_id : Z) : Prop :=
  exists u, In u (users st) /\ u_id u = user_id /\ u_verified u = true.

Definition is_admin_verify (req : Request) : bool :=
  match req with
  | ReqAdminVerifyUser _ _ _ => true
  | _ => false
  end.

(** The administrator has set the verified flag of the seller (user 2), who
    has no completed sale. *)
Definition granted_store : Store :=
  run listed_store [("2026-01-02T09:00:00", ReqAdminVerifyUser "admin" "2" "1")].

(** The administrator has then cleared it. *)
Definition revoked_store : Store :=
  run granted_store [("2026-01-02T09:30:00", ReqAdminVerifyUser "admin" "2" "0")].

(** The seller has sold to the buyer five times: five reservations of
    listing 1, each confirmed by the buyer. *)
Definition five_sales_store : Store :=
  run listed_store
    [("2026-02-01T10:00:00", ReqCompleteCar "seller" 1 "3");
     ("2026-02-01T11:00:00", ReqConfirmTransaction "buyer" 1);
     ("2026-02-02T10:00:00", ReqCompleteCar "seller" 1 "3");
     ("2026-02-02T11:00:00", ReqConfirmTransaction "buyer" 2);
     ("2026-02-03T10:00:00", ReqCompleteCar "seller" 1 "3");
     ("2026-02-03T11:00:00", ReqConfirmTransaction "buyer" 3);
     ("2026-02-04T10:00:00", ReqCompleteCar "seller" 1 "3");
     ("2026-02-04T11:00:00", ReqConfirmTransaction "buyer" 4);
     ("2026-02-05T10:00:00", ReqCompleteCar "seller" 1 "3");
     ("2026-02-05T11:00:00", ReqConfirmTransaction "buyer" 5)].

(** A score as the specification reads it: a decimal numeral whose value
    lies between 1 and 5. *)
Definition score_ok (s : string) : bool :=
  match Py.int s with
  | Some n => (1 <=? n) && (n <=? 5)
  | None => false
  end.


(** The caller may rate the transaction: it exists, the caller is its buyer
    and its status is completed. *)
Definition may_rate (st : Store) (user : User) (transaction_id : Z) : Prop :=
  exists tx, find_transaction st transaction_id = Some tx
             /\ t_buyer_id tx = u_id user /\ t_status tx = completed.

(** The one-character string U+00B2 (superscript two). *)
Definition superscript_two : string := String (ascii_of_N 178) EmptyString.



(** The message is in the thread, addressed to [viewer_id], and unread. *)
Definition unread_for (thread_id viewer_id : Z) (m : Message) : bool :=
  (m_thread_id m =? thread_id) && (m_recipient_id m =? viewer_id)
  && is_null (m_read_at m).

(** The buyer has opened a thread on listing 1 and written twice; the seller
    has answered in between without opening the thread view. *)
Definition messaging_store : Store :=
  run listed_store
    [("2026-01-02T08:00:00", ReqNewMessage "buyer" "1");
     ("2026-01-02T08:01:00", ReqMessageThread "buyer" 1 POST "Is this still available?");
     ("2026-01-02T08:05:00", ReqMessageThread "seller" 1 POST "Yes.");
     ("2026-01-02T08:09:00", ReqMessageThread "buyer" 1 POST "Can I see it on Friday?")].

(** ** Further queries of app.py *)

(** The ids of a table fed by AUTOINCREMENT: every id is positive, none
    exceeds the counter, and no two rows share one. *)
Definition ids_ok {A : Type} (key : A -> Z) (rows : list A) (seq : Z) : Prop :=
  0 <= seq
  /\ (forall r, In r rows -> 1 <= key r <= seq)
  /\ (forall k : Z,
        (List.length (List.filter (fun r => (key r =? k)%Z) rows) <= 1)%nat).

Definition store_ids_ok (st : Store) : Prop :=
  ids_ok u_id (users st) (users_seq st)
  /\ ids_ok c_id (cars st) (cars_seq st)
  /\ ids_ok t_id (transactions st) (transactions_seq st)
  /\ ids_ok r_id (ratings st) (ratings_seq st)
  /\ ids_ok th_id (threads st) (threads_seq st)
  /\ ids_ok m_id (messages st) (messages_seq st).

(** inject_unread_count:
    SELECT COUNT( * ) FROM messages WHERE recipient_id = ? AND read_at IS NULL *)
Definition unread_count (st : Store) (user_id : Z) : Z :=
  Z.of_nat
    (List.length
       (List.filter
          (fun m => (m_recipient_id m =? user_id) && is_null (m_read_at m))
          (messages st))).

Definition inject_unread_count (st : Store) (username : string) : option Z :=
  match get_user_by_username st username with
  | None => None
  | Some user => Some (unread_count st (u_id user))
  end.

(** The unread messages of one thread addressed to [viewer_id]. *)
Definition unread_in_thread (st : Store) (thread_id viewer_id : Z) : list Message :=
  List.filter (unread_for thread_id viewer_id) (messages st).

(** UNIQUE(username), UNIQUE(email) and the primary key of the users table:
    at most one row for a username, for an email and for an id. *)
Definition users_unique (st : Store) : Prop :=
  (forall username,
     (List.length
        (List.filter (fun u => String.eqb (u_username u) username) (users st))
      <= 1)%nat)
  /\ (forall email,
        (List.length
           (List.filter (fun u => String.eqb (u_email u) email) (users st))
         <= 1)%nat)
  /\ (forall user_id : Z,
        (List.length (List.filter (fun u => (u_id u =? user_id)%Z) (users st))
         <= 1)%nat).

(** Every transaction row joins a registered seller, a different registered
    buyer and a listing of the seller. *)
Definition transactions_wellformed (st : Store) : Prop :=
  forall t, In t (transactions st) ->
    t_seller_id t <> t_buyer_id t
    /\ (exists s, In s (users st) /\ u_id s = t_seller_id t)
    /\ (exists b, In b (users st) /\ u_id b = t_buyer_id t)
    /\ (exists c, In c (cars st) /\ c_id c = t_car_id t
                  /\ c_user_id c = t_seller_id t).

(** The only administrator is the row seeded by init_db. *)
Definition only_seeded_admin (st : Store) : Prop :=
  forall u, In u (users st) -> u_is_admin u = true ->
    u_id u = 1 /\ u_username u = "admin".

(** A listing shown as completed has a transaction that is not canceled. *)
Definition completed_has_live_transaction (st : Store) : Prop :=
  forall c, In c (cars st) -> c_status c = CAR_STATUS_COMPLETED ->
    exists t, In t (transactions st) /\ t_car_id t = c_id c
              /\ t_status t <> canceled.

(** Every rating row holds four scores between 1 and 5 and repeats the
    seller and the buyer of the transaction it refers to. *)
Definition ratings_wellformed (st : Store) : Prop :=
  forall r, In r (ratings st) ->
    (1 <= r_reliability r <= 5 /\ 1 <= r_accuracy r <= 5
     /\ 1 <= r_communication r <= 5 /\ 1 <= r_product r <= 5)
    /\ exists t, In t (transactions st) /\ t_id t = r_transaction_id r
                 /\ t_seller_id t = r_seller_id r /\ t_buyer_id t = r_buyer_id r.

(** 1 when the row counts as a completed sale of [seller_id], else 0. *)
Definition counts_as_sale (seller_id : Z) (t : Transaction) : Z :=
  if (t_seller_id t =? seller_id) && tx_status_eqb (t_status t) completed
  then 1 else 0.

(** Every thread joins two different users, and every message goes from one
    party of its thread to the other. *)
Definition messages_wellformed (st : Store) : Prop :=
  (forall th, In th (threads st) -> th_seller_id th <> th_buyer_id th)
  /\ (forall m, In m (messages st) ->
        m_sender_id m <> m_recipient_id m
        /\ exists th, In th (threads st) /\ th_id th = m_thread_id m
             /\ ((m_sender_id m = th_seller_id th /\ m_recipient_id m = th_buyer_id th)
                 \/ (m_sender_id m = th_buyer_id th
                     /\ m_recipient_id m = th_seller_id th))).

(** The message has no read timestamp and is addressed to [user_id]. *)
Definition unread_by (user_id : Z) (m : Message) : bool :=
  (m_recipient_id m =? user_id) && is_null (m_read_at m).

(** get_favorite_ids: the set of car ids the user has favorited; the empty
    set for a falsy user id. *)
Definition get_favorite_ids (st : Store) (user_id : Z) : gset Z :=
  if user_id =? 0 then ∅
  else set_map snd (filter (fun k : Z * Z => k.1 = user_id) (dom (favorites st))).

(** ** Recent views

    The table recent_views has the primary key (user_id, car_id); it is kept
    apart from the store above, which no handler of the marketplace core
    reads it from. *)

Record RecentView := mkRecentView {
  rv_user_id : Z;
  rv_car_id : Z;
  rv_viewed_at : string
}.

Definition same_view (user_id car_id : Z) (v : RecentView) : bool :=
  (rv_user_id v =? user_id) && (rv_car_id v =? car_id).

(** INSERT INTO recent_views ... ON CONFLICT(user_id, car_id)
    DO UPDATE SET viewed_at = excluded.viewed_at *)
Definition record_recent_view (views : list RecentView) (viewed_at : string)
    (user_id car_id : Z) : list RecentView :=
  if (user_id =? 0) || (car_id =? 0) then views
  else if List.existsb (same_view user_id car_id) views
  then List.map
         (fun v => if same_view user_id car_id v
                   then mkRecentView (rv_user_id v) (rv_car_id v) viewed_at
                   else v) views
  else views ++ [mkRecentView user_id car_id viewed_at].

(** The primary key of recent_views. *)
Definition views_unique (views : list RecentView) : Prop :=
  forall user_id car_id,
    (List.length (List.filter (same_view user_id car_id) views) <= 1)%nat.

(** ** build_simple_pdf

    The lines are Python strings of any characters (car_pdf passes the euro
    sign and whatever the description holds), so here a str is the list of
    its code points, [Pdf.text]; the result of [encode("utf-8")] and every
    bytes object is a [string] of bytes. *)

Module Pdf.

Local Open Scope string_scope.
Local Open Scope Z_scope.

(** A str: its code points, each below 0x110000. *)
Definition text : Type := list N.

(** A literal of the source, whose characters are all below 256. *)
Definition lit (s : string) : text := List.map N_of_ascii (list_ascii_of_string s).

Definition LF : string := String (ascii_of_N 10) EmptyString.

(** [x.replace(a, r)] for a one-character [a]. *)
Definition replace_char (a : N) (r : text) (s : text) : text :=
  List.flat_map (fun c => if (c =? a)%N then r else cons c nil) s.

(** escape(text): backslash, "(" and ")" are 92, 40 and 41. *)
Definition escape (t : text) : text :=
  replace_char 41 (lit "\)") (replace_char 40 (lit "\(") (replace_char 92 (lit "\\") t)).

Definition digit_char (d : Z) : ascii := ascii_of_N (Z.to_N (48 + d)).

Fixpoint dec_digits (fuel : nat) (n : Z) : string :=
  match fuel with
  | O => EmptyString
  | S f =>
      if n <? 10 then String (digit_char n) EmptyString
      else dec_digits f (n / 10) ++ String (digit_char (n mod 10)) EmptyString
  end.

(** The decimal numeral of a natural number. *)
Definition dec (n : Z) : string := dec_digits (S (Z.to_nat (Z.log2 n))) n.

(** [f"{n}"] and [b"%d" % n] *)
Definition str (n : Z) : string :=
  if n <? 0 then "-" ++ dec (- n) else dec n.

Fixpoint zeros (k : nat) : string :=
  match k with
  | O => EmptyString
  | S k' => String "0" (zeros k')
  end.

(** [f"{off:010d}"] for an offset, which is not negative. *)
Definition zfill10 (off : nat) : string :=
  let s := str (Z.of_nat off) in
  zeros (10 - String.length s)%nat ++ s.

Definition byte (n : N) : ascii := ascii_of_N n.

(** One code point in UTF-8, as the strict encoder does it: [None] stands
    for UnicodeEncodeError, raised on a surrogate (U+D800 to U+DFFF); a
    number from 0x110000 on is no code point. *)
Definition encode_char (c : N) : option string :=
  (if c <? 128 then Some (String (byte c) EmptyString)
   else if c <? 2048 then
     Some (String (byte (192 + c / 64)) (String (byte (128 + c mod 64)) EmptyString))
   else if c <? 65536 then
     if (55296 <=? c) && (c <=? 57343) then None
     else
       Some (String (byte (224 + c / 4096))
               (String (byte (128 + (c / 64) mod 64))
                  (String (byte (128 + c mod 64)) EmptyString)))
   else if c <? 1114112 then
     Some (String (byte (240 + c / 262144))
             (String (byte (128 + (c / 4096) mod 64))
                (String (byte (128 + (c / 64) mod 64))
                   (String (byte (128 + c mod 64)) EmptyString))))
   else None)%N.

(** [t.encode("utf-8")] *)
Fixpoint encode_utf8 (t : text) : option string :=
  match t with
  | nil => Some EmptyString
  | cons c rest =>
      match encode_char c, encode_utf8 rest with
      | Some u, Some v => Some (u ++ v)
      | _, _ => None
      end
  end.

Definition content_line (y : Z) (line : text) : text :=
  (lit "BT /F1 12 Tf 50 " ++ lit (str y) ++ lit " Td (" ++ escape line
   ++ lit ") Tj ET")%list.

(** The loop over [lines], [y] going down by 18 from one line to the next. *)
Fixpoint content_lines (y : Z) (lines : list text) : list text :=
  match lines with
  | nil => nil
  | cons line rest => cons (content_line y line) (content_lines (y - 18) rest)
  end.

(** [sep.join(parts)] *)
Fixpoint join (sep : text) (parts : list text) : text :=
  match parts with
  | nil => nil
  | cons p rest =>
      match rest with
      | nil => p
      | cons _ _ => (p ++ sep ++ join sep rest)%list
      end
  end.

Definition content (lines : list text) : option string :=
  encode_utf8 (join (lit LF) (content_lines 760 lines)).

Definition object1 : string :=
  "1 0 obj" ++ LF ++ "<< /Type /Catalog /Pages 2 0 R >>" ++ LF ++ "endobj" ++ LF.

Definition object2 : string :=
  "2 0 obj" ++ LF ++ "<< /Type /Pages /Kids [3 0 R] /Count 1 >>" ++ LF
  ++ "endobj" ++ LF.

Definition object3 : string :=
  "3 0 obj" ++ LF ++ "<< /Type /Page /Parent 2 0 R /MediaBox [0 0 612 792] "
  ++ "/Contents 4 0 R /Resources << /Font << /F1 5 0 R >> >> >>" ++ LF
  ++ "endobj" ++ LF.

Definition object4 (content : string) : string :=
  "4 0 obj" ++ LF ++ "<< /Length " ++ str (Z.of_nat (String.length content))
  ++ " >>" ++ LF ++ "stream" ++ LF ++ content ++ LF ++ "endstream" ++ LF
  ++ "endobj" ++ LF.

Definition object5 : string :=
  "5 0 obj" ++ LF ++ "<< /Type /Font /Subtype /Type1 /BaseFont /Helvetica >>"
  ++ LF ++ "endobj" ++ LF.

Definition objects (content : string) : list string :=
  cons object1 (cons object2 (cons object3
    (cons (object4 content) (cons object5 nil)))).

Definition header : string := "%PDF-1.4" ++ LF.

(** for obj in objects: offsets.append(len(pdf)); pdf += obj *)
Fixpoint layout (pdf : string) (offsets : list nat) (objs : list string)
    : string * list nat :=
  match objs with
  | nil => (pdf, offsets)
  | cons obj rest =>
      layout (pdf ++ obj) (List.app offsets (cons (String.length pdf) nil)) rest
  end.

Definition body (content : string) : string :=
  fst (layout header (cons O nil) (objects content)).

Definition offsets (content : string) : list nat :=
  snd (layout header (cons O nil) (objects content)).

Definition xref_offset (content : string) : nat := String.length (body content).

Definition xref_entry (off : nat) : string := zfill10 off ++ " 00000 n " ++ LF.

(** for off in offsets[1:]: pdf += ... *)
Definition xref_entries (offs : list nat) : string :=
  List.fold_left (fun pdf off => pdf ++ xref_entry off) (List.tl offs) EmptyString.

(** The bytes formats turn [%%] into a single percent sign. *)
Definition trailer (size : nat) (xref_at : nat) : string :=
  "trailer" ++ LF ++ "<< /Size " ++ str (Z.of_nat size) ++ " /Root 1 0 R >>" ++ LF
  ++ "startxref" ++ LF ++ str (Z.of_nat xref_at) ++ LF ++ "%EOF" ++ LF.

(** [None] when encoding the content raises. *)
Definition build_simple_pdf (lines : list text) : option string :=
  match content lines with
  | None => None
  | Some content =>
      Some
        (body content
         ++ ("xref" ++ LF ++ "0 " ++ str (Z.of_nat (List.length (offsets content)))
             ++ LF)
         ++ ("0000000000 65535 f " ++ LF)
         ++ xref_entries (offsets content)
         ++ trailer (List.length (offsets content)) (xref_offset content))
  end.

(** A Unicode scalar value: a code point that is not a surrogate. These
    are the code points the encoder accepts. *)
Definition scalar (c : N) : bool :=
  ((c <? 55296) || ((57343 <? c) && (c <? 1114112)))%N.

(** A backslash or a parenthesis, as a byte. *)
Definition special (c : ascii) : bool :=
  let n := N_of_ascii c in ((n =? 92) || (n =? 40) || (n =? 41))%N.

(** What escape does, seen on the encoded bytes: a backslash before every
    backslash and parenthesis. *)
Fixpoint escape_bytes (s : string) : string :=
  match s with
  | EmptyString => EmptyString
  | String c r =>
      if special c then String "\" (String c (escape_bytes r))
      else String c (escape_bytes r)
  end.

(** Bytes below 128, and bytes from 128 on. *)
Definition ascii_only (s : string) : bool :=
  Py.all_chars (fun c => (N_of_ascii c <? 128)%N) s.

Definition high_only (s : string) : bool :=
  Py.all_chars (fun c => (128 <=? N_of_ascii c)%N) s.

(** *** Reading a literal string back

    What a PDF reader makes of a literal string (ISO 32000-1, 7.3.4.2),
    starting after its opening parenthesis: the bytes of the string and what
    follows its closing parenthesis. Parentheses that are balanced belong to
    the string; a backslash introduces n, r, t, b, f, a parenthesis, a
    backslash, one to three octal digits, or a line break that is to be
    skipped, and is dropped before anything else; an end of line that is
    not escaped (CR, LF or CR LF) is read as one LF. *)

Definition emit (c : ascii) (res : option (string * string))
    : option (string * string) :=
  match res with
  | Some (bytes, rest) => Some (String c bytes, rest)
  | None => None
  end.

Definition octal (c : ascii) : option N :=
  let n := N_of_ascii c in
  if ((48 <=? n) && (n <=? 55))%N then Some (n - 48)%N else None.

Fixpoint read_literal_at (depth : nat) (s : string) : option (string * string) :=
  match s with
  | EmptyString => None
  | String c r =>
      let n := N_of_ascii c in
      if (n =? 41)%N then
        match depth with
        | O => Some (EmptyString, r)
        | S d => emit c (read_literal_at d r)
        end
      else if (n =? 40)%N then emit c (read_literal_at (S depth) r)
      else if (n =? 13)%N then
        match r with
        | String l r' =>
            if (N_of_ascii l =? 10)%N then emit (byte 10) (read_literal_at depth r')
            else emit (byte 10) (read_literal_at depth r)
        | EmptyString => None
        end
      else if (n =? 92)%N then
        match r with
        | EmptyString => None
        | String e r1 =>
            let m := N_of_ascii e in
            if (m =? 110)%N then emit (byte 10) (read_literal_at depth r1)
            else if (m =? 114)%N then emit (byte 13) (read_literal_at depth r1)
            else if (m =? 116)%N then emit (byte 9) (read_literal_at depth r1)
            else if (m =? 98)%N then emit (byte 8) (read_literal_at depth r1)
            else if (m =? 102)%N then emit (byte 12) (read_literal_at depth r1)
            else if (m =? 10)%N then read_literal_at depth r1
            else if (m =? 13)%N then
              match r1 with
              | String l r2 =>
                  if (N_of_ascii l =? 10)%N then read_literal_at depth r2
                  else read_literal_at depth r1
              | EmptyString => None
              end
            else
              match octal e with
              | None => emit e (read_literal_at depth r1)
              | Some d1 =>
                  match r1 with
                  | EmptyString => None
                  | String f r2 =>
                      match octal f with
                      | None => emit (byte d1) (read_literal_at depth r1)
                      | Some d2 =>
                          match r2 with
                          | EmptyString => None
                          | String g r3 =>
                              match octal g with
                              | None =>
                                  emit (byte (d1 * 8 + d2)) (read_literal_at depth r2)
                              | Some d3 =>
                                  emit (byte ((d1 * 64 + d2 * 8 + d3) mod 256))
                                    (read_literal_at depth r3)
                              end
                          end
                      end
                  end
              end
        end
      else emit c (read_literal_at depth r)
  end.

Definition read_literal (s : string) : option (string * string) :=
  read_literal_at O s.

(** The bytes of a text with every end of line, CR LF or a bare CR, read as
    one LF. *)
Fixpoint normalize_eol (s : string) : string :=
  match s with
  | EmptyString => EmptyString
  | String c r =>
      if (N_of_ascii c =? 13)%N then
        String (byte 10)
          match r with
          | String l r' => if (N_of_ascii l =? 10)%N then normalize_eol r'
                           else normalize_eol r
          | EmptyString => EmptyString
          end
      else String c (normalize_eol r)
  end.

End Pdf.

(** ** Uploaded images: validate_images and the upload step of add_listing *)

(** The two library functions validate_images applies to a file name, on
    strings of code points below 256: [str.lower] and [os.path.splitext]
    (posixpath: separator "/", extension separator "."). *)
Module PyPath.

Definition lower_char (c : ascii) : ascii :=
  let n := Py.code c in
  if (((65 <=? n) && (n <=? 90))
      || ((192 <=? n) && (n <=? 222) && negb (n =? 215)))%N
  then ascii_of_N (n + 32)
  else c.

Fixpoint lower (s : string) : string :=
  match s with
  | EmptyString => EmptyString
  | String c rest => String (lower_char c) (lower rest)
  end.

(** [p.rfind(c)]: the index of the last occurrence of [c], or -1. *)
Fixpoint rfind (c : ascii) (p : string) : Z :=
  match p with
  | EmptyString => -1
  | String a rest =>
      let r := rfind c rest in
      if 0 <=? r then r + 1
      else if Ascii.eqb a c then 0 else -1
  end.

(** [p[i:j]] for 0 <= i <= j. *)
Definition slice (p : string) (i j : Z) : string :=
  String.substring (Z.to_nat i) (Z.to_nat (j - i)) p.

Fixpoint any_char (f : ascii -> bool) (s : string) : bool :=
  match s with
  | EmptyString => false
  | String c rest => f c || any_char f rest
  end.

(** genericpath._splitext: the extension starts at the last dot, provided
    that dot comes after the last separator and some character between the
    separator and the dot is not a dot itself (the while loop skips the
    leading dots of the last component). *)
Definition splitext (p : string) : string * string :=
  let sepIndex := rfind "/" p in
  let dotIndex := rfind "." p in
  if (sepIndex <? dotIndex)
     && any_char (fun c => negb (Ascii.eqb c "."))
          (slice p (sepIndex + 1) dotIndex)
  then (slice p 0 dotIndex, slice p dotIndex (Z.of_nat (String.length p)))
  else (p, EmptyString).

End PyPath.

(** An uploaded file as validate_images sees it: its name, its MIME type,
    and the size that seek and tell report ([None] when the stream raises). *)
Record Image := mkImage {
  img_filename : string;
  img_mimetype : string;
  img_size : option Z
}.

Definition MAX_IMAGE_BYTES : Z := 1 * 1024 * 1024.

Definition allowed_exts : list string := [".jpg"; ".jpeg"; ".png"].

Definition allowed_mimes : list string := ["image/jpeg"; "image/png"].

Definition mem_string (s : string) (l : list string) : bool :=
  existsb (String.eqb s) l.

(** [not image or not image.filename]: a FileStorage is falsy exactly when
    its file name is empty. *)
Definition unnamed (image : Image) : bool := String.eqb (img_filename image) "".

(** The last message is kept as the bytes of its UTF-8 encoding. *)
Fixpoint validate_images (images : list Image) : bool * string :=
  match images with
  | [] => (true, "")
  | image :: rest =>
      if unnamed image then validate_images rest
      else
        let ext := snd (PyPath.splitext (PyPath.lower (img_filename image))) in
        if negb (mem_string ext allowed_exts)
        then (false, "Only JPG and PNG images are allowed.")
        else if negb (mem_string (img_mimetype image) allowed_mimes)
        then (false, "Only JPG and PNG images are allowed.")
        else
          match img_size image with
          | None => (false, "Could not read image size.")
          | Some size =>
              if MAX_IMAGE_BYTES <? size
              then (false, "Each image must be 1MB or меньше.")
              else validate_images rest
          end
  end.

(** add_listing on POST with the uploaded files. [accepted] is as in
    [add_listing]. The INSERT of the listing precedes the checks of the
    files, and the [with] block of the connection commits when the handler
    returns from inside it, so the row stays when the form is shown again.
    Writing the accepted files to the upload directory is taken to succeed;
    the rows of car_images are not part of the store. *)
Definition add_listing_upload (st : Store) (username : string) (accepted : bool)
    (images : list Image) : Store * Response :=
  match get_user_by_username st username with
  | None => (st, Redirect (Some "Please log in to add a listing."))
  | Some user =>
      if accepted
      then
        let st1 :=
          set_cars st
            (cars st ++ [mkCar (cars_seq st + 1) (u_id user) CAR_STATUS_ACTIVE])
            (cars_seq st + 1) in
        let images := List.filter (fun img => negb (unnamed img)) images in
        match validate_images images with
        | (false, msg) => (st1, Template (Some msg))
        | (true, _) =>
            if (15 <? List.length images)%nat
            then (st1, Template (Some "You can upload up to 15 photos."))
            else (st1, Redirect None)
        end
      else (st, Template None)
  end.

(** * Properties *)

(** ** Facts about queries on row lists *)

Section RowLists.
Context {A : Type}.
Implicit Types (p q : A -> bool) (l : list A).

Lemma find_none_filter p l : List.find p l = None -> List.filter p l = [].
Proof.
  induction l as [|x l IH]; simpl; [reflexivity|].
  destruct (p x); [discriminate|exact IH].
Qed.

Lemma find_some_filter p l x :
  List.find p l = Some x -> exists rest, List.filter p l = x :: rest.
Proof.
  induction l as [|y l IH]; simpl; [discriminate|].
  destruct (p y).
  - intros [= ->]. eauto.
  - exact IH.
Qed.

Lemma find_some_holds p l x : List.find p l = Some x -> p x = true /\ In x l.
Proof.
  induction l as [|y l IH]; simpl; [discriminate|].
  destruct (p y) eqn:E.
  - intros [= <-]. auto.
  - intros H. destruct (IH H). auto.
Qed.

Lemma find_app_none p l x :
  List.find p l = None -> List.find p (l ++ [x]) = if p x then Some x else None.
Proof.
  induction l as [|y l IH]; simpl; [reflexivity|].
  destruct (p y); [discriminate|exact IH].
Qed.

Lemma existsb_false_filter p l : List.existsb p l = false -> List.filter p l = [].
Proof.
  induction l as [|x l IH]; simpl; [reflexivity|].
  destruct (p x); simpl; [discriminate|exact IH].
Qed.

Lemma existsb_true_filter p l :
  List.existsb p l = true -> (1 <= List.length (List.filter p l))%nat.
Proof.
  induction l as [|x l IH]; simpl; [discriminate|].
  destruct (p x); simpl; [lia|exact IH].
Qed.

Lemma filter_map_same_key (f : A -> A) p l :
  (forall x, p (f x) = p x) ->
  List.filter p (List.map f l) = List.map f (List.filter p l).
Proof.
  intros Hf. induction l as [|x l IH]; simpl; [reflexivity|].
  rewrite Hf. destruct (p x); simpl; congruence.
Qed.

Lemma filter_filter_length p q l :
  (List.length (List.filter p (List.filter q l)) <= List.length (List.filter p l))%nat.
Proof.
  induction l as [|x l IH]; simpl; [lia|].
  destruct (q x); simpl; destruct (p x); simpl; lia.
Qed.

Lemma find_map_update (key : A -> Z) (f : A -> A) (k : Z) l x :
  (forall y, key (f y) = key y) ->
  List.find (fun y => key y =? k) l = Some x ->
  List.find (fun y => key y =? k)
    (List.map (fun y => if key y =? k then f y else y) l) = Some (f x).
Proof.
  intros Hf. induction l as [|y l IH]; simpl; [discriminate|].
  destruct (key y =? k) eqn:E.
  - intros [= ->]. simpl. rewrite Hf, E. reflexivity.
  - simpl. rewrite E. exact IH.
Qed.

Lemma find_map_update_none (key : A -> Z) (f : A -> A) (k : Z) l :
  (forall y, key (f y) = key y) ->
  List.find (fun y => key y =? k) l = None ->
  List.find (fun y => key y =? k)
    (List.map (fun y => if key y =? k then f y else y) l) = None.
Proof.
  intros Hf. induction l as [|y l IH]; simpl; [reflexivity|].
  destruct (key y =? k) eqn:E; [discriminate|].
  simpl. rewrite E. exact IH.
Qed.

Lemma map_update_idempotent (key : A -> Z) (f : A -> A) (k : Z) l :
  (forall y, key (f y) = key y) -> (forall y, f (f y) = f y) ->
  List.map (fun y => if key y =? k then f y else y)
    (List.map (fun y => if key y =? k then f y else y) l)
  = List.map (fun y => if key y =? k then f y else y) l.
Proof.
  intros Hk Hf. rewrite List.map_map. apply List.map_ext. intros y.
  destruct (key y =? k) eqn:E.
  - rewrite Hk, E. apply Hf.
  - rewrite E. reflexivity.
Qed.
End RowLists.

(** Case analysis on the branch a handler takes. *)
Ltac branch :=
  match goal with
  | |- context [match ?x with _ => _ end] => destruct x eqn:?
  end.

Ltac branches := repeat (branch; simpl in *); simpl in *.

(** Every store obtained by running requests from a reachable store is
    reachable. *)
Lemma reachable_run st reqs : reachable st -> reachable (run st reqs).
Proof.
  revert st. induction reqs as [|[now req] reqs IH]; intros st H; simpl.
  - exact H.
  - apply IH. constructor. exact H.
Qed.

(** ** Threads *)

Lemma threads_for_after_create st now car_id seller_id buyer_id l s b :
  threads_for
    (set_threads st
       (threads st ++ [mkThread (threads_seq st + 1) car_id seller_id buyer_id now])
       (threads_seq st + 1)) l s b
  = threads_for st l s b ++
    (if (car_id =? l) && (seller_id =? s) && (buyer_id =? b)
     then [mkThread (threads_seq st + 1) car_id seller_id buyer_id now] else []).
Proof.
  unfold threads_for. simpl. rewrite List.filter_app. reflexivity.
Qed.

Lemma get_or_create_thread_unique st now car_id seller_id buyer_id :
  threads_unique st ->
  threads_unique (fst (get_or_create_thread st now car_id seller_id buyer_id)).
Proof.
  intros Hu. unfold get_or_create_thread.
  destruct (List.find _ (threads st)) eqn:Hfind; simpl; [exact Hu|].
  intros l s b. rewrite threads_for_after_create.
  destruct ((car_id =? l) && (seller_id =? s) && (buyer_id =? b)) eqn:E.
  - apply andb_prop in E as [E Eb]. apply andb_prop in E as [El Es].
    apply Z.eqb_eq in El, Es, Eb. subst l s b.
    apply find_none_filter in Hfind. unfold threads_for. rewrite Hfind.
    simpl. lia.
  - rewrite List.app_nil_r. apply Hu.
Qed.

Lemma remove_car_record_threads st car_id :
  threads (fst (remove_car_record st car_id)) = threads st.
Proof.
  unfold remove_car_record. destruct (get_car_by_id st car_id); [|reflexivity].
  simpl. destruct (List.map _ _); reflexivity.
Qed.

Lemma handle_threads_unique st now req :
  threads_unique st -> threads_unique (fst (handle st now req)).
Proof.
  intros Hu. destruct req; simpl;
    try (unfold threads_unique, threads_for in *;
         rewrite remove_car_record_threads; exact Hu).
  all: try match goal with
       | |- context [new_message] =>
           unfold new_message; branches; auto using get_or_create_thread_unique
       end.
  all: unfold register, add_listing, complete_car, delete_car, message_thread,
         toggle_favorite, admin_verify_user, admin_delete_car, admin_delete_rating,
         verify_seller, rate_transaction, upsert_rating, confirm_transaction,
         cancel_transaction;
       branches; try exact Hu;
       unfold threads_unique, threads_for in *; simpl;
       try rewrite remove_car_record_threads; exact Hu.
Qed.

Lemma reachable_threads_unique st : reachable st -> threads_unique st.
Proof.
  induction 1 as [|st now req _ IH].
  - intros l s b. simpl. lia.
  - apply handle_threads_unique, IH.
Qed.

(** C8. get_or_create_thread is idempotent: in every reachable store, a
    second call with the same (listing, seller, buyer) returns the id the
    first call returned and leaves the store as the first call left it, so no
    second row is created; after the call exactly one thread carries the
    triple, its id is the one returned, and no reachable store holds two
    threads for one triple. *)
Theorem get_or_create_thread_idempotent st now1 now2 car_id seller_id buyer_id :
  reachable st ->
  let st1 := fst (get_or_create_thread st now1 car_id seller_id buyer_id) in
  let id1 := snd (get_or_create_thread st now1 car_id seller_id buyer_id) in
  get_or_create_thread st1 now2 car_id seller_id buyer_id = (st1, id1)
  /\ (exists th, threads_for st1 car_id seller_id buyer_id = [th] /\ th_id th = id1)
  /\ threads_unique st /\ threads_unique st1.
Proof.
  intros Hr. pose proof (reachable_threads_unique st Hr) as Hu.
  pose proof (get_or_create_thread_unique st now1 car_id seller_id buyer_id Hu) as Hu1.
  cbv zeta. split; [|split; [|split; assumption]].
  - unfold get_or_create_thread.
    destruct (List.find _ (threads st)) as [row|] eqn:Hfind; simpl.
    + rewrite Hfind. reflexivity.
    + rewrite (find_app_none _ _ _ Hfind). simpl.
      rewrite !Z.eqb_refl. reflexivity.
  - unfold get_or_create_thread.
    destruct (List.find _ (threads st)) as [row|] eqn:Hfind; simpl.
    + destruct (find_some_filter _ _ _ Hfind) as [rest Hrest].
      specialize (Hu car_id seller_id buyer_id). unfold threads_for in *.
      rewrite Hrest in Hu. destruct rest; [|simpl in Hu; lia].
      exists row. rewrite Hrest. split; reflexivity.
    + rewrite threads_for_after_create. rewrite !Z.eqb_refl. simpl.
      unfold threads_for. rewrite (find_none_filter _ _ Hfind). simpl.
      eexists. split; reflexivity.
Qed.

Lemma get_or_create_thread_idempotent_witness :
  reachable listed_store /\
  let st1 := fst (get_or_create_thread listed_store "2026-01-02T08:00:00" 1 2 3) in
  let id1 := snd (get_or_create_thread listed_store "2026-01-02T08:00:00" 1 2 3) in
  get_or_create_thread st1 "2026-01-02T08:30:00" 1 2 3 = (st1, id1)
  /\ (exists th, threads_for st1 1 2 3 = [th] /\ th_id th = id1)
  /\ threads_unique listed_store /\ threads_unique st1.
Proof.
  assert (H : reachable listed_store) by (apply reachable_run; constructor).
  split; [exact H|].
  exact (get_or_create_thread_idempotent listed_store
           "2026-01-02T08:00:00" "2026-01-02T08:30:00" 1 2 3 H).
Defined.

(** ** Favorites *)

Lemma toggle_favorite_flip st now username user car car_id :
  get_user_by_username st username = Some user ->
  get_car_by_id st car_id = Some car ->
  c_status car = CAR_STATUS_ACTIVE ->
  toggle_favorite st now username car_id
  = (set_favorites st
       (match favorites st !! (u_id user, car_id) with
        | Some _ => delete (u_id user, car_id) (favorites st)
        | None => <[(u_id user, car_id) := now]> (favorites st)
        end),
     Redirect None).
Proof.
  intros Hu Hc Hs. unfold toggle_favorite. rewrite Hu, Hc, Hs. simpl.
  destruct (favorites st !! (u_id user, car_id)); reflexivity.
Qed.



(** ** Transaction manager *)

Lemma Forall2_map_self {A : Type} (R : A -> A -> Prop) (f : A -> A) (l : list A) :
  (forall x, R x (f x)) -> List.Forall2 R l (List.map f l).
Proof.
  intros H. induction l; simpl; constructor; auto.
Qed.

Lemma update_tx_status_only_status s transaction_id ts :
  List.Forall2 (only_status_changed s transaction_id) ts
    (update_tx_status s transaction_id ts).
Proof.
  apply Forall2_map_self. intros t. unfold only_status_changed.
  destruct (t_id t =? transaction_id) eqn:E; simpl.
  - repeat split; auto. apply Z.eqb_eq in E. congruence.
  - repeat split; auto. apply Z.eqb_neq in E. congruence.
Qed.

Lemma find_transaction_updated st s transaction_id tx seq :
  find_transaction st transaction_id = Some tx ->
  find_transaction
    (set_transactions st (update_tx_status s transaction_id (transactions st)) seq)
    transaction_id = Some (tx_set_status s tx).
Proof.
  intros H. unfold find_transaction, update_tx_status in *. simpl.
  apply (find_map_update t_id (tx_set_status s)); [reflexivity|exact H].
Qed.

(** C4. confirm_transaction, called by the transaction's buyer, sets the
    status to completed whatever the status was (pending, completed or
    canceled): it answers with a plain redirect and no failure signal, the
    transaction rows keep every other field, rows with another id are
    untouched, and no other table changes, the listings in particular. *)
Theorem confirm_transaction_unconditional st username user transaction_id tx :
  get_user_by_username st username = Some user ->
  find_transaction st transaction_id = Some tx ->
  t_buyer_id tx = u_id user ->
  let st' := fst (confirm_transaction st username transaction_id) in
  snd (confirm_transaction st username transaction_id) = Redirect None
  /\ error_kind (snd (confirm_transaction st username transaction_id)) = None
  /\ find_transaction st' transaction_id = Some (tx_set_status completed tx)
  /\ List.Forall2 (only_status_changed completed transaction_id)
       (transactions st) (transactions st')
  /\ cars st' = cars st /\ users st' = users st /\ ratings st' = ratings st
  /\ threads st' = threads st /\ messages st' = messages st
  /\ favorites st' = favorites st.
Proof.
  intros Hu Ht Hb. unfold confirm_transaction. rewrite Hu, Ht, Hb, Z.eqb_refl.
  cbn [negb fst snd]. repeat split.
  - apply find_transaction_updated, Ht.
  - apply update_tx_status_only_status.
Qed.

Lemma confirm_transaction_unconditional_witness :
  find_transaction canceled_store 1
  = Some (mkTransaction 1 1 2 3 canceled "2026-01-02T10:00:00")
  /\ find_transaction (fst (confirm_transaction canceled_store "buyer" 1)) 1
     = Some (mkTransaction 1 1 2 3 completed "2026-01-02T10:00:00")
  /\ cars (fst (confirm_transaction canceled_store "buyer" 1)) = cars canceled_store.
Proof.
  split; [reflexivity|].
  refine (let H := confirm_transaction_unconditional canceled_store "buyer"
                     (mkUser 3 "buyer" "bea@example.com" false false) 1
                     (mkTransaction 1 1 2 3 canceled "2026-01-02T10:00:00")
                     eq_refl eq_refl eq_refl in _).
  destruct H as (_ & _ & Hf & _ & Hc & _).
  split; [exact Hf|exact Hc].
Defined.

Lemma get_car_by_id_updated st s car_id car seq :
  get_car_by_id st car_id = Some car ->
  get_car_by_id (set_cars st (update_car_status s car_id (cars st)) seq) car_id
  = Some (car_set_status s car).
Proof.
  intros H. unfold get_car_by_id, update_car_status in *. simpl.
  apply (find_map_update c_id (car_set_status s)); [reflexivity|exact H].
Qed.

(** C1, as the code has it. complete_car does not read the listing's
    status: whenever the caller owns the listing and the buyer field names
    another existing user, it sets the listing's status to completed and
    appends exactly one transaction, pending, for that listing, seller and
    buyer; this holds for an active listing and for one already completed. *)
Theorem complete_car_any_status st now username user car_id car buyer_id b buyer :
  get_user_by_username st username = Some user ->
  get_car_by_id st car_id = Some car ->
  c_user_id car = u_id user ->
  Py.isdigit (Py.strip buyer_id) = true ->
  Py.int (Py.strip buyer_id) = Some b ->
  b <> u_id user ->
  get_user_by_id st b = Some buyer ->
  let st' := fst (complete_car st now username car_id buyer_id) in
  snd (complete_car st now username car_id buyer_id) = Redirect None
  /\ get_car_by_id st' car_id = Some (car_set_status CAR_STATUS_COMPLETED car)
  /\ transactions st'
     = transactions st ++
       [mkTransaction (transactions_seq st + 1) car_id (u_id user) b pending now]
  /\ cars st' = update_car_status CAR_STATUS_COMPLETED car_id (cars st).
Proof.
  intros Hu Hc Ho Hd Hi Hne Hb. unfold complete_car.
  rewrite Hu, Hc, Ho, Z.eqb_refl. cbn [negb]. cbv zeta. rewrite Hd, Hi.
  cbn [negb]. apply Z.eqb_neq in Hne. rewrite Hne, Hb. cbn [fst snd].
  repeat split.
  apply (get_car_by_id_updated st CAR_STATUS_COMPLETED car_id car (cars_seq st) Hc).
Qed.

Lemma complete_car_any_status_witness :
  get_car_by_id reserved_store 1 = Some (mkCar 1 2 CAR_STATUS_COMPLETED)
  /\ transactions (fst (complete_car reserved_store "2026-01-05T10:00:00" "seller" 1 " 3 "))
     = transactions reserved_store ++
       [mkTransaction 2 1 2 3 pending "2026-01-05T10:00:00"].
Proof.
  split; [reflexivity|].
  refine (let H := complete_car_any_status reserved_store "2026-01-05T10:00:00"
                     "seller" (mkUser 2 "seller" "sam@example.com" false false)
                     1 (mkCar 1 2 CAR_STATUS_COMPLETED) " 3 " 3
                     (mkUser 3 "buyer" "bea@example.com" false false)
                     eq_refl eq_refl eq_refl eq_refl eq_refl
                     ltac:(intros E; vm_compute in E; discriminate E)
                     eq_refl in _).
  destruct H as (_ & _ & Ht & _). exact Ht.
Defined.

(** C1 fails as stated: on a listing that is already completed, complete_car
    answers with a plain redirect, not a refusal, and appends a second
    pending transaction. *)
Lemma complete_car_on_completed_listing :
  get_car_by_id reserved_store 1 = Some (mkCar 1 2 CAR_STATUS_COMPLETED)
  /\ complete_car reserved_store "2026-01-05T10:00:00" "seller" 1 "3"
     = (fst (complete_car reserved_store "2026-01-05T10:00:00" "seller" 1 "3"),
        Redirect None)
  /\ error_kind (snd (complete_car reserved_store "2026-01-05T10:00:00" "seller" 1 "3"))
     <> Some InvalidState
  /\ transactions (fst (complete_car reserved_store "2026-01-05T10:00:00" "seller" 1 "3"))
     = [mkTransaction 1 1 2 3 pending "2026-01-02T10:00:00";
        mkTransaction 2 1 2 3 pending "2026-01-05T10:00:00"].
Proof.
  repeat split; try reflexivity. vm_compute. discriminate.
Qed.

Lemma tx_set_status_twice s t : tx_set_status s (tx_set_status s t) = tx_set_status s t.
Proof. reflexivity. Qed.

Lemma car_set_status_twice s c : car_set_status s (car_set_status s c) = car_set_status s c.
Proof. reflexivity. Qed.

Lemma update_tx_status_twice s transaction_id ts :
  update_tx_status s transaction_id (update_tx_status s transaction_id ts)
  = update_tx_status s transaction_id ts.
Proof.
  apply (map_update_idempotent t_id (tx_set_status s)); reflexivity.
Qed.

Lemma update_car_status_twice s car_id cs :
  update_car_status s car_id (update_car_status s car_id cs)
  = update_car_status s car_id cs.
Proof.
  apply (map_update_idempotent c_id (car_set_status s)); reflexivity.
Qed.

Lemma get_car_by_id_updated_none st s car_id seq :
  get_car_by_id st car_id = None ->
  get_car_by_id (set_cars st (update_car_status s car_id (cars st)) seq) car_id = None.
Proof.
  intros H. unfold get_car_by_id, update_car_status in *. simpl.
  apply (find_map_update_none c_id (car_set_status s)); [reflexivity|exact H].
Qed.

(** C3, as the code has it. cancel_transaction, called by the buyer or the
    seller, does not read the transaction's status: on a pending, completed
    or already canceled transaction it sets the status to canceled and the
    status of the transaction's listing to active. Repeated at once it
    changes nothing more. *)
Theorem cancel_transaction_any_status st username user transaction_id tx :
  get_user_by_username st username = Some user ->
  find_transaction st transaction_id = Some tx ->
  (t_buyer_id tx = u_id user \/ t_seller_id tx = u_id user) ->
  let st1 := fst (cancel_transaction st username transaction_id) in
  snd (cancel_transaction st username transaction_id) = Redirect None
  /\ find_transaction st1 transaction_id = Some (tx_set_status canceled tx)
  /\ List.Forall2 (only_status_changed canceled transaction_id)
       (transactions st) (transactions st1)
  /\ cars st1 = update_car_status CAR_STATUS_ACTIVE (t_car_id tx) (cars st)
  /\ (forall car, get_car_by_id st (t_car_id tx) = Some car ->
        get_car_by_id st1 (t_car_id tx)
        = Some (car_set_status CAR_STATUS_ACTIVE car))
  /\ cancel_transaction st1 username transaction_id = (st1, Redirect None).
Proof.
  intros Hu Ht Hparty.
  assert (Hguard : negb (t_buyer_id tx =? u_id user)
                   && negb (t_seller_id tx =? u_id user) = false).
  { destruct Hparty as [-> | ->]; rewrite Z.eqb_refl; simpl;
      [reflexivity|apply andb_false_r]. }
  unfold cancel_transaction at 1 2 3. rewrite Hu, Ht, Hguard. cbn [fst snd]. cbv zeta.
  repeat split.
  - apply find_transaction_updated, Ht.
  - apply update_tx_status_only_status.
  - intros car Hc.
    match goal with
    | |- get_car_by_id (set_cars ?s _ ?q) _ = _ =>
        apply (get_car_by_id_updated s CAR_STATUS_ACTIVE (t_car_id tx) car q Hc)
    end.
  - unfold cancel_transaction.
    change (get_user_by_username (set_cars _ _ _) username)
      with (get_user_by_username st username).
    rewrite Hu.
    change (find_transaction (set_cars ?s _ _) transaction_id)
      with (find_transaction s transaction_id).
    rewrite (find_transaction_updated st canceled transaction_id tx
               (transactions_seq st) Ht).
    cbn [tx_set_status t_buyer_id t_seller_id t_car_id]. rewrite Hguard.
    cbv zeta. unfold set_cars, set_transactions.
    cbn [users users_seq cars cars_seq transactions transactions_seq ratings
         ratings_seq threads threads_seq messages messages_seq favorites].
    rewrite update_tx_status_twice, update_car_status_twice. reflexivity.
Qed.

Lemma cancel_transaction_any_status_witness :
  find_transaction reserved_store 1
  = Some (mkTransaction 1 1 2 3 pending "2026-01-02T10:00:00")
  /\ find_transaction (fst (cancel_transaction reserved_store "seller" 1)) 1
     = Some (mkTransaction 1 1 2 3 canceled "2026-01-02T10:00:00")
  /\ get_car_by_id (fst (cancel_transaction reserved_store "seller" 1)) 1
     = Some (mkCar 1 2 CAR_STATUS_ACTIVE).
Proof.
  split; [reflexivity|].
  refine (let H := cancel_transaction_any_status reserved_store "seller"
                     (mkUser 2 "seller" "sam@example.com" false false) 1
                     (mkTransaction 1 1 2 3 pending "2026-01-02T10:00:00")
                     eq_refl eq_refl (or_intror eq_refl) in _).
  destruct H as (_ & Hf & _ & _ & Hc & _).
  split; [exact Hf|].
  exact (Hc (mkCar 1 2 CAR_STATUS_COMPLETED) eq_refl).
Defined.

(** C3 fails as stated: transaction 1 is canceled, the listing has since been
    reserved again under transaction 2, and a second cancel of transaction 1
    is not a no-op: it puts the listing back to active while transaction 2 is
    pending. *)
Lemma cancel_twice_relists_reserved_listing :
  find_transaction rereserved_store 1
  = Some (mkTransaction 1 1 2 3 canceled "2026-01-02T10:00:00")
  /\ find_transaction rereserved_store 2
     = Some (mkTransaction 2 1 2 3 pending "2026-01-04T10:00:00")
  /\ get_car_by_id rereserved_store 1 = Some (mkCar 1 2 CAR_STATUS_COMPLETED)
  /\ get_car_by_id (fst (cancel_transaction rereserved_store "seller" 1)) 1
     = Some (mkCar 1 2 CAR_STATUS_ACTIVE)
  /\ find_transaction (fst (cancel_transaction rereserved_store "seller" 1)) 2
     = Some (mkTransaction 2 1 2 3 pending "2026-01-04T10:00:00")
  /\ fst (cancel_transaction rereserved_store "seller" 1) <> rereserved_store.
Proof.
  repeat split; try reflexivity.
  intros E. apply (f_equal cars) in E. vm_compute in E. discriminate E.
Qed.

(** ** Ratings and the status of their transaction *)

Lemma update_tx_status_keeps_not_pending s transaction_id ts t :
  s <> pending -> In t ts -> t_status t <> pending ->
  exists t', In t' (update_tx_status s transaction_id ts)
             /\ t_id t' = t_id t /\ t_status t' <> pending.
Proof.
  intros Hs Hin Hst. unfold update_tx_status.
  exists (if t_id t =? transaction_id then tx_set_status s t else t). split.
  - apply (List.in_map (fun t => if t_id t =? transaction_id
                                 then tx_set_status s t else t)), Hin.
  - destruct (t_id t =? transaction_id); simpl; auto.
Qed.

Lemma rated_not_pending_update_tx st s transaction_id seq :
  s <> pending -> rated_not_pending st ->
  rated_not_pending
    (set_transactions st (update_tx_status s transaction_id (transactions st)) seq).
Proof.
  intros Hs H r Hr. destruct (H r Hr) as (t & Hin & Hid & Hst).
  destruct (update_tx_status_keeps_not_pending s transaction_id _ t Hs Hin Hst)
    as (t' & Hin' & Hid' & Hst').
  exists t'. simpl. repeat split; auto. congruence.
Qed.

Lemma rated_not_pending_remove_car_record st car_id :
  rated_not_pending st -> rated_not_pending (fst (remove_car_record st car_id)).
Proof.
  intros H. unfold remove_car_record.
  destruct (get_car_by_id st car_id); [|exact H].
  cbv zeta. cbn [fst].
  destruct (List.map t_id (List.filter (fun t => t_car_id t =? car_id)
                             (transactions st))) as [|i ids] eqn:Hids.
  - intros r Hr. simpl in Hr. destruct (H r Hr) as (t & Hin & Hid & Hst).
    exists t. simpl. repeat split; auto.
    apply List.filter_In. split; [exact Hin|].
    destruct (t_car_id t =? car_id) eqn:E; [|reflexivity].
    assert (Hmem : In (t_id t) []).
    { rewrite <- Hids. apply List.in_map, List.filter_In. auto. }
    destruct Hmem.
  - rewrite <- Hids. intros r Hr. simpl in Hr.
    apply List.filter_In in Hr as [Hr Hkeep].
    destruct (H r Hr) as (t & Hin & Hid & Hst).
    exists t. simpl. repeat split; auto.
    apply List.filter_In. split; [exact Hin|].
    destruct (t_car_id t =? car_id) eqn:E; [|reflexivity].
    apply negb_true_iff in Hkeep.
    assert (Hex : List.existsb (Z.eqb (r_transaction_id r))
                    (List.map t_id (List.filter (fun t => t_car_id t =? car_id)
                                      (transactions st))) = true).
    { apply List.existsb_exists. exists (t_id t). split.
      - apply List.in_map, List.filter_In. auto.
      - apply Z.eqb_eq. congruence. }
    congruence.
Qed.

Lemma rated_not_pending_upsert st tx transaction_id rel acc com prod comment now :
  find_transaction st transaction_id = Some tx ->
  t_status tx = completed ->
  rated_not_pending st ->
  rated_not_pending
    (upsert_rating st transaction_id (t_seller_id tx) (t_buyer_id tx)
       rel acc com prod comment now).
Proof.
  intros Hf Hc H. unfold upsert_rating.
  destruct (List.existsb _ (ratings st)); intros r Hr; simpl in *.
  - apply List.in_map_iff in Hr as (r0 & Hr0 & Hin0).
    destruct (H r0 Hin0) as (t & Hin & Hid & Hst).
    exists t. repeat split; auto. rewrite Hid, <- Hr0.
    destruct (r_transaction_id r0 =? transaction_id); reflexivity.
  - apply List.in_app_iff in Hr as [Hr | [<- | []]].
    + exact (H r Hr).
    + apply find_some_holds in Hf as [Hid Hin]. apply Z.eqb_eq in Hid.
      exists tx. simpl. repeat split; auto. congruence.
Qed.

Lemma rate_transaction_rated_not_pending st now username transaction_id
    rel acc com prod comment :
  rated_not_pending st ->
  rated_not_pending
    (fst (rate_transaction st now username transaction_id rel acc com prod comment)).
Proof.
  intros H. unfold rate_transaction.
  destruct (get_user_by_username st username) as [user|]; [|exact H].
  cbv zeta. destruct (all_scores_valid _) as [[|]|]; try exact H.
  destruct (find_transaction st transaction_id) as [tx|] eqn:Hf; [|exact H].
  destruct (negb (t_buyer_id tx =? u_id user)
            || negb (tx_status_eqb (t_status tx) completed)) eqn:Hg; [exact H|].
  apply orb_false_elim in Hg as [_ Hs]. apply negb_false_iff in Hs.
  assert (Hc : t_status tx = completed) by (destruct (t_status tx); easy).
  destruct (Py.int (Py.strip rel)), (Py.int (Py.strip acc)),
    (Py.int (Py.strip com)), (Py.int (Py.strip prod)); try exact H.
  cbn [fst]. apply rated_not_pending_upsert; assumption.
Qed.

Lemma complete_car_rated_not_pending st now username car_id buyer_id :
  rated_not_pending st ->
  rated_not_pending (fst (complete_car st now username car_id buyer_id)).
Proof.
  intros H. unfold complete_car. branches; try exact H.
  intros r Hr. simpl in Hr. destruct (H r Hr) as (t & Hin & Hid & Hst).
  exists t. simpl. repeat split; auto. apply List.in_app_iff. auto.
Qed.

Lemma admin_delete_rating_rated_not_pending st username rating_id :
  rated_not_pending st ->
  rated_not_pending (fst (admin_delete_rating st username rating_id)).
Proof.
  intros H. unfold admin_delete_rating. branches; try exact H.
  intros r Hr. simpl in Hr. apply List.filter_In in Hr as [Hr _]. exact (H r Hr).
Qed.

Lemma handle_rated_not_pending st now req :
  rated_not_pending st -> rated_not_pending (fst (handle st now req)).
Proof.
  intros H. destruct req; simpl.
  - unfold register. branches; exact H.
  - unfold add_listing. branches; exact H.
  - apply complete_car_rated_not_pending, H.
  - apply rated_not_pending_remove_car_record, H.
  - unfold delete_car. branches; try exact H.
    apply rated_not_pending_remove_car_record, H.
  - unfold new_message, get_or_create_thread. branches; exact H.
  - unfold message_thread. branches; exact H.
  - unfold toggle_favorite. branches; exact H.
  - unfold admin_verify_user. branches; exact H.
  - unfold admin_delete_car. branches; try exact H.
    apply rated_not_pending_remove_car_record, H.
  - apply admin_delete_rating_rated_not_pending, H.
  - unfold verify_seller. branches; exact H.
  - apply rate_transaction_rated_not_pending, H.
  - unfold confirm_transaction. branches; try exact H.
    apply rated_not_pending_update_tx; [discriminate|exact H].
  - unfold cancel_transaction. branches; try exact H.
    apply (rated_not_pending_update_tx st canceled); [discriminate|exact H].
Qed.

Lemma reachable_rated_not_pending st : reachable st -> rated_not_pending st.
Proof.
  induction 1 as [|st now req _ IH].
  - intros r [].
  - apply handle_rated_not_pending, IH.
Qed.

Lemma tx_status_eqb_eq a b : tx_status_eqb a b = true <-> a = b.
Proof. destruct a, b; simpl; split; congruence. Qed.

Lemma rate_transaction_refused_unless_completed st now username transaction_id
    rel acc com prod comment tx :
  find_transaction st transaction_id = Some tx ->
  t_status tx <> completed ->
  fst (rate_transaction st now username transaction_id rel acc com prod comment) = st
  /\ snd (rate_transaction st now username transaction_id rel acc com prod comment)
     <> rated
  /\ (forall user,
        get_user_by_username st username = Some user ->
        all_scores_valid
          [Py.strip rel; Py.strip acc; Py.strip com; Py.strip prod] = Some true ->
        error_kind
          (snd (rate_transaction st now username transaction_id
                  rel acc com prod comment)) = Some InvalidState).
Proof.
  intros Hf Hs.
  assert (Hg : forall user,
             negb (t_buyer_id tx =? u_id user)
             || negb (tx_status_eqb (t_status tx) completed) = true).
  { intros user. destruct (tx_status_eqb (t_status tx) completed) eqn:E.
    - apply tx_status_eqb_eq in E. contradiction.
    - apply orb_true_r. }
  unfold rate_transaction.
  destruct (get_user_by_username st username) as [user|].
  - cbv zeta. destruct (all_scores_valid _) as [[|]|].
    + rewrite Hf, Hg. split; [reflexivity|]. split; [discriminate|reflexivity].
    + split; [reflexivity|]. split; [discriminate|]. intros user' _ [=].
    + split; [reflexivity|]. split; [discriminate|]. intros user' _ [=].
  - split; [reflexivity|]. split; [discriminate|]. intros user' [=].
Qed.

(** C2, as the code has it. A rating is written only while its transaction
    is completed: rate_transaction on a transaction that is pending or
    canceled changes nothing and is refused (InvalidState once the scores are
    valid). cancel_transaction keeps the rating rows. So in every reachable
    store a rated transaction exists and is completed or canceled, never
    pending. *)
Theorem rating_only_written_when_completed st :
  reachable st ->
  rated_not_pending st
  /\ (forall now username transaction_id rel acc com prod comment tx,
        find_transaction st transaction_id = Some tx ->
        t_status tx <> completed ->
        fst (rate_transaction st now username transaction_id
               rel acc com prod comment) = st
        /\ snd (rate_transaction st now username transaction_id
                  rel acc com prod comment) <> rated
        /\ (forall user,
              get_user_by_username st username = Some user ->
              all_scores_valid
                [Py.strip rel; Py.strip acc; Py.strip com; Py.strip prod]
              = Some true ->
              error_kind
                (snd (rate_transaction st now username transaction_id
                        rel acc com prod comment)) = Some InvalidState))
  /\ (forall username transaction_id,
        ratings (fst (cancel_transaction st username transaction_id)) = ratings st).
Proof.
  intros Hr. split; [apply reachable_rated_not_pending, Hr|]. split.
  - intros now username transaction_id rel acc com prod comment tx Hf Hs.
    exact (rate_transaction_refused_unless_completed st now username transaction_id
             rel acc com prod comment tx Hf Hs).
  - intros. unfold cancel_transaction. branches; reflexivity.
Qed.

Lemma rating_only_written_when_completed_witness :
  reachable reserved_store
  /\ rated_not_pending reserved_store
  /\ fst (rate_transaction reserved_store "2026-01-02T12:00:00" "buyer" 1
            "5" "5" "5" "5" "early") = reserved_store
  /\ error_kind
       (snd (rate_transaction reserved_store "2026-01-02T12:00:00" "buyer" 1
               "5" "5" "5" "5" "early")) = Some InvalidState.
Proof.
  assert (H : reachable reserved_store) by (do 2 apply reachable_run; constructor).
  split; [exact H|].
  destruct (rating_only_written_when_completed reserved_store H) as (Hinv & Hrate & _).
  split; [exact Hinv|].
  refine (let H1 := Hrate "2026-01-02T12:00:00" "buyer" 1 "5" "5" "5" "5" "early"
                      (mkTransaction 1 1 2 3 pending "2026-01-02T10:00:00")
                      eq_refl ltac:(discriminate) in _).
  destruct H1 as (Hst & _ & Hk).
  split; [exact Hst|].
  exact (Hk (mkUser 3 "buyer" "bea@example.com" false false) eq_refl eq_refl).
Defined.

(** C2 fails as stated: after the buyer rates the completed transaction 1 and
    then cancels it, the reachable store holds a rating row whose transaction
    is canceled. *)
Lemma rating_survives_cancel :
  reachable rated_canceled_store
  /\ ratings_for rated_canceled_store 1
     = [mkRating 1 1 2 3 5 4 5 5 "great" "2026-01-04T10:00:00"]
  /\ find_transaction rated_canceled_store 1
     = Some (mkTransaction 1 1 2 3 canceled "2026-01-02T10:00:00").
Proof.
  split; [do 5 apply reachable_run; constructor|].
  split; reflexivity.
Qed.

(** ** The UNIQUE constraint on ratings, and the upsert *)

Lemma ratings_unique_filter st (keep : Rating -> bool) seq :
  ratings_unique st ->
  ratings_unique (set_ratings st (List.filter keep (ratings st)) seq).
Proof.
  intros H tid. unfold ratings_for. simpl.
  etransitivity; [apply filter_filter_length|apply H].
Qed.

Lemma ratings_unique_remove_car_record st car_id :
  ratings_unique st -> ratings_unique (fst (remove_car_record st car_id)).
Proof.
  intros H. unfold remove_car_record.
  destruct (get_car_by_id st car_id); [|exact H].
  cbv zeta. cbn [fst]. destruct (List.map t_id _) as [|i ids].
  - exact H.
  - intros tid. apply (ratings_unique_filter st _ (ratings_seq st) H tid).
Qed.

Lemma ratings_for_upsert st transaction_id seller_id buyer_id
    rel acc com prod comment now tid :
  ratings_for
    (upsert_rating st transaction_id seller_id buyer_id rel acc com prod comment now)
    tid
  = if List.existsb (fun r => r_transaction_id r =? transaction_id) (ratings st)
    then List.map
           (fun r => if r_transaction_id r =? transaction_id
                     then rating_set_scores rel acc com prod comment r else r)
           (ratings_for st tid)
    else ratings_for st tid ++
         (if transaction_id =? tid
          then [mkRating (ratings_seq st + 1) transaction_id seller_id buyer_id
                  rel acc com prod comment now]
          else []).
Proof.
  unfold upsert_rating, ratings_for.
  destruct (List.existsb _ (ratings st)); simpl.
  - apply filter_map_same_key. intros r.
    destruct (r_transaction_id r =? transaction_id); reflexivity.
  - rewrite List.filter_app. reflexivity.
Qed.

Lemma ratings_unique_upsert st transaction_id seller_id buyer_id
    rel acc com prod comment now :
  ratings_unique st ->
  ratings_unique
    (upsert_rating st transaction_id seller_id buyer_id rel acc com prod comment now).
Proof.
  intros H tid. rewrite ratings_for_upsert.
  destruct (List.existsb _ (ratings st)) eqn:Hex.
  - rewrite List.length_map. apply H.
  - rewrite List.length_app. destruct (transaction_id =? tid) eqn:E.
    + apply Z.eqb_eq in E. subst tid. unfold ratings_for.
      rewrite (existsb_false_filter _ _ Hex). simpl. lia.
    + simpl. specialize (H tid). lia.
Qed.

(** After the upsert exactly one row carries the transaction id, and it
    holds the scores and the comment just written. *)
Lemma upsert_rating_single_row st transaction_id seller_id buyer_id
    rel acc com prod comment now :
  ratings_unique st ->
  exists r,
    ratings_for
      (upsert_rating st transaction_id seller_id buyer_id rel acc com prod comment now)
      transaction_id = [r]
    /\ r_transaction_id r = transaction_id
    /\ r_reliability r = rel /\ r_accuracy r = acc
    /\ r_communication r = com /\ r_product r = prod /\ r_comment r = comment.
Proof.
  intros H. rewrite ratings_for_upsert.
  destruct (List.existsb _ (ratings st)) eqn:Hex.
  - pose proof (existsb_true_filter _ _ Hex) as Hge.
    specialize (H transaction_id). unfold ratings_for in *.
    destruct (List.filter _ (ratings st)) as [|r0 [|r1 rest]] eqn:Hfl;
      simpl in H, Hge; try lia.
    assert (Hk : (r_transaction_id r0 =? transaction_id) = true).
    { assert (Hin : In r0 (List.filter
                             (fun r => r_transaction_id r =? transaction_id)
                             (ratings st))) by (rewrite Hfl; left; reflexivity).
      apply List.filter_In in Hin. apply Hin. }
    simpl. rewrite Hk. eexists. split; [reflexivity|].
    simpl. apply Z.eqb_eq in Hk. auto 8.
  - unfold ratings_for. rewrite (existsb_false_filter _ _ Hex), Z.eqb_refl.
    simpl. eexists. split; [reflexivity|]. simpl. auto 8.
Qed.

Lemma handle_ratings_unique st now req :
  ratings_unique st -> ratings_unique (fst (handle st now req)).
Proof.
  intros H. destruct req; simpl.
  - unfold register. branches; exact H.
  - unfold add_listing. branches; exact H.
  - unfold complete_car. branches; exact H.
  - apply ratings_unique_remove_car_record, H.
  - unfold delete_car. branches; try exact H.
    apply ratings_unique_remove_car_record, H.
  - unfold new_message, get_or_create_thread. branches; exact H.
  - unfold message_thread. branches; exact H.
  - unfold toggle_favorite. branches; exact H.
  - unfold admin_verify_user. branches; exact H.
  - unfold admin_delete_car. branches; try exact H.
    apply ratings_unique_remove_car_record, H.
  - unfold admin_delete_rating. branches; try exact H.
    intros tid. apply (ratings_unique_filter st _ (ratings_seq st) H tid).
  - unfold verify_seller. branches; exact H.
  - unfold rate_transaction. branches; try exact H.
    apply ratings_unique_upsert, H.
  - unfold confirm_transaction. branches; exact H.
  - unfold cancel_transaction. branches; exact H.
Qed.

Lemma reachable_ratings_unique st : reachable st -> ratings_unique st.
Proof.
  induction 1 as [|st now req _ IH].
  - intros tid. simpl. lia.
  - apply handle_ratings_unique, IH.
Qed.

(** What a successful rate_transaction did. *)
Lemma rate_transaction_rated st now username transaction_id
    rel acc com prod comment st' :
  rate_transaction st now username transaction_id rel acc com prod comment
  = (st', rated) ->
  exists user tx a b c d,
    get_user_by_username st username = Some user
    /\ find_transaction st transaction_id = Some tx
    /\ t_buyer_id tx = u_id user /\ t_status tx = completed
    /\ all_scores_valid [Py.strip rel; Py.strip acc; Py.strip com; Py.strip prod]
       = Some true
    /\ Py.int (Py.strip rel) = Some a /\ Py.int (Py.strip acc) = Some b
    /\ Py.int (Py.strip com) = Some c /\ Py.int (Py.strip prod) = Some d
    /\ st' = upsert_rating st transaction_id (t_seller_id tx) (t_buyer_id tx)
               a b c d (Py.strip comment) now.
Proof.
  unfold rate_transaction, rated.
  destruct (get_user_by_username st username) as [user|]; [|discriminate].
  cbv zeta. destruct (all_scores_valid _) as [[|]|] eqn:Hv; try discriminate.
  destruct (find_transaction st transaction_id) as [tx|]; [|discriminate].
  destruct (negb (t_buyer_id tx =? u_id user)
            || negb (tx_status_eqb (t_status tx) completed)) eqn:Hg; [discriminate|].
  apply orb_false_elim in Hg as [Hb Hs].
  apply negb_false_iff in Hb, Hs. apply Z.eqb_eq in Hb. apply tx_status_eqb_eq in Hs.
  destruct (Py.int (Py.strip rel)) as [a|], (Py.int (Py.strip acc)) as [b|],
    (Py.int (Py.strip com)) as [c|], (Py.int (Py.strip prod)) as [d|];
    try discriminate.
  intros [= <-]. exists user, tx, a, b, c, d. auto 12.
Qed.

(** C6. rate_transaction is an upsert keyed by the transaction id: after two
    successful calls for one transaction, whatever their scores and whatever
    requests were served in between, exactly one rating row refers to the
    transaction, and it holds the four scores and the comment of the later
    call; and no reachable store holds two rating rows for one transaction. *)
Theorem rate_transaction_upsert st st1 st2 now1 now2 username transaction_id
    rel1 acc1 com1 prod1 comment1 between rel2 acc2 com2 prod2 comment2 :
  reachable st ->
  rate_transaction st now1 username transaction_id rel1 acc1 com1 prod1 comment1
  = (st1, rated) ->
  rate_transaction (run st1 between) now2 username transaction_id
    rel2 acc2 com2 prod2 comment2
  = (st2, rated) ->
  (exists r,
     ratings_for st2 transaction_id = [r]
     /\ Py.int (Py.strip rel2) = Some (r_reliability r)
     /\ Py.int (Py.strip acc2) = Some (r_accuracy r)
     /\ Py.int (Py.strip com2) = Some (r_communication r)
     /\ Py.int (Py.strip prod2) = Some (r_product r)
     /\ r_comment r = Py.strip comment2)
  /\ ratings_unique st /\ ratings_unique st1 /\ ratings_unique st2.
Proof.
  intros Hr H1 H2.
  assert (Hr1 : reachable st1).
  { change st1 with (fst (st1, rated)). rewrite <- H1.
    apply (reachable_handle st now1
             (ReqRateTransaction username transaction_id rel1 acc1 com1 prod1 comment1)),
      Hr. }
  pose proof (reachable_run st1 between Hr1) as Hrb.
  assert (Hr2 : reachable st2).
  { change st2 with (fst (st2, rated)). rewrite <- H2.
    apply (reachable_handle (run st1 between) now2
             (ReqRateTransaction username transaction_id rel2 acc2 com2 prod2 comment2)),
      Hrb. }
  split; [|auto using reachable_ratings_unique].
  destruct (rate_transaction_rated _ _ _ _ _ _ _ _ _ _ H2)
    as (user & tx & a & b & c & d & _ & _ & _ & _ & _ & Ha & Hb & Hc & Hd & ->).
  destruct (upsert_rating_single_row (run st1 between) transaction_id (t_seller_id tx)
              (t_buyer_id tx) a b c d (Py.strip comment2) now2
              (reachable_ratings_unique _ Hrb))
    as (r & Hrow & _ & Er & Ea & Ec & Ep & Em).
  exists r. rewrite Hrow, Ha, Hb, Hc, Hd, Er, Ea, Ec, Ep, Em. auto 8.
Qed.

Lemma rate_transaction_upsert_witness :
  reachable confirmed_store
  /\ exists r,
       ratings_for
         (fst (rate_transaction
                 (fst (rate_transaction confirmed_store "2026-01-04T10:00:00"
                         "buyer" 1 "5" "4" "5" "5" "great"))
                 "2026-01-06T10:00:00" "buyer" 1 "2" "3" "1" "4" "on reflection"))
         1 = [r]
       /\ Py.int (Py.strip "2") = Some (r_reliability r)
       /\ Py.int (Py.strip "3") = Some (r_accuracy r)
       /\ Py.int (Py.strip "1") = Some (r_communication r)
       /\ Py.int (Py.strip "4") = Some (r_product r)
       /\ r_comment r = Py.strip "on reflection".
Proof.
  assert (H : reachable confirmed_store) by (do 3 apply reachable_run; constructor).
  split; [exact H|].
  exact (proj1 (rate_transaction_upsert confirmed_store _ _
                  "2026-01-04T10:00:00" "2026-01-06T10:00:00" "buyer" 1
                  "5" "4" "5" "5" "great" [] "2" "3" "1" "4" "on reflection"
                  H eq_refl eq_refl)).
Defined.

(** ** Seller verification *)

Lemma is_verified_update_true st user_id uid seq :
  is_verified st user_id ->
  is_verified (set_users st (update_verified true uid (users st)) seq) user_id.
Proof.
  intros (u & Hin & Hid & Hv). unfold update_verified.
  exists (if u_id u =? uid then user_set_verified true u else u). split.
  - simpl. apply (List.in_map (fun u => if u_id u =? uid
                                        then user_set_verified true u else u)), Hin.
  - destruct (u_id u =? uid); simpl; auto.
Qed.

Lemma verify_seller_grants st username user :
  get_user_by_username st username = Some user ->
  is_verified
    (set_users st (update_verified true (u_id user) (users st)) (users_seq st))
    (u_id user).
Proof.
  intros Hu. unfold get_user_by_username in Hu.
  destruct (String.eqb username ""); [discriminate|].
  apply find_some_holds in Hu as [_ Hin].
  exists (user_set_verified true user). split.
  - simpl. unfold update_verified. apply List.in_map_iff. exists user.
    rewrite Z.eqb_refl. auto.
  - split; reflexivity.
Qed.

Lemma handle_keeps_verified st now req user_id :
  is_admin_verify req = false ->
  is_verified st user_id -> is_verified (fst (handle st now req)) user_id.
Proof.
  intros Hreq H. destruct req; simpl in *; try discriminate.
  - unfold register. branches; try exact H.
    destruct H as (u & Hin & Hid & Hv). exists u. simpl.
    repeat split; auto. apply List.in_app_iff. auto.
  - unfold add_listing. branches; exact H.
  - unfold complete_car. branches; exact H.
  - unfold remove_car_record. branches; exact H.
  - unfold delete_car, remove_car_record. branches; exact H.
  - unfold new_message, get_or_create_thread. branches; exact H.
  - unfold message_thread. branches; exact H.
  - unfold toggle_favorite. branches; exact H.
  - unfold admin_delete_car, remove_car_record. branches; exact H.
  - unfold admin_delete_rating. branches; exact H.
  - unfold verify_seller. branches; try exact H.
    apply is_verified_update_true, H.
  - unfold rate_transaction, upsert_rating. branches; exact H.
  - unfold confirm_transaction. branches; exact H.
  - unfold cancel_transaction. branches; exact H.
Qed.

(** C9, as the code has it. verify_seller sets the caller's verified flag
    exactly when the caller agrees ("yes") and has at least five transactions
    with status completed as the seller; otherwise it changes nothing. It never
    clears a flag, and neither does any other request except the
    administrator's admin_verify_user, which sets or clears the flag of any
    user. *)
Theorem verify_seller_grants_and_only_admin_revokes st :
  (forall username user agree,
     get_user_by_username st username = Some user ->
     (agree = "yes" /\ 5 <= completed_sales st (u_id user) ->
        verify_seller st username agree
        = (set_users st (update_verified true (u_id user) (users st)) (users_seq st),
           Redirect (Some "Your seller profile is now verified."))
        /\ is_verified (fst (verify_seller st username agree)) (u_id user))
     /\ (~ (agree = "yes" /\ 5 <= completed_sales st (u_id user)) ->
           fst (verify_seller st username agree) = st))
  /\ (forall now req user_id,
        is_admin_verify req = false ->
        is_verified st user_id ->
        is_verified (fst (handle st now req)) user_id).
Proof.
  split.
  - intros username user agree Hu. unfold verify_seller. rewrite Hu. split.
    + intros [-> Hn]. simpl (negb _).
      destruct (completed_sales st (u_id user) <? 5) eqn:E.
      * apply Z.ltb_lt in E. lia.
      * split; [reflexivity|]. apply verify_seller_grants with username, Hu.
    + intros Hnot. destruct (String.eqb agree "yes") eqn:Ea; [|reflexivity].
      simpl. destruct (completed_sales st (u_id user) <? 5) eqn:E; [reflexivity|].
      exfalso. apply Hnot. apply String.eqb_eq in Ea. apply Z.ltb_ge in E. auto.
  - intros now req user_id. apply handle_keeps_verified.
Qed.

Lemma verify_seller_grants_and_only_admin_revokes_witness :
  get_user_by_username five_sales_store "seller"
  = Some (mkUser 2 "seller" "sam@example.com" false false)
  /\ completed_sales five_sales_store 2 = 5
  /\ is_verified (fst (verify_seller five_sales_store "seller" "yes")) 2
  /\ fst (verify_seller listed_store "seller" "yes") = listed_store
  /\ (is_verified granted_store 2 ->
      is_verified
        (fst (handle granted_store "2026-01-03T10:00:00"
                (ReqVerifySeller "seller" "no"))) 2).
Proof.
  split; [reflexivity|]. split; [reflexivity|].
  destruct (verify_seller_grants_and_only_admin_revokes five_sales_store) as [H5 _].
  destruct (verify_seller_grants_and_only_admin_revokes listed_store) as [H0 _].
  destruct (verify_seller_grants_and_only_admin_revokes granted_store) as [_ Hk].
  split; [|split].
  - refine (proj2 (proj1 (H5 "seller" (mkUser 2 "seller" "sam@example.com" false false)
                            "yes" eq_refl) (conj eq_refl _))).
    vm_compute. discriminate.
  - refine (proj2 (H0 "seller" (mkUser 2 "seller" "sam@example.com" false false)
                     "yes" eq_refl) _).
    intros [_ Hn]. vm_compute in Hn. apply Hn. reflexivity.
  - exact (Hk "2026-01-03T10:00:00" (ReqVerifySeller "seller" "no") 2 eq_refl).
Defined.

(** C9 fails as stated: the administrator sets the verified flag of a seller
    with no completed sale, who never opted in, and then clears it again;
    both stores are reachable. *)
Lemma admin_grants_and_revokes_verified :
  reachable granted_store /\ reachable revoked_store
  /\ completed_sales granted_store 2 = 0
  /\ get_user_by_id granted_store 2
     = Some (mkUser 2 "seller" "sam@example.com" true false)
  /\ get_user_by_id revoked_store 2
     = Some (mkUser 2 "seller" "sam@example.com" false false).
Proof.
  split; [do 2 apply reachable_run; constructor|].
  split; [do 3 apply reachable_run; constructor|].
  repeat split; reflexivity.
Qed.

(** ** Validation of the scores *)

Lemma int_acc_isdigit s : forall acc n,
  Py.int_acc acc s = Some n -> Py.all_chars Py.isdigit_char s = true.
Proof.
  induction s as [|c s IH]; intros acc n; simpl; [reflexivity|].
  unfold Py.isdigit_char. destruct (Py.isdecimal_char c); [|discriminate].
  intros H. simpl. exact (IH _ _ H).
Qed.

Lemma int_some_isdigit s n : Py.int s = Some n -> Py.isdigit s = true.
Proof.
  destruct s as [|c s]; [discriminate|].
  unfold Py.int, Py.isdigit. apply int_acc_isdigit.
Qed.







(** The scores are checked before the transaction is looked up: rating a
    transaction that does not exist with a score out of range is refused
    with the message of the score check. *)
Example rate_missing_transaction_with_bad_score :
  find_transaction confirmed_store 99 = None
  /\ rate_transaction confirmed_store "2026-01-04T10:00:00" "buyer" 99
       "9" "5" "5" "5" "great"
     = (confirmed_store, Redirect (Some "All ratings must be between 1 and 5.")).
Proof. split; reflexivity. Qed.

Lemma all_scores_valid_raises before s after :
  List.forallb score_ok before = true ->
  Py.isdigit s = true -> Py.int s = None ->
  all_scores_valid (before ++ s :: after) = None.
Proof.
  intros Hb Hd Hi. induction before as [|b before IH]; simpl.
  - rewrite Hd, Hi. reflexivity.
  - simpl in Hb. apply andb_prop in Hb as [Hok Hb]. unfold score_ok in Hok.
    destruct (Py.int b) as [n|] eqn:Hn; [|discriminate].
    rewrite (int_some_isdigit _ _ Hn), Hok. exact (IH Hb).
Qed.

(** C5. The claim is right and rate_transaction misses it by a slip: a score
    is tested with isdigit and then converted with int, and the two disagree
    on the superscript digits, which pass the first and make the second
    raise. For a logged-in caller, whenever one of the four stripped score
    fields passes isdigit and is rejected by int, the fields before it being
    valid scores, the handler ends in an uncaught exception. The field is not
    an integer between 1 and 5, yet no ValidationError is reported; nothing
    is written. *)
Theorem rate_transaction_score_slip st now username user transaction_id
    rel acc com prod comment before s after :
  get_user_by_username st username = Some user ->
  [Py.strip rel; Py.strip acc; Py.strip com; Py.strip prod] = before ++ s :: after ->
  List.forallb score_ok before = true ->
  Py.isdigit s = true ->
  Py.int s = None ->
  let out := rate_transaction st now username transaction_id rel acc com prod comment in
  out = (st, Abort500)
  /\ score_ok s = false
  /\ error_kind (snd out) = None.
Proof.
  intros Hu Hscores Hb Hd Hi out.
  assert (Hout : out = (st, Abort500)).
  { subst out. unfold rate_transaction. rewrite Hu. cbv zeta.
    rewrite Hscores, (all_scores_valid_raises before s after Hb Hd Hi).
    reflexivity. }
  rewrite Hout. split; [reflexivity|]. split; [|reflexivity].
  unfold score_ok. rewrite Hi. reflexivity.
Qed.

(** The buyer of the completed transaction 1 rates it 5, 2 (written as the
    superscript digit U+00B2), 5, 5. *)
Lemma rate_transaction_score_slip_witness :
  Py.isdigit superscript_two = true /\ Py.int superscript_two = None
  /\ may_rate confirmed_store (mkUser 3 "buyer" "bea@example.com" false false) 1
  /\ rate_transaction confirmed_store "2026-01-04T10:00:00" "buyer" 1
       "5" superscript_two "5" "5" "great"
     = (confirmed_store, Abort500)
  /\ error_kind
       (snd (rate_transaction confirmed_store "2026-01-04T10:00:00" "buyer" 1
               "5" superscript_two "5" "5" "great")) = None.
Proof.
  split; [reflexivity|]. split; [reflexivity|]. split.
  { eexists. split; [reflexivity|]. split; reflexivity. }
  destruct (rate_transaction_score_slip confirmed_store "2026-01-04T10:00:00"
              "buyer" (mkUser 3 "buyer" "bea@example.com" false false) 1
              "5" superscript_two "5" "5" "great" ["5"] superscript_two ["5"; "5"]
              eq_refl eq_refl eq_refl eq_refl eq_refl) as (H1 & _ & H2).
  split; [exact H1|exact H2].
Defined.

(** ** Opening a thread *)









Lemma mark_read_none_unread now thread_id viewer_id ms m :
  In m (mark_read now thread_id viewer_id ms) ->
  unread_for thread_id viewer_id m = false.
Proof.
  unfold mark_read. intros H. apply List.in_map_iff in H as (m0 & <- & _).
  fold (unread_for thread_id viewer_id m0).
  destruct (unread_for thread_id viewer_id m0) eqn:E; [|exact E].
  unfold unread_for. simpl. apply andb_false_r.
Qed.



(** A thread id with no row, below 2^63: the refusal. *)
Example message_thread_open_missing :
  sqlite_int 7 = true /\ find_thread messaging_store 7 = None
  /\ message_thread messaging_store "2026-01-02T09:00:00" "buyer" 7 GET ""
     = (messaging_store, Redirect (Some "Thread not found.")).
Proof. repeat split. Qed.

(** The seller's view of [messaging_store]: the two messages of the buyer
    are marked read at the time of the request, the seller's own message is
    untouched, and the three are listed oldest first. *)
Example seller_opens_thread :
  message_thread messaging_store "2026-01-02T09:00:00" "seller" 1 GET ""
  = (set_messages messaging_store
       [mkMessage 1 1 3 2 "Is this still available?" "2026-01-02T08:01:00"
          (Some "2026-01-02T09:00:00");
        mkMessage 2 1 2 3 "Yes." "2026-01-02T08:05:00" None;
        mkMessage 3 1 3 2 "Can I see it on Friday?" "2026-01-02T08:09:00"
          (Some "2026-01-02T09:00:00")] 3,
     MessageThreadPage
       [mkMessage 1 1 3 2 "Is this still available?" "2026-01-02T08:01:00"
          (Some "2026-01-02T09:00:00");
        mkMessage 2 1 2 3 "Yes." "2026-01-02T08:05:00" None;
        mkMessage 3 1 3 2 "Can I see it on Friday?" "2026-01-02T08:09:00"
          (Some "2026-01-02T09:00:00")]).
Proof. reflexivity. Qed.

(** * Further properties of the handlers *)

(** ** Row ids *)

Lemma ids_ok_app {A : Type} (key : A -> Z) rows seq x :
  ids_ok key rows seq -> key x = seq + 1 -> ids_ok key (rows ++ [x]) (seq + 1).
Proof.
  intros (H0 & Hr & Hu) Hx. split; [lia|]. split.
  - intros r Hin. apply List.in_app_iff in Hin as [Hin | [<- | []]].
    + specialize (Hr r Hin). lia.
    + lia.
  - intros k. rewrite List.filter_app, List.length_app. simpl.
    destruct (key x =? k) eqn:E; simpl; [|specialize (Hu k); lia].
    apply Z.eqb_eq in E.
    destruct (List.filter (fun r => key r =? k) rows) as [|r rest] eqn:Hf;
      [simpl; lia|].
    assert (Hin : In r (List.filter (fun r => key r =? k) rows))
      by (rewrite Hf; left; reflexivity).
    apply List.filter_In in Hin as [Hin Hk]. apply Z.eqb_eq in Hk.
    specialize (Hr r Hin). lia.
Qed.

Lemma ids_ok_map {A : Type} (key : A -> Z) (f : A -> A) rows seq :
  (forall r, key (f r) = key r) ->
  ids_ok key rows seq -> ids_ok key (List.map f rows) seq.
Proof.
  intros Hf (H0 & Hr & Hu). split; [exact H0|]. split.
  - intros r Hin. apply List.in_map_iff in Hin as (r0 & <- & Hin).
    rewrite Hf. exact (Hr r0 Hin).
  - intros k. rewrite (filter_map_same_key f (fun r => key r =? k)).
    + rewrite List.length_map. apply Hu.
    + intros r. rewrite Hf. reflexivity.
Qed.

Lemma ids_ok_filter {A : Type} (key : A -> Z) (keep : A -> bool) rows seq :
  ids_ok key rows seq -> ids_ok key (List.filter keep rows) seq.
Proof.
  intros (H0 & Hr & Hu). split; [exact H0|]. split.
  - intros r Hin. apply List.filter_In in Hin as [Hin _]. exact (Hr r Hin).
  - intros k. etransitivity; [apply filter_filter_length|apply Hu].
Qed.

Ltac ids_ok_step :=
  first
    [ assumption
    | apply ids_ok_app; [assumption|reflexivity]
    | apply ids_ok_filter; assumption
    | apply ids_ok_map;
        [intros ?; repeat branch; reflexivity|assumption] ].

Ltac store_ids_ok_tac :=
  unfold store_ids_ok in *; simpl;
  repeat match goal with H : _ /\ _ |- _ => destruct H end;
  (split; [|split; [|split; [|split; [|split]]]]); ids_ok_step.

Lemma remove_car_record_ids_ok st car_id :
  store_ids_ok st -> store_ids_ok (fst (remove_car_record st car_id)).
Proof.
  intros H. unfold remove_car_record.
  destruct (get_car_by_id st car_id); [|exact H].
  cbv zeta. destruct (List.map t_id _); store_ids_ok_tac.
Qed.

Lemma handle_ids_ok st now req :
  store_ids_ok st -> store_ids_ok (fst (handle st now req)).
Proof.
  intros H. destruct req; simpl.
  - unfold register. branches; try exact H. store_ids_ok_tac.
  - unfold add_listing. branches; try exact H. store_ids_ok_tac.
  - unfold complete_car. branches; try exact H. store_ids_ok_tac.
  - apply remove_car_record_ids_ok, H.
  - unfold delete_car. branches; try exact H. apply remove_car_record_ids_ok, H.
  - unfold new_message, get_or_create_thread. branches; try exact H.
    store_ids_ok_tac.
  - unfold message_thread. branches; try exact H; store_ids_ok_tac.
  - unfold toggle_favorite. branches; exact H.
  - unfold admin_verify_user. branches; try exact H. store_ids_ok_tac.
  - unfold admin_delete_car. branches; try exact H.
    apply remove_car_record_ids_ok, H.
  - unfold admin_delete_rating. branches; try exact H. store_ids_ok_tac.
  - unfold verify_seller. branches; try exact H. store_ids_ok_tac.
  - unfold rate_transaction, upsert_rating. branches; try exact H;
      store_ids_ok_tac.
  - unfold confirm_transaction. branches; try exact H. store_ids_ok_tac.
  - unfold cancel_transaction. branches; try exact H. store_ids_ok_tac.
Qed.

Lemma init_db_ids_ok : store_ids_ok init_db.
Proof.
  unfold store_ids_ok, ids_ok. simpl.
  repeat split; try lia; try (intros ? []).
  - destruct H as [<- | []]. simpl. lia.
  - destruct H as [<- | []]. simpl. lia.
  - intros k. destruct k as [|q|q]; simpl; try lia.
    destruct (1 =? q)%positive; simpl; lia.
Qed.

Lemma reachable_ids_ok st : reachable st -> store_ids_ok st.
Proof.
  induction 1 as [|st now req _ IH].
  - exact init_db_ids_ok.
  - apply handle_ids_ok, IH.
Qed.

(** ** Accounts *)

Lemma get_user_by_username_some st username u :
  get_user_by_username st username = Some u ->
  In u (users st) /\ u_username u = username /\ username <> "".
Proof.
  unfold get_user_by_username.
  destruct (String.eqb username "") eqn:E; [discriminate|].
  intros H. apply find_some_holds in H as [Hp Hin].
  apply String.eqb_eq in Hp. apply String.eqb_neq in E. auto.
Qed.

Lemma get_user_by_id_some st user_id u :
  get_user_by_id st user_id = Some u ->
  In u (users st) /\ u_id u = user_id /\ user_id <> 0.
Proof.
  unfold get_user_by_id. destruct (user_id =? 0) eqn:E; [discriminate|].
  intros H. apply find_some_holds in H as [Hp Hin].
  apply Z.eqb_eq in Hp. apply Z.eqb_neq in E. auto.
Qed.

Lemma filter_at_most_one {A : Type} (p : A -> bool) l x y :
  (List.length (List.filter p l) <= 1)%nat ->
  In x l -> In y l -> p x = true -> p y = true -> x = y.
Proof.
  induction l as [|z l IH]; simpl; [intros _ []|].
  intros Hlen Hx Hy Px Py. destruct (p z) eqn:Pz.
  - simpl in Hlen.
    assert (Hnil : List.filter p l = []).
    { destruct (List.filter p l); [reflexivity|simpl in Hlen; lia]. }
    assert (Hno : forall w, In w l -> p w = true -> False).
    { intros w Hw Pw.
      assert (Hin : In w (List.filter p l)) by (apply List.filter_In; auto).
      rewrite Hnil in Hin. exact Hin. }
    destruct Hx as [<- | Hx], Hy as [<- | Hy]; try reflexivity;
      exfalso; eauto.
  - destruct Hx as [<- | Hx]; [congruence|].
    destruct Hy as [<- | Hy]; [congruence|]. auto.
Qed.

Lemma ids_ok_unique {A : Type} (key : A -> Z) rows seq x y :
  ids_ok key rows seq -> In x rows -> In y rows -> key x = key y -> x = y.
Proof.
  intros (_ & _ & Hu) Hx Hy E.
  apply (filter_at_most_one (fun r => key r =? key x) rows x y (Hu (key x)));
    auto; apply Z.eqb_eq; congruence.
Qed.

Lemma existsb_false_forall {A : Type} (p : A -> bool) l x :
  List.existsb p l = false -> In x l -> p x = false.
Proof.
  intros H Hin. destruct (p x) eqn:E; [|reflexivity].
  rewrite <- H. symmetry. apply List.existsb_exists. eauto.
Qed.

Lemma filter_none {A : Type} (p : A -> bool) l :
  (forall x, In x l -> p x = false) -> List.filter p l = [].
Proof.
  induction l as [|x l IH]; intros H; simpl; [reflexivity|].
  rewrite (H x (or_introl eq_refl)). apply IH. intros y Hy. apply H. right. exact Hy.
Qed.

Lemma users_unique_update_verified st v uid seq :
  users_unique st ->
  users_unique (set_users st (update_verified v uid (users st)) seq).
Proof.
  intros (Hn & He & Hi). unfold users_unique, update_verified. cbn [users set_users].
  split; [|split]; intros k;
    rewrite filter_map_same_key, List.length_map;
    try (intros u; destruct (u_id u =? uid); reflexivity);
    [apply Hn|apply He|apply Hi].
Qed.

Lemma users_unique_register st username email :
  store_ids_ok st -> users_unique st ->
  List.existsb
    (fun u => String.eqb (u_username u) username || String.eqb (u_email u) email)
    (users st) = false ->
  users_unique
    (set_users st
       (users st ++ [mkUser (users_seq st + 1) username email false false])
       (users_seq st + 1)).
Proof.
  intros ((_ & Hrange & _) & _) (Hn & He & Hi) Hfree.
  assert (Hnew : forall u, In u (users st) ->
            String.eqb (u_username u) username = false
            /\ String.eqb (u_email u) email = false
            /\ (u_id u =? users_seq st + 1) = false).
  { intros u Hu. specialize (Hrange u Hu).
    pose proof (existsb_false_forall _ _ u Hfree Hu) as Hp. simpl in Hp.
    apply orb_false_elim in Hp as [Hp1 Hp2].
    split; [exact Hp1|]. split; [exact Hp2|]. apply Z.eqb_neq. lia. }
  unfold users_unique. cbn [users set_users].
  split; [|split]; intros k; rewrite List.filter_app, List.length_app;
    cbn [List.filter u_username u_email u_id].
  - destruct (String.eqb username k) eqn:E; cbn [List.length]; [|specialize (Hn k); lia].
    apply String.eqb_eq in E. subst k.
    rewrite filter_none; [simpl; lia|]. intros u Hu. exact (proj1 (Hnew u Hu)).
  - destruct (String.eqb email k) eqn:E; cbn [List.length]; [|specialize (He k); lia].
    apply String.eqb_eq in E. subst k.
    rewrite filter_none; [simpl; lia|]. intros u Hu. exact (proj1 (proj2 (Hnew u Hu))).
  - destruct (users_seq st + 1 =? k) eqn:E; cbn [List.length]; [|specialize (Hi k); lia].
    apply Z.eqb_eq in E. subst k.
    rewrite filter_none; [simpl; lia|]. intros u Hu. exact (proj2 (proj2 (Hnew u Hu))).
Qed.

Lemma handle_users_unique st now req :
  store_ids_ok st -> users_unique st -> users_unique (fst (handle st now req)).
Proof.
  intros Hids H. destruct req; simpl.
  - unfold register. branches; try exact H.
    apply users_unique_register; assumption.
  - unfold add_listing. branches; exact H.
  - unfold complete_car. branches; exact H.
  - unfold remove_car_record. branches; exact H.
  - unfold delete_car, remove_car_record. branches; exact H.
  - unfold new_message, get_or_create_thread. branches; exact H.
  - unfold message_thread. branches; exact H.
  - unfold toggle_favorite. branches; exact H.
  - unfold admin_verify_user. branches; try exact H.
    apply users_unique_update_verified, H.
  - unfold admin_delete_car, remove_car_record. branches; exact H.
  - unfold admin_delete_rating. branches; exact H.
  - unfold verify_seller. branches; try exact H.
    apply users_unique_update_verified, H.
  - unfold rate_transaction, upsert_rating. branches; exact H.
  - unfold confirm_transaction. branches; exact H.
  - unfold cancel_transaction. branches; exact H.
Qed.

Lemma reachable_users_unique st : reachable st -> users_unique st.
Proof.
  induction 1 as [|st now req Hr IH].
  - split; [|split]; intros k; simpl;
      match goal with |- context [if ?b then _ else _] => destruct b end;
      simpl; lia.
  - apply handle_users_unique; [apply reachable_ids_ok, Hr|exact IH].
Qed.

(** X1. A registration that succeeds creates the account it was asked for:
    the stripped username was free before, it now resolves to a new row with
    the next id and the stripped email, neither verified nor administrator,
    and every other username resolves as it did. *)
Theorem register_creates_account st first_name last_name username email
    password confirm_password st' msg :
  register st POST first_name last_name username email password confirm_password
  = (st', Redirect msg) ->
  get_user_by_username st (Py.strip username) = None
  /\ get_user_by_username st' (Py.strip username)
     = Some (mkUser (users_seq st + 1) (Py.strip username) (Py.strip email)
               false false)
  /\ (forall other, other <> Py.strip username ->
        get_user_by_username st' other = get_user_by_username st other)
  /\ List.length (users st') = S (List.length (users st)).
Proof.
  unfold register. cbv zeta.
  destruct (_ || String.eqb confirm_password "") eqn:Hempty; [discriminate|].
  destruct (negb (String.eqb password confirm_password)); [discriminate|].
  destruct (Z.of_nat (String.length password) <? 8); [discriminate|].
  destruct (List.existsb _ (users st)) eqn:Hfree; [discriminate|].
  intros [= <- _].
  assert (Hname : String.eqb (Py.strip username) "" = false).
  { repeat (apply orb_false_elim in Hempty as [Hempty ?]). assumption. }
  assert (Hnone : List.find (fun u => String.eqb (u_username u) (Py.strip username))
                    (users st) = None).
  { destruct (List.find _ (users st)) as [u|] eqn:Hf; [|reflexivity].
    apply find_some_holds in Hf as [Hp Hin].
    pose proof (existsb_false_forall _ _ u Hfree Hin) as Hq. simpl in Hq.
    rewrite Hp in Hq. discriminate. }
  unfold get_user_by_username. rewrite Hname. simpl.
  split; [exact Hnone|]. split; [|split].
  - rewrite (find_app_none _ _ _ Hnone). simpl.
    rewrite String.eqb_refl. reflexivity.
  - intros other Hne. destruct (String.eqb other ""); [reflexivity|].
    destruct (List.find (fun u => String.eqb (u_username u) other) (users st))
      as [u|] eqn:Hf.
    + clear -Hf. induction (users st) as [|x l IH]; simpl in *; [discriminate|].
      destruct (String.eqb (u_username x) other); auto.
    + rewrite (find_app_none _ _ _ Hf). simpl.
      destruct (String.eqb (Py.strip username) other) eqn:E; [|reflexivity].
      apply String.eqb_eq in E. congruence.
  - rewrite List.length_app. simpl. lia.
Qed.

Lemma register_creates_account_witness :
  get_user_by_username init_db "seller" = None
  /\ get_user_by_username
       (fst (register init_db POST "Sam" "Seller" " seller " "sam@example.com"
               "password1" "password1")) "seller"
     = Some (mkUser 2 "seller" "sam@example.com" false false).
Proof.
  refine (let H := register_creates_account init_db "Sam" "Seller" " seller "
                     "sam@example.com" "password1" "password1" _ _ eq_refl in _).
  destruct H as (H0 & H1 & _). split; [exact H0|exact H1].
Defined.

(** X2. In every reachable store no two accounts share a username, an email
    or an id: the users table holds at most one row for each. A registration
    whose stripped username or email is already taken is turned down and
    leaves the store as it was. *)
Theorem accounts_stay_unique st :
  reachable st ->
  users_unique st
  /\ (forall first_name last_name username email password confirm_password u,
        In u (users st) ->
        u_username u = Py.strip username \/ u_email u = Py.strip email ->
        fst (register st POST first_name last_name username email
               password confirm_password) = st
        /\ exists msg,
             snd (register st POST first_name last_name username email
                    password confirm_password) = Template (Some msg)).
Proof.
  intros Hr. split; [apply reachable_users_unique, Hr|].
  intros fn ln un em pw cpw u Hin Htaken. unfold register. cbv zeta.
  assert (Hex : List.existsb
                  (fun u => String.eqb (u_username u) (Py.strip un)
                            || String.eqb (u_email u) (Py.strip em)) (users st)
                = true).
  { apply List.existsb_exists. exists u. split; [exact Hin|].
    destruct Htaken as [-> | ->]; rewrite String.eqb_refl;
      [reflexivity|apply orb_true_r]. }
  rewrite Hex. branches; eauto.
Qed.

Lemma accounts_stay_unique_witness :
  reachable listed_store
  /\ users_unique listed_store
  /\ fst (register listed_store POST "Sid" "Squatter" "seller" "sid@example.com"
            "password9" "password9") = listed_store.
Proof.
  assert (H : reachable listed_store) by (apply reachable_run; constructor).
  split; [exact H|].
  destruct (accounts_stay_unique listed_store H) as [Hu Hreg].
  split; [exact Hu|].
  refine (proj1 (Hreg "Sid" "Squatter" "seller" "sid@example.com"
                   "password9" "password9"
                   (mkUser 2 "seller" "sam@example.com" false false) _ _)).
  - right. left. reflexivity.
  - left. reflexivity.
Defined.

(** ** Administrator rights *)

Lemma only_seeded_admin_update_verified st v uid seq :
  only_seeded_admin st ->
  only_seeded_admin (set_users st (update_verified v uid (users st)) seq).
Proof.
  intros H u Hin Ha. simpl in Hin. unfold update_verified in Hin.
  apply List.in_map_iff in Hin as (a & <- & Hin).
  destruct (u_id a =? uid); simpl in *; auto.
Qed.

Lemma handle_only_seeded_admin st now req :
  only_seeded_admin st -> only_seeded_admin (fst (handle st now req)).
Proof.
  intros H. destruct req; simpl.
  - unfold register. branches; try exact H.
    intros u Hin Ha. simpl in Hin.
    apply List.in_app_iff in Hin as [Hin | [<- | []]]; [auto|discriminate].
  - unfold add_listing. branches; exact H.
  - unfold complete_car. branches; exact H.
  - unfold remove_car_record. branches; exact H.
  - unfold delete_car, remove_car_record. branches; exact H.
  - unfold new_message, get_or_create_thread. branches; exact H.
  - unfold message_thread. branches; exact H.
  - unfold toggle_favorite. branches; exact H.
  - unfold admin_verify_user. branches; try exact H.
    apply only_seeded_admin_update_verified, H.
  - unfold admin_delete_car, remove_car_record. branches; exact H.
  - unfold admin_delete_rating. branches; exact H.
  - unfold verify_seller. branches; try exact H.
    apply only_seeded_admin_update_verified, H.
  - unfold rate_transaction, upsert_rating. branches; exact H.
  - unfold confirm_transaction. branches; exact H.
  - unfold cancel_transaction. branches; exact H.
Qed.

Lemma reachable_only_seeded_admin st : reachable st -> only_seeded_admin st.
Proof.
  induction 1 as [|st now req _ IH].
  - intros u [<- | []] _. split; reflexivity.
  - apply handle_only_seeded_admin, IH.
Qed.

Lemma admin_required_is_admin st username :
  only_seeded_admin st ->
  admin_required (get_user_by_username st username) = true -> username = "admin".
Proof.
  intros H. destruct (get_user_by_username st username) as [u|] eqn:Hu;
    [|discriminate].
  simpl. intros Ha. apply get_user_by_username_some in Hu as (Hin & Hn & _).
  destruct (H u Hin Ha) as [_ Hname]. congruence.
Qed.

(** X3. No request ever grants administrator rights: in every reachable
    store the only administrator is the account "admin" with id 1 seeded by
    init_db, so admin_verify_user, admin_delete_car and admin_delete_rating
    called under any other username change nothing. *)
Theorem admin_rights_never_granted st :
  reachable st ->
  only_seeded_admin st
  /\ (forall username, username <> "admin" ->
        (forall user_id value,
           admin_verify_user st username user_id value = (st, Redirect None))
        /\ (forall car_id, admin_delete_car st username car_id = (st, Redirect None))
        /\ (forall rating_id,
              admin_delete_rating st username rating_id = (st, Redirect None))).
Proof.
  intros Hr. pose proof (reachable_only_seeded_admin st Hr) as H.
  split; [exact H|]. intros username Hne.
  assert (Hno : admin_required (get_user_by_username st username) = false).
  { destruct (admin_required (get_user_by_username st username)) eqn:E;
      [|reflexivity].
    exfalso. apply Hne. exact (admin_required_is_admin st username H E). }
  unfold admin_verify_user, admin_delete_car, admin_delete_rating.
  rewrite Hno. simpl. auto.
Qed.

Lemma admin_rights_never_granted_witness :
  reachable rated_store
  /\ only_seeded_admin rated_store
  /\ admin_delete_rating rated_store "seller" "1" = (rated_store, Redirect None).
Proof.
  assert (H : reachable rated_store) by (do 4 apply reachable_run; constructor).
  split; [exact H|].
  destruct (admin_rights_never_granted rated_store H) as [Ha Hno].
  split; [exact Ha|].
  refine (proj2 (proj2 (Hno "seller" _)) "1"). discriminate.
Defined.

(** ** Shape of the transaction rows *)

Lemma in_map_update {A : Type} (f : A -> A) (l : list A) x :
  In x l -> In (f x) (List.map f l).
Proof. apply List.in_map. Qed.

Lemma exists_user_update_verified st v uid seq id :
  (exists u, In u (users st) /\ u_id u = id) ->
  exists u, In u (users (set_users st (update_verified v uid (users st)) seq))
            /\ u_id u = id.
Proof.
  intros (u & Hin & Hid). simpl. unfold update_verified.
  exists (if u_id u =? uid then user_set_verified v u else u). split.
  - apply (List.in_map (fun u => if u_id u =? uid
                                 then user_set_verified v u else u)), Hin.
  - destruct (u_id u =? uid); exact Hid.
Qed.

Lemma exists_car_update_status s car_id cs id owner :
  (exists c, In c cs /\ c_id c = id /\ c_user_id c = owner) ->
  exists c, In c (update_car_status s car_id cs) /\ c_id c = id
            /\ c_user_id c = owner.
Proof.
  intros (c & Hin & Hid & Ho). unfold update_car_status.
  exists (if c_id c =? car_id then car_set_status s c else c). split.
  - apply (List.in_map (fun c => if c_id c =? car_id
                                 then car_set_status s c else c)), Hin.
  - destruct (c_id c =? car_id); simpl; auto.
Qed.

Lemma transactions_wellformed_users st us seq :
  (forall id, (exists u, In u (users st) /\ u_id u = id) ->
              exists u, In u us /\ u_id u = id) ->
  transactions_wellformed st -> transactions_wellformed (set_users st us seq).
Proof.
  intros Hus H t Hin. destruct (H t Hin) as (Hne & Hs & Hb & Hc).
  repeat split; auto.
Qed.

Lemma transactions_wellformed_update_tx st s transaction_id seq :
  transactions_wellformed st ->
  transactions_wellformed
    (set_transactions st (update_tx_status s transaction_id (transactions st)) seq).
Proof.
  intros H t Hin. simpl in Hin. unfold update_tx_status in Hin.
  apply List.in_map_iff in Hin as (t0 & <- & Hin).
  destruct (H t0 Hin) as (Hne & Hs & Hb & Hc).
  destruct (t_id t0 =? transaction_id); simpl; auto.
Qed.

Lemma transactions_wellformed_update_car st s car_id seq :
  transactions_wellformed st ->
  transactions_wellformed
    (set_cars st (update_car_status s car_id (cars st)) seq).
Proof.
  intros H t Hin. destruct (H t Hin) as (Hne & Hs & Hb & Hc).
  repeat split; auto. simpl. apply exists_car_update_status, Hc.
Qed.

Lemma transactions_wellformed_remove_car_record st car_id :
  transactions_wellformed st ->
  transactions_wellformed (fst (remove_car_record st car_id)).
Proof.
  intros H. unfold remove_car_record.
  destruct (get_car_by_id st car_id) as [found|]; [|exact H].
  cbv zeta. cbn [fst].
  assert (Hgoal : forall st1,
            users st1 = users st -> cars st1 = cars st ->
            transactions st1 = transactions st ->
            transactions_wellformed
              (set_cars
                 (set_transactions st1
                    (List.filter (fun t => negb (t_car_id t =? car_id))
                       (transactions st1)) (transactions_seq st1))
                 (List.filter (fun c => negb (c_id c =? car_id))
                    (cars (set_transactions st1
                             (List.filter (fun t => negb (t_car_id t =? car_id))
                                (transactions st1)) (transactions_seq st1))))
                 (cars_seq (set_transactions st1
                              (List.filter (fun t => negb (t_car_id t =? car_id))
                                 (transactions st1)) (transactions_seq st1))))).
  { intros st1 Eu Ec Et t Hin. simpl in Hin. rewrite Et in Hin.
    apply List.filter_In in Hin as [Hin Hkeep].
    destruct (H t Hin) as (Hne & Hs & Hb & (c & Hc & Hid & Ho)).
    simpl. rewrite Eu, Ec. repeat split; auto.
    exists c. repeat split; auto. apply List.filter_In. split; [exact Hc|].
    rewrite Hid. exact Hkeep. }
  destruct (List.map t_id _); apply Hgoal; reflexivity.
Qed.

Lemma complete_car_transactions_wellformed st now username car_id buyer_id :
  transactions_wellformed st ->
  transactions_wellformed (fst (complete_car st now username car_id buyer_id)).
Proof.
  intros H. unfold complete_car.
  destruct (get_user_by_username st username) as [user|] eqn:Hu; [|exact H].
  destruct (get_car_by_id st car_id) as [car|] eqn:Hc; [|exact H].
  destruct (negb (c_user_id car =? u_id user)) eqn:Ho; [exact H|].
  cbv zeta. destruct (negb (Py.isdigit (Py.strip buyer_id))); [exact H|].
  destruct (Py.int (Py.strip buyer_id)) as [b|]; [|exact H].
  destruct (b =? u_id user) eqn:Hb; [exact H|].
  destruct (get_user_by_id st b) as [buyer|] eqn:Hbuyer; [|exact H].
  cbn [fst]. intros t Hin. simpl in Hin.
  apply negb_false_iff, Z.eqb_eq in Ho. apply Z.eqb_neq in Hb.
  apply get_user_by_username_some in Hu as (Hin_u & _ & _).
  apply get_user_by_id_some in Hbuyer as (Hin_b & Hid_b & _).
  apply find_some_holds in Hc as [Hcid Hin_c]. apply Z.eqb_eq in Hcid.
  apply List.in_app_iff in Hin as [Hin | [<- | []]]; simpl.
  - destruct (H t Hin) as (Hne & Hs & Hb' & Hcar).
    repeat split; auto. apply exists_car_update_status, Hcar.
  - repeat split; [congruence|eauto|eauto|].
    apply exists_car_update_status. exists car. auto.
Qed.

Lemma handle_transactions_wellformed st now req :
  transactions_wellformed st -> transactions_wellformed (fst (handle st now req)).
Proof.
  intros H. destruct req; simpl.
  - unfold register. branches; try exact H.
    apply transactions_wellformed_users; [|exact H].
    intros id (u & Hin & Hid). exists u. split; [|exact Hid].
    apply List.in_app_iff. auto.
  - unfold add_listing. branches; try exact H.
    intros t Hin. destruct (H t Hin) as (Hne & Hs & Hb & (c & Hc & Hid & Ho)).
    repeat split; auto. exists c. simpl. repeat split; auto.
    apply List.in_app_iff. auto.
  - apply complete_car_transactions_wellformed, H.
  - apply transactions_wellformed_remove_car_record, H.
  - unfold delete_car. branches; try exact H.
    apply transactions_wellformed_remove_car_record, H.
  - unfold new_message, get_or_create_thread. branches; exact H.
  - unfold message_thread. branches; exact H.
  - unfold toggle_favorite. branches; exact H.
  - unfold admin_verify_user. branches; try exact H.
    apply transactions_wellformed_users; [|exact H].
    intros id Hex. apply (exists_user_update_verified st _ _ (users_seq st) id Hex).
  - unfold admin_delete_car. branches; try exact H.
    apply transactions_wellformed_remove_car_record, H.
  - unfold admin_delete_rating. branches; exact H.
  - unfold verify_seller. branches; try exact H.
    apply transactions_wellformed_users; [|exact H].
    intros id Hex. apply (exists_user_update_verified st _ _ (users_seq st) id Hex).
  - unfold rate_transaction, upsert_rating. branches; exact H.
  - unfold confirm_transaction. branches; try exact H.
    apply transactions_wellformed_update_tx, H.
  - unfold cancel_transaction. repeat branch; try exact H.
    cbv zeta. cbn [fst]. apply transactions_wellformed_update_car.
    apply transactions_wellformed_update_tx, H.
Qed.

Lemma reachable_transactions_wellformed st :
  reachable st -> transactions_wellformed st.
Proof.
  induction 1 as [|st now req _ IH].
  - intros t [].
  - apply handle_transactions_wellformed, IH.
Qed.

(** X4. In every reachable store each transaction row names a seller and a
    buyer who are different registered users, and a listing that still exists
    and belongs to the seller: nobody is recorded as buying their own car,
    and deleting a listing never leaves a transaction behind. *)
Theorem transactions_join_seller_buyer_listing st t :
  reachable st -> In t (transactions st) ->
  t_seller_id t <> t_buyer_id t
  /\ (exists s, In s (users st) /\ u_id s = t_seller_id t)
  /\ (exists b, In b (users st) /\ u_id b = t_buyer_id t)
  /\ (exists c, In c (cars st) /\ c_id c = t_car_id t
                /\ c_user_id c = t_seller_id t).
Proof.
  intros Hr Hin. exact (reachable_transactions_wellformed st Hr t Hin).
Qed.

Lemma transactions_join_seller_buyer_listing_witness :
  reachable five_sales_store
  /\ In (mkTransaction 5 1 2 3 completed "2026-02-05T10:00:00")
       (transactions five_sales_store)
  /\ exists c, In c (cars five_sales_store) /\ c_id c = 1 /\ c_user_id c = 2.
Proof.
  assert (H : reachable five_sales_store) by (do 2 apply reachable_run; constructor).
  assert (Hin : In (mkTransaction 5 1 2 3 completed "2026-02-05T10:00:00")
                  (transactions five_sales_store)).
  { vm_compute. do 4 right. left. reflexivity. }
  split; [exact H|]. split; [exact Hin|].
  exact (proj2 (proj2 (proj2
           (transactions_join_seller_buyer_listing five_sales_store _ H Hin)))).
Defined.

(** ** Completed listings *)

Lemma in_update_car_status s car_id cs c' :
  In c' (update_car_status s car_id cs) ->
  exists c, In c cs /\ c_id c' = c_id c
            /\ (c_id c = car_id -> c_status c' = s)
            /\ (c_id c <> car_id -> c' = c).
Proof.
  unfold update_car_status. intros H.
  apply List.in_map_iff in H as (c & <- & Hin). exists c.
  destruct (c_id c =? car_id) eqn:E.
  - apply Z.eqb_eq in E. simpl. repeat split; auto. congruence.
  - apply Z.eqb_neq in E. repeat split; auto. congruence.
Qed.

Lemma completed_has_live_remove_car_record st car_id :
  completed_has_live_transaction st ->
  completed_has_live_transaction (fst (remove_car_record st car_id)).
Proof.
  intros H. unfold remove_car_record.
  destruct (get_car_by_id st car_id) as [found|]; [|exact H].
  cbv zeta. cbn [fst].
  assert (Hgoal : forall c,
            In c (List.filter (fun c => negb (c_id c =? car_id)) (cars st)) ->
            c_status c = CAR_STATUS_COMPLETED ->
            exists t,
              In t (List.filter (fun t => negb (t_car_id t =? car_id))
                      (transactions st))
              /\ t_car_id t = c_id c /\ t_status t <> canceled).
  { intros c Hin Hs. apply List.filter_In in Hin as [Hin Hkeep].
    destruct (H c Hin Hs) as (t & Ht & Hid & Hst).
    exists t. repeat split; auto. apply List.filter_In. split; [exact Ht|].
    rewrite Hid. exact Hkeep. }
  destruct (List.map t_id _); exact Hgoal.
Qed.

Lemma completed_has_live_complete_car st now username car_id buyer_id :
  completed_has_live_transaction st ->
  completed_has_live_transaction
    (fst (complete_car st now username car_id buyer_id)).
Proof.
  intros H. unfold complete_car. repeat branch; try exact H.
  cbv zeta. cbn [fst]. intros c' Hin Hs. simpl in Hin.
  apply in_update_car_status in Hin as (oc & Hin & Hid & Hset & Hkeep).
  simpl. destruct (Z.eq_dec (c_id oc) car_id) as [E|E].
  - eexists. split; [apply List.in_app_iff; right; left; reflexivity|].
    simpl. split; [congruence|discriminate].
  - rewrite (Hkeep E) in *. destruct (H oc Hin Hs) as (tx & Ht & Htid & Hst).
    exists tx. repeat split; auto. apply List.in_app_iff. auto.
Qed.

Lemma completed_has_live_confirm st username transaction_id :
  completed_has_live_transaction st ->
  completed_has_live_transaction
    (fst (confirm_transaction st username transaction_id)).
Proof.
  intros H. unfold confirm_transaction. repeat branch; try exact H.
  cbn [fst]. intros c Hin Hs. simpl in Hin.
  destruct (H c Hin Hs) as (tx & Ht & Hid & Hst). simpl.
  exists (if t_id tx =? transaction_id then tx_set_status completed tx else tx).
  split.
  - apply (List.in_map (fun t => if t_id t =? transaction_id
                                 then tx_set_status completed t else t)), Ht.
  - destruct (t_id tx =? transaction_id); simpl; split; auto; discriminate.
Qed.

Lemma completed_has_live_cancel st username transaction_id :
  store_ids_ok st ->
  completed_has_live_transaction st ->
  completed_has_live_transaction
    (fst (cancel_transaction st username transaction_id)).
Proof.
  intros Hids H. unfold cancel_transaction.
  destruct (get_user_by_username st username) as [user|]; [|exact H].
  destruct (find_transaction st transaction_id) as [tx|] eqn:Hf; [|exact H].
  destruct (negb _ && negb _); [exact H|].
  cbv zeta. cbn [fst]. intros c' Hin Hs. simpl in Hin.
  apply in_update_car_status in Hin as (c & Hin & Hid & Hset & Hkeep).
  destruct (Z.eq_dec (c_id c) (t_car_id tx)) as [E|E].
  - rewrite (Hset E) in Hs. discriminate.
  - rewrite (Hkeep E) in *. destruct (H c Hin Hs) as (t & Ht & Htid & Hst).
    exists t. simpl. split; [|auto].
    unfold update_tx_status. apply List.in_map_iff. exists t.
    split; [|exact Ht].
    destruct (t_id t =? transaction_id) eqn:Et; [|reflexivity].
    + exfalso. apply Z.eqb_eq in Et.
      apply find_some_holds in Hf as [Hp Hin_tx]. apply Z.eqb_eq in Hp.
      destruct Hids as (_ & _ & Htx & _).
      assert (t = tx) by (apply (ids_ok_unique t_id _ _ t tx Htx); congruence).
      subst t. congruence.
Qed.

Lemma handle_completed_has_live st now req :
  store_ids_ok st ->
  completed_has_live_transaction st ->
  completed_has_live_transaction (fst (handle st now req)).
Proof.
  intros Hids H. destruct req; simpl.
  - unfold register. branches; exact H.
  - unfold add_listing. branches; try exact H.
    intros c Hin Hs. simpl in Hin.
    apply List.in_app_iff in Hin as [Hin | [<- | []]]; [|discriminate].
    exact (H c Hin Hs).
  - apply completed_has_live_complete_car, H.
  - apply completed_has_live_remove_car_record, H.
  - unfold delete_car. branches; try exact H.
    apply completed_has_live_remove_car_record, H.
  - unfold new_message, get_or_create_thread. branches; exact H.
  - unfold message_thread. branches; exact H.
  - unfold toggle_favorite. branches; exact H.
  - unfold admin_verify_user. branches; exact H.
  - unfold admin_delete_car. branches; try exact H.
    apply completed_has_live_remove_car_record, H.
  - unfold admin_delete_rating. branches; exact H.
  - unfold verify_seller. branches; exact H.
  - unfold rate_transaction, upsert_rating. branches; exact H.
  - apply completed_has_live_confirm, H.
  - apply completed_has_live_cancel; assumption.
Qed.

Lemma reachable_completed_has_live st :
  reachable st -> completed_has_live_transaction st.
Proof.
  induction 1 as [|st now req Hr IH].
  - intros c [].
  - apply handle_completed_has_live; [apply reachable_ids_ok, Hr|exact IH].
Qed.

(** X5. In every reachable store a listing whose status is completed has at
    least one transaction that is pending or completed: a listing is never
    hidden from the catalog as sold with nothing but canceled transactions,
    or none, behind it. *)
Theorem completed_listing_has_live_transaction st c :
  reachable st -> In c (cars st) -> c_status c = CAR_STATUS_COMPLETED ->
  exists t, In t (transactions st) /\ t_car_id t = c_id c
            /\ (t_status t = pending \/ t_status t = completed).
Proof.
  intros Hr Hin Hs.
  destruct (reachable_completed_has_live st Hr c Hin Hs) as (t & Ht & Hid & Hst).
  exists t. repeat split; auto. destruct (t_status t); auto. congruence.
Qed.

Lemma completed_listing_has_live_transaction_witness :
  reachable rereserved_store
  /\ In (mkCar 1 2 CAR_STATUS_COMPLETED) (cars rereserved_store)
  /\ exists t, In t (transactions rereserved_store) /\ t_car_id t = 1
               /\ (t_status t = pending \/ t_status t = completed).
Proof.
  assert (H : reachable rereserved_store) by (do 4 apply reachable_run; constructor).
  assert (Hin : In (mkCar 1 2 CAR_STATUS_COMPLETED) (cars rereserved_store))
    by (left; reflexivity).
  split; [exact H|]. split; [exact Hin|].
  exact (completed_listing_has_live_transaction rereserved_store _ H Hin eq_refl).
Defined.

(** ** Refusals of the transaction manager *)

(** X6. complete_car changes the store only when it answers with the plain
    redirect. A caller who does not own the listing is told so; an owner who
    names themself as the buyer, or a user id that is not registered (one
    SQLite can bind, see [sqlite_int]), is turned down; in each case nothing
    is written. *)
Theorem complete_car_refusals st now username car_id buyer_id :
  (snd (complete_car st now username car_id buyer_id) <> Redirect None ->
   fst (complete_car st now username car_id buyer_id) = st)
  /\ (forall user car,
        get_user_by_username st username = Some user ->
        get_car_by_id st car_id = Some car ->
        (c_user_id car <> u_id user ->
         complete_car st now username car_id buyer_id
         = (st, Redirect (Some "You can only update your own listings.")))
        /\ (forall b,
              c_user_id car = u_id user ->
              Py.isdigit (Py.strip buyer_id) = true ->
              Py.int (Py.strip buyer_id) = Some b ->
              (b = u_id user ->
               complete_car st now username car_id buyer_id
               = (st, Redirect (Some "Please select a valid buyer.")))
              /\ (b <> u_id user -> sqlite_int b = true ->
                  get_user_by_id st b = None ->
                  complete_car st now username car_id buyer_id
                  = (st, Redirect (Some "Buyer not found."))))).
Proof.
  split.
  - unfold complete_car. repeat branch; cbn [fst snd]; congruence.
  - intros user car Hu Hc. unfold complete_car. rewrite Hu, Hc. split.
    + intros Hne. apply Z.eqb_neq in Hne. rewrite Hne. reflexivity.
    + intros b Ho Hd Hi. rewrite Ho, Z.eqb_refl. cbn [negb]. cbv zeta.
      rewrite Hd, Hi. cbn [negb]. split.
      * intros ->. rewrite Z.eqb_refl. reflexivity.
      * intros Hne _ Hnone. apply Z.eqb_neq in Hne. rewrite Hne, Hnone. reflexivity.
Qed.

Lemma complete_car_refusals_witness :
  complete_car listed_store "2026-01-02T10:00:00" "buyer" 1 "3"
  = (listed_store, Redirect (Some "You can only update your own listings."))
  /\ complete_car listed_store "2026-01-02T10:00:00" "seller" 1 "2"
     = (listed_store, Redirect (Some "Please select a valid buyer."))
  /\ complete_car listed_store "2026-01-02T10:00:00" "seller" 1 "7"
     = (listed_store, Redirect (Some "Buyer not found.")).
Proof.
  pose proof (complete_car_refusals listed_store "2026-01-02T10:00:00" "buyer" 1 "3")
    as [_ H1].
  pose proof (complete_car_refusals listed_store "2026-01-02T10:00:00" "seller" 1 "2")
    as [_ H2].
  pose proof (complete_car_refusals listed_store "2026-01-02T10:00:00" "seller" 1 "7")
    as [_ H3].
  split; [|split].
  - refine (proj1 (H1 (mkUser 3 "buyer" "bea@example.com" false false)
                     (mkCar 1 2 CAR_STATUS_ACTIVE) eq_refl eq_refl) _).
    simpl. discriminate.
  - exact (proj1 (proj2 (H2 (mkUser 2 "seller" "sam@example.com" false false)
                           (mkCar 1 2 CAR_STATUS_ACTIVE) eq_refl eq_refl)
                    2 eq_refl eq_refl eq_refl) eq_refl).
  - refine (proj2 (proj2 (H3 (mkUser 2 "seller" "sam@example.com" false false)
                            (mkCar 1 2 CAR_STATUS_ACTIVE) eq_refl eq_refl)
                     7 eq_refl eq_refl eq_refl) _ eq_refl eq_refl).
    simpl. discriminate.
Defined.

(** X7. Only the buyer confirms and only the two parties cancel: in a
    reachable store confirm_transaction called by anyone who is not the
    transaction's buyer, the seller included, and cancel_transaction called
    by anyone who is neither its buyer nor its seller, are refused and
    change nothing. *)
Theorem confirm_and_cancel_refuse_others st username user transaction_id tx :
  reachable st ->
  get_user_by_username st username = Some user ->
  find_transaction st transaction_id = Some tx ->
  (t_buyer_id tx <> u_id user ->
   confirm_transaction st username transaction_id
   = (st, Redirect (Some "You can only confirm your own purchase.")))
  /\ (t_seller_id tx = u_id user ->
      confirm_transaction st username transaction_id
      = (st, Redirect (Some "You can only confirm your own purchase.")))
  /\ (t_buyer_id tx <> u_id user -> t_seller_id tx <> u_id user ->
      cancel_transaction st username transaction_id
      = (st, Redirect (Some "You can only cancel your own transaction."))).
Proof.
  intros Hr Hu Hf.
  assert (Hconfirm : t_buyer_id tx <> u_id user ->
            confirm_transaction st username transaction_id
            = (st, Redirect (Some "You can only confirm your own purchase."))).
  { intros Hne. unfold confirm_transaction. rewrite Hu, Hf.
    apply Z.eqb_neq in Hne. rewrite Hne. reflexivity. }
  split; [exact Hconfirm|]. split.
  - intros Hs. apply Hconfirm.
    apply find_some_holds in Hf as [_ Hin].
    destruct (reachable_transactions_wellformed st Hr tx Hin) as (Hne & _).
    congruence.
  - intros Hb Hs. unfold cancel_transaction. rewrite Hu, Hf.
    apply Z.eqb_neq in Hb, Hs. rewrite Hb, Hs. reflexivity.
Qed.

Lemma confirm_and_cancel_refuse_others_witness :
  reachable reserved_store
  /\ confirm_transaction reserved_store "seller" 1
     = (reserved_store, Redirect (Some "You can only confirm your own purchase."))
  /\ cancel_transaction reserved_store "admin" 1
     = (reserved_store, Redirect (Some "You can only cancel your own transaction.")).
Proof.
  assert (H : reachable reserved_store) by (do 2 apply reachable_run; constructor).
  split; [exact H|].
  pose proof (confirm_and_cancel_refuse_others reserved_store "seller"
                (mkUser 2 "seller" "sam@example.com" false false) 1
                (mkTransaction 1 1 2 3 pending "2026-01-02T10:00:00")
                H eq_refl eq_refl) as (_ & Hs & _).
  pose proof (confirm_and_cancel_refuse_others reserved_store "admin"
                (mkUser 1 "admin" "admin@example.com" true true) 1
                (mkTransaction 1 1 2 3 pending "2026-01-02T10:00:00")
                H eq_refl eq_refl) as (_ & _ & Hc).
  split; [exact (Hs eq_refl)|].
  apply Hc; simpl; discriminate.
Defined.

(** ** Counting completed sales *)

Lemma map_update_absent {A : Type} (key : A -> Z) (f : A -> A) k l :
  List.filter (fun y => key y =? k) l = [] ->
  List.map (fun y => if key y =? k then f y else y) l = l.
Proof.
  induction l as [|y l IH]; simpl; [reflexivity|].
  destruct (key y =? k); [discriminate|]. intros H. rewrite IH; auto.
Qed.

Lemma count_after_status_update (p : Transaction -> bool) s transaction_id ts tx :
  (List.length (List.filter (fun t => (t_id t =? transaction_id)%Z) ts) <= 1)%nat ->
  List.find (fun t => t_id t =? transaction_id) ts = Some tx ->
  Z.of_nat (List.length (List.filter p (update_tx_status s transaction_id ts)))
  + (if p tx then 1 else 0)
  = Z.of_nat (List.length (List.filter p ts))
    + (if p (tx_set_status s tx) then 1 else 0).
Proof.
  unfold update_tx_status.
  induction ts as [|t ts IH]; simpl; [discriminate|].
  destruct (t_id t =? transaction_id) eqn:E.
  - intros Hu [= ->]. simpl in Hu.
    assert (Hnil : List.filter (fun t => t_id t =? transaction_id) ts = []).
    { destruct (List.filter _ ts); [reflexivity|simpl in Hu; lia]. }
    rewrite (map_update_absent t_id (tx_set_status s) _ _ Hnil).
    destruct (p (tx_set_status s tx)), (p tx); simpl; lia.
  - intros Hu Hf. specialize (IH Hu Hf).
    destruct (p t); simpl; lia.
Qed.

Lemma completed_sales_after_update st s transaction_id tx seq seller_id :
  store_ids_ok st ->
  find_transaction st transaction_id = Some tx ->
  completed_sales
    (set_transactions st (update_tx_status s transaction_id (transactions st)) seq)
    seller_id
  + counts_as_sale seller_id tx
  = completed_sales st seller_id + counts_as_sale seller_id (tx_set_status s tx).
Proof.
  intros (_ & _ & (_ & _ & Hu) & _) Hf. unfold completed_sales, counts_as_sale.
  cbn [transactions set_transactions].
  apply (count_after_status_update
           (fun t => (t_seller_id t =? seller_id) && tx_status_eqb (t_status t) completed)
           s transaction_id (transactions st) tx (Hu transaction_id) Hf).
Qed.

(** X8. What verify_seller counts moves with the transaction: in a reachable
    store a confirmation by the buyer adds one completed sale to the
    transaction's seller unless the transaction was completed already, a
    cancellation by a party takes one away if it was completed, and the
    counts of all other sellers stay as they were. *)
Theorem completed_sales_follow_transaction st username user transaction_id tx :
  reachable st ->
  get_user_by_username st username = Some user ->
  find_transaction st transaction_id = Some tx ->
  (t_buyer_id tx = u_id user ->
   completed_sales (fst (confirm_transaction st username transaction_id))
     (t_seller_id tx)
   = completed_sales st (t_seller_id tx)
     + (if tx_status_eqb (t_status tx) completed then 0 else 1)
   /\ forall other, other <> t_seller_id tx ->
        completed_sales (fst (confirm_transaction st username transaction_id)) other
        = completed_sales st other)
  /\ (t_buyer_id tx = u_id user \/ t_seller_id tx = u_id user ->
      completed_sales (fst (cancel_transaction st username transaction_id))
        (t_seller_id tx)
      = completed_sales st (t_seller_id tx)
        - (if tx_status_eqb (t_status tx) completed then 1 else 0)
      /\ forall other, other <> t_seller_id tx ->
           completed_sales (fst (cancel_transaction st username transaction_id)) other
           = completed_sales st other).
Proof.
  intros Hr Hu Hf. pose proof (reachable_ids_ok st Hr) as Hids. split.
  - intros Hb. unfold confirm_transaction. rewrite Hu, Hf, Hb, Z.eqb_refl.
    cbn [negb fst]. split.
    + pose proof (completed_sales_after_update st completed transaction_id tx
                    (transactions_seq st) (t_seller_id tx) Hids Hf) as H.
      unfold counts_as_sale in H. cbn [tx_set_status t_seller_id t_status] in H.
      rewrite Z.eqb_refl in H. simpl in H.
      destruct (tx_status_eqb (t_status tx) completed); lia.
    + intros other Hne.
      pose proof (completed_sales_after_update st completed transaction_id tx
                    (transactions_seq st) other Hids Hf) as H.
      unfold counts_as_sale in H. cbn [tx_set_status t_seller_id t_status] in H.
      assert (E : (t_seller_id tx =? other) = false) by (apply Z.eqb_neq; congruence).
      rewrite E in H. simpl in H. lia.
  - intros Hparty.
    assert (Hg : negb (t_buyer_id tx =? u_id user)
                 && negb (t_seller_id tx =? u_id user) = false).
    { destruct Hparty as [-> | ->]; rewrite Z.eqb_refl; simpl;
        [reflexivity|apply andb_false_r]. }
    unfold cancel_transaction. rewrite Hu, Hf, Hg. cbv zeta. cbn [fst].
    unfold completed_sales at 1 3. cbn [transactions set_cars set_transactions].
    fold (completed_sales
            (set_transactions st
               (update_tx_status canceled transaction_id (transactions st))
               (transactions_seq st))).
    split.
    + pose proof (completed_sales_after_update st canceled transaction_id tx
                    (transactions_seq st) (t_seller_id tx) Hids Hf) as H.
      unfold counts_as_sale in H. cbn [tx_set_status t_seller_id t_status] in H.
      rewrite Z.eqb_refl in H. simpl in H.
      unfold completed_sales in *. cbn [transactions set_transactions] in *.
      destruct (tx_status_eqb (t_status tx) completed); lia.
    + intros other Hne.
      pose proof (completed_sales_after_update st canceled transaction_id tx
                    (transactions_seq st) other Hids Hf) as H.
      unfold counts_as_sale in H. cbn [tx_set_status t_seller_id t_status] in H.
      assert (E : (t_seller_id tx =? other) = false) by (apply Z.eqb_neq; congruence).
      rewrite E in H. simpl in H.
      unfold completed_sales in *. cbn [transactions set_transactions] in *. lia.
Qed.

Lemma completed_sales_follow_transaction_witness :
  reachable five_sales_store
  /\ completed_sales five_sales_store 2 = 5
  /\ completed_sales (fst (cancel_transaction five_sales_store "buyer" 3)) 2 = 4.
Proof.
  assert (H : reachable five_sales_store) by (do 2 apply reachable_run; constructor).
  split; [exact H|]. split; [reflexivity|].
  pose proof (completed_sales_follow_transaction five_sales_store "buyer"
                (mkUser 3 "buyer" "bea@example.com" false false) 3
                (mkTransaction 3 1 2 3 completed "2026-02-03T10:00:00")
                H eq_refl eq_refl) as [_ Hc].
  exact (proj1 (Hc (or_introl eq_refl))).
Defined.

(** ** Shape of the rating rows *)

Lemma all_scores_valid_range a b c d x y z w :
  all_scores_valid [a; b; c; d] = Some true ->
  Py.int a = Some x -> Py.int b = Some y -> Py.int c = Some z -> Py.int d = Some w ->
  1 <= x <= 5 /\ 1 <= y <= 5 /\ 1 <= z <= 5 /\ 1 <= w <= 5.
Proof.
  simpl. intros H Ha Hb Hc Hd. rewrite Ha, Hb, Hc, Hd in H.
  destruct (Py.isdigit a); [|discriminate].
  destruct ((1 <=? x) && (x <=? 5)) eqn:Ex; [|discriminate].
  destruct (Py.isdigit b); [|discriminate].
  destruct ((1 <=? y) && (y <=? 5)) eqn:Ey; [|discriminate].
  destruct (Py.isdigit c); [|discriminate].
  destruct ((1 <=? z) && (z <=? 5)) eqn:Ez; [|discriminate].
  destruct (Py.isdigit d); [|discriminate].
  destruct ((1 <=? w) && (w <=? 5)) eqn:Ew; [|discriminate].
  apply andb_prop in Ex as [? ?], Ey as [? ?], Ez as [? ?], Ew as [? ?]. lia.
Qed.

Lemma ratings_wellformed_update_tx st s transaction_id seq :
  ratings_wellformed st ->
  ratings_wellformed
    (set_transactions st (update_tx_status s transaction_id (transactions st)) seq).
Proof.
  intros H r Hr. destruct (H r Hr) as (Hsc & t & Hin & Hid & Hs & Hb).
  split; [exact Hsc|].
  exists (if t_id t =? transaction_id then tx_set_status s t else t). split.
  - simpl. apply (List.in_map (fun t => if t_id t =? transaction_id
                                        then tx_set_status s t else t)), Hin.
  - destruct (t_id t =? transaction_id); simpl; auto.
Qed.

Lemma ratings_wellformed_remove_car_record st car_id :
  ratings_wellformed st -> ratings_wellformed (fst (remove_car_record st car_id)).
Proof.
  intros H. unfold remove_car_record.
  destruct (get_car_by_id st car_id) as [found|]; [|exact H].
  cbv zeta. cbn [fst].
  destruct (List.map t_id (List.filter (fun t => t_car_id t =? car_id)
                             (transactions st))) as [|i ids] eqn:Hids.
  - intros r Hr. simpl in Hr. destruct (H r Hr) as (Hsc & t & Hin & Hid & Hs & Hb).
    split; [exact Hsc|]. exists t. simpl. repeat split; auto.
    apply List.filter_In. split; [exact Hin|].
    destruct (t_car_id t =? car_id) eqn:E; [|reflexivity].
    assert (Hmem : In (t_id t) []).
    { rewrite <- Hids. apply List.in_map, List.filter_In. auto. }
    destruct Hmem.
  - rewrite <- Hids. intros r Hr. simpl in Hr.
    apply List.filter_In in Hr as [Hr Hkeep].
    destruct (H r Hr) as (Hsc & t & Hin & Hid & Hs & Hb).
    split; [exact Hsc|]. exists t. simpl. repeat split; auto.
    apply List.filter_In. split; [exact Hin|].
    destruct (t_car_id t =? car_id) eqn:E; [|reflexivity].
    apply negb_true_iff in Hkeep.
    assert (Hex : List.existsb (Z.eqb (r_transaction_id r))
                    (List.map t_id (List.filter (fun t => t_car_id t =? car_id)
                                      (transactions st))) = true).
    { apply List.existsb_exists. exists (t_id t). split.
      - apply List.in_map, List.filter_In. auto.
      - apply Z.eqb_eq. congruence. }
    congruence.
Qed.

Lemma ratings_wellformed_rate st now username transaction_id
    rel acc com prod comment :
  ratings_wellformed st ->
  ratings_wellformed
    (fst (rate_transaction st now username transaction_id rel acc com prod comment)).
Proof.
  intros H. unfold rate_transaction.
  destruct (get_user_by_username st username) as [user|]; [|exact H].
  cbv zeta. destruct (all_scores_valid _) as [[|]|] eqn:Hv; try exact H.
  destruct (find_transaction st transaction_id) as [tx|] eqn:Hf; [|exact H].
  destruct (negb _ || negb _); [exact H|].
  destruct (Py.int (Py.strip rel)) as [x|] eqn:Hx; [|exact H].
  destruct (Py.int (Py.strip acc)) as [y|] eqn:Hy; [|exact H].
  destruct (Py.int (Py.strip com)) as [z|] eqn:Hz; [|exact H].
  destruct (Py.int (Py.strip prod)) as [w|] eqn:Hw; [|exact H].
  pose proof (all_scores_valid_range _ _ _ _ x y z w Hv Hx Hy Hz Hw) as Hrange.
  cbn [fst]. unfold upsert_rating.
  apply find_some_holds in Hf as [Hid Hin]. apply Z.eqb_eq in Hid.
  destruct (List.existsb _ (ratings st)); intros r Hr; simpl in Hr.
  - apply List.in_map_iff in Hr as (r0 & <- & Hin0).
    destruct (H r0 Hin0) as (Hsc & Ht).
    destruct (r_transaction_id r0 =? transaction_id); simpl; auto.
  - apply List.in_app_iff in Hr as [Hr | [<- | []]]; [exact (H r Hr)|].
    simpl. split; [exact Hrange|]. exists tx. auto.
Qed.

Lemma handle_ratings_wellformed st now req :
  ratings_wellformed st -> ratings_wellformed (fst (handle st now req)).
Proof.
  intros H. destruct req; simpl.
  - unfold register. branches; exact H.
  - unfold add_listing. branches; exact H.
  - unfold complete_car. branches; try exact H.
    intros r Hr. simpl in Hr. destruct (H r Hr) as (Hsc & tx & Hin & Hrest).
    split; [exact Hsc|]. exists tx. simpl. split; [|exact Hrest].
    apply List.in_app_iff. auto.
  - apply ratings_wellformed_remove_car_record, H.
  - unfold delete_car. branches; try exact H.
    apply ratings_wellformed_remove_car_record, H.
  - unfold new_message, get_or_create_thread. branches; exact H.
  - unfold message_thread. branches; exact H.
  - unfold toggle_favorite. branches; exact H.
  - unfold admin_verify_user. branches; exact H.
  - unfold admin_delete_car. branches; try exact H.
    apply ratings_wellformed_remove_car_record, H.
  - unfold admin_delete_rating. branches; try exact H.
    intros r Hr. simpl in Hr. apply List.filter_In in Hr as [Hr _]. exact (H r Hr).
  - unfold verify_seller. branches; exact H.
  - apply ratings_wellformed_rate, H.
  - unfold confirm_transaction. repeat branch; try exact H.
    cbn [fst]. apply ratings_wellformed_update_tx, H.
  - unfold cancel_transaction. repeat branch; try exact H.
    cbv zeta. cbn [fst].
    apply (ratings_wellformed_update_tx st canceled transaction_id
             (transactions_seq st) H).
Qed.

Lemma reachable_ratings_wellformed st : reachable st -> ratings_wellformed st.
Proof.
  induction 1 as [|st now req _ IH].
  - intros r [].
  - apply handle_ratings_wellformed, IH.
Qed.

(** X9. In every reachable store each rating row holds four scores between
    1 and 5 and carries the seller and the buyer of the transaction it
    refers to, which still exists: the validation of rate_transaction is
    never bypassed and a rating is never credited to another seller. *)
Theorem ratings_hold_valid_scores st r :
  reachable st -> In r (ratings st) ->
  (1 <= r_reliability r <= 5 /\ 1 <= r_accuracy r <= 5
   /\ 1 <= r_communication r <= 5 /\ 1 <= r_product r <= 5)
  /\ exists t, In t (transactions st) /\ t_id t = r_transaction_id r
               /\ t_seller_id t = r_seller_id r /\ t_buyer_id t = r_buyer_id r.
Proof.
  intros Hr Hin. exact (reachable_ratings_wellformed st Hr r Hin).
Qed.

Lemma ratings_hold_valid_scores_witness :
  reachable rated_canceled_store
  /\ In (mkRating 1 1 2 3 5 4 5 5 "great" "2026-01-04T10:00:00")
       (ratings rated_canceled_store)
  /\ exists t, In t (transactions rated_canceled_store) /\ t_id t = 1
               /\ t_seller_id t = 2 /\ t_buyer_id t = 3.
Proof.
  assert (H : reachable rated_canceled_store)
    by (do 5 apply reachable_run; constructor).
  assert (Hin : In (mkRating 1 1 2 3 5 4 5 5 "great" "2026-01-04T10:00:00")
                  (ratings rated_canceled_store)) by (left; reflexivity).
  split; [exact H|]. split; [exact Hin|].
  exact (proj2 (ratings_hold_valid_scores rated_canceled_store _ H Hin)).
Defined.

(** ** Sending and reading messages *)

Lemma unread_count_eq st user_id :
  unread_count st user_id
  = Z.of_nat (List.length (List.filter (unread_by user_id) (messages st))).
Proof. reflexivity. Qed.

(** X10. Posting in a thread: a caller who is not a party of the thread is
    refused, and so is a thread id that has no row (one SQLite can bind, see
    [sqlite_int]); a party's body that is empty once stripped writes nothing;
    otherwise exactly one message is appended, from the caller to the other
    party, unread, which raises the other party's unread count by one and
    nobody else's. *)
Theorem message_thread_post st now username user thread_id body :
  get_user_by_username st username = Some user ->
  let out := message_thread st now username thread_id POST body in
  (((find_thread st thread_id = None /\ sqlite_int thread_id = true)
    \/ exists th, find_thread st thread_id = Some th
                  /\ th_seller_id th <> u_id user /\ th_buyer_id th <> u_id user) ->
   out = (st, Redirect (Some "Thread not found.")))
  /\ (forall th,
        find_thread st thread_id = Some th ->
        th_seller_id th = u_id user \/ th_buyer_id th = u_id user ->
        let other :=
          if th_seller_id th =? u_id user then th_buyer_id th else th_seller_id th in
        (Py.strip body = "" -> out = (st, Redirect None))
        /\ (Py.strip body <> "" ->
            messages (fst out)
            = messages st ++
              [mkMessage (messages_seq st + 1) thread_id (u_id user) other
                 (Py.strip body) now None]
            /\ unread_count (fst out) other = unread_count st other + 1
            /\ (forall uid, uid <> other ->
                  unread_count (fst out) uid = unread_count st uid)
            /\ threads (fst out) = threads st)).
Proof.
  intros Hu out. subst out. unfold message_thread. rewrite Hu. split.
  - intros [[Hnone _] | (th & Hth & Hs & Hb)].
    + rewrite Hnone. reflexivity.
    + rewrite Hth. apply Z.eqb_neq in Hs, Hb. rewrite Hs, Hb. reflexivity.
  - intros th Hth Hparty. rewrite Hth.
    assert (Hg : negb (th_seller_id th =? u_id user)
                 && negb (th_buyer_id th =? u_id user) = false).
    { destruct Hparty as [-> | ->]; rewrite Z.eqb_refl; simpl;
        [reflexivity|apply andb_false_r]. }
    rewrite Hg. cbv zeta.
    set (other := if th_seller_id th =? u_id user
                  then th_buyer_id th else th_seller_id th).
    split.
    + intros ->. reflexivity.
    + intros Hne. apply String.eqb_neq in Hne. rewrite Hne. cbn [fst].
      split; [reflexivity|].
      rewrite !unread_count_eq. cbn [messages set_messages].
      split; [|split; [|reflexivity]].
      * rewrite List.filter_app, List.length_app. unfold unread_by at 2. simpl.
        rewrite Z.eqb_refl. simpl. lia.
      * intros uid Huid. rewrite !unread_count_eq. cbn [messages set_messages].
        rewrite List.filter_app, List.length_app. unfold unread_by at 2. simpl.
        assert (E : (other =? uid) = false) by (apply Z.eqb_neq; congruence).
        rewrite E. simpl. lia.
Qed.

Lemma message_thread_post_witness :
  get_user_by_username messaging_store "seller"
  = Some (mkUser 2 "seller" "sam@example.com" false false)
  /\ unread_count messaging_store 3 = 1
  /\ unread_count
       (fst (message_thread messaging_store "2026-01-02T08:20:00" "seller" 1 POST
               " Friday works. ")) 3 = 2.
Proof.
  split; [reflexivity|]. split; [reflexivity|].
  pose proof (message_thread_post messaging_store "2026-01-02T08:20:00" "seller"
                (mkUser 2 "seller" "sam@example.com" false false) 1
                " Friday works. " eq_refl) as [_ H].
  destruct (H (mkThread 1 1 2 3 "2026-01-02T08:00:00") eq_refl (or_introl eq_refl))
    as [_ H2].
  refine (proj1 (proj2 (H2 _))). discriminate.
Defined.

Lemma unread_for_by thread_id viewer_id m :
  unread_for thread_id viewer_id m
  = (m_thread_id m =? thread_id) && unread_by viewer_id m.
Proof. unfold unread_for, unread_by. symmetry. apply andb_assoc. Qed.

Lemma mark_read_count now thread_id viewer_id uid ms :
  Z.of_nat (List.length (List.filter (unread_by uid)
                           (mark_read now thread_id viewer_id ms)))
  + (if uid =? viewer_id
     then Z.of_nat (List.length (List.filter (unread_for thread_id viewer_id) ms))
     else 0)
  = Z.of_nat (List.length (List.filter (unread_by uid) ms)).
Proof.
  unfold mark_read. induction ms as [|m ms IH].
  - simpl. destruct (uid =? viewer_id); reflexivity.
  - cbn [List.map List.filter].
    fold (unread_for thread_id viewer_id m).
    destruct (unread_for thread_id viewer_id m) eqn:E.
    + assert (Hafter : unread_by uid (message_set_read now m) = false).
      { unfold unread_by. simpl. apply andb_false_r. }
      assert (Hbefore : unread_by uid m = (uid =? viewer_id)).
      { unfold unread_for in E.
        apply andb_prop in E as [E Hnull]. apply andb_prop in E as [_ Hrec].
        apply Z.eqb_eq in Hrec. unfold unread_by.
        rewrite Hnull, andb_true_r, Hrec. apply Z.eqb_sym. }
      rewrite Hafter, Hbefore.
      destruct (uid =? viewer_id); cbn [List.length]; lia.
    + destruct (unread_by uid m); destruct (uid =? viewer_id);
        cbn [List.length]; lia.
Qed.

Lemma mark_read_again now now' thread_id viewer_id ms :
  mark_read now' thread_id viewer_id (mark_read now thread_id viewer_id ms)
  = mark_read now thread_id viewer_id ms.
Proof.
  unfold mark_read. rewrite List.map_map. apply List.map_ext. intros m.
  fold (unread_for thread_id viewer_id m).
  destruct (unread_for thread_id viewer_id m) eqn:E.
  - simpl. rewrite andb_false_r. reflexivity.
  - fold (unread_for thread_id viewer_id m). rewrite E. reflexivity.
Qed.

(** X11. Opening a thread takes the viewer's unread messages of that thread,
    and only those, off the unread count shown in the page header: the
    viewer's count drops by their number, the thread has none left for the
    viewer, other users' counts are untouched, and opening the thread again
    changes nothing. *)
Theorem opening_thread_clears_unread st now now' username user thread_id th
    body body' :
  get_user_by_username st username = Some user ->
  find_thread st thread_id = Some th ->
  th_seller_id th = u_id user \/ th_buyer_id th = u_id user ->
  let st1 := fst (message_thread st now username thread_id GET body) in
  unread_count st1 (u_id user)
  = unread_count st (u_id user)
    - Z.of_nat (List.length (unread_in_thread st thread_id (u_id user)))
  /\ unread_in_thread st1 thread_id (u_id user) = []
  /\ (forall uid, uid <> u_id user -> unread_count st1 uid = unread_count st uid)
  /\ fst (message_thread st1 now' username thread_id GET body') = st1.
Proof.
  intros Hu Hth Hparty.
  assert (Hg : negb (th_seller_id th =? u_id user)
               && negb (th_buyer_id th =? u_id user) = false).
  { destruct Hparty as [-> | ->]; rewrite Z.eqb_refl; simpl;
      [reflexivity|apply andb_false_r]. }
  assert (Hopen : forall s t b,
            get_user_by_username s username = Some user ->
            find_thread s thread_id = Some th ->
            fst (message_thread s t username thread_id GET b)
            = set_messages s (mark_read t thread_id (u_id user) (messages s))
                (messages_seq s)).
  { intros s t b Hus Hths. unfold message_thread. rewrite Hus, Hths, Hg.
    reflexivity. }
  cbv zeta. rewrite (Hopen st now body Hu Hth).
  match goal with
  | |- context [message_thread ?s now' _ _ GET body'] =>
      rewrite (Hopen s now' body' Hu Hth)
  end.
  rewrite !unread_count_eq. unfold unread_in_thread.
  cbn [messages set_messages messages_seq].
  split; [|split; [|split]].
  - pose proof (mark_read_count now thread_id (u_id user) (u_id user) (messages st))
      as H. rewrite Z.eqb_refl in H. lia.
  - destruct (List.filter _ (mark_read now thread_id (u_id user) (messages st)))
      as [|m rest] eqn:Hf; [reflexivity|].
    assert (Hin : In m (List.filter (unread_for thread_id (u_id user))
                          (mark_read now thread_id (u_id user) (messages st))))
      by (rewrite Hf; left; reflexivity).
    apply List.filter_In in Hin as [Hin Hp].
    rewrite (mark_read_none_unread _ _ _ _ _ Hin) in Hp. discriminate.
  - intros uid Hne. rewrite !unread_count_eq. cbn [messages set_messages].
    pose proof (mark_read_count now thread_id (u_id user) uid (messages st)) as H.
    assert (E : (uid =? u_id user) = false) by (apply Z.eqb_neq; exact Hne).
    rewrite E in H. lia.
  - rewrite mark_read_again. reflexivity.
Qed.

Lemma opening_thread_clears_unread_witness :
  unread_count messaging_store 2 = 2
  /\ unread_count
       (fst (message_thread messaging_store "2026-01-02T09:00:00" "seller" 1 GET ""))
       2 = 2 - 2
  /\ unread_count
       (fst (message_thread messaging_store "2026-01-02T09:00:00" "seller" 1 GET ""))
       3 = unread_count messaging_store 3.
Proof.
  split; [reflexivity|].
  pose proof (opening_thread_clears_unread messaging_store "2026-01-02T09:00:00"
                "2026-01-02T09:30:00" "seller"
                (mkUser 2 "seller" "sam@example.com" false false) 1
                (mkThread 1 1 2 3 "2026-01-02T08:00:00") "" ""
                eq_refl eq_refl (or_introl eq_refl)) as (H1 & _ & H3 & _).
  split; [exact H1|]. apply H3. discriminate.
Defined.

(** ** Shape of the threads and messages *)

Lemma messages_wellformed_threads_app st th seq :
  th_seller_id th <> th_buyer_id th ->
  messages_wellformed st ->
  messages_wellformed (set_threads st (threads st ++ [th]) seq).
Proof.
  intros Hne [Ht Hm]. split.
  - intros x Hin. simpl in Hin.
    apply List.in_app_iff in Hin as [Hin | [<- | []]]; auto.
  - intros m Hin. destruct (Hm m Hin) as (Hsr & x & Hx & Hrest).
    split; [exact Hsr|]. exists x. simpl. split; [|exact Hrest].
    apply List.in_app_iff. auto.
Qed.

Lemma messages_wellformed_mark_read st now thread_id viewer_id seq :
  messages_wellformed st ->
  messages_wellformed
    (set_messages st (mark_read now thread_id viewer_id (messages st)) seq).
Proof.
  intros [Ht Hm]. split; [exact Ht|].
  intros m Hin. simpl in Hin. unfold mark_read in Hin.
  apply List.in_map_iff in Hin as (m0 & <- & Hin0).
  destruct (Hm m0 Hin0) as (Hsr & x & Hx & Hrest). simpl.
  destruct (_ && is_null (m_read_at m0)); simpl; eauto.
Qed.

Lemma message_thread_wellformed st now username thread_id method body :
  messages_wellformed st ->
  messages_wellformed (fst (message_thread st now username thread_id method body)).
Proof.
  intros H. unfold message_thread.
  destruct (get_user_by_username st username) as [user|]; [|exact H].
  destruct (find_thread st thread_id) as [th|] eqn:Hth; [|exact H].
  destruct (negb (th_seller_id th =? u_id user)
            && negb (th_buyer_id th =? u_id user)) eqn:Hg; [exact H|].
  destruct method.
  - cbv zeta. cbn [fst]. apply messages_wellformed_mark_read, H.
  - cbv zeta. destruct (String.eqb (Py.strip body) ""); [exact H|].
    cbn [fst]. destruct H as [Ht Hm]. split; [exact Ht|].
    apply find_some_holds in Hth as [Hid Hin_th]. apply Z.eqb_eq in Hid.
    pose proof (Ht th Hin_th) as Hne.
    intros m Hin. simpl in Hin.
    apply List.in_app_iff in Hin as [Hin | [<- | []]]; [exact (Hm m Hin)|].
    simpl. destruct (th_seller_id th =? u_id user) eqn:Es.
    + apply Z.eqb_eq in Es. split; [congruence|]. exists th. auto.
    + simpl in Hg. apply negb_false_iff, Z.eqb_eq in Hg.
      split; [congruence|]. exists th. auto.
Qed.

Lemma new_message_wellformed st now username car_id :
  messages_wellformed st ->
  messages_wellformed (fst (new_message st now username car_id)).
Proof.
  intros H. unfold new_message.
  destruct (get_user_by_username st username) as [user|]; [|exact H].
  cbv zeta. destruct (negb (Py.isdigit (Py.strip car_id))); [exact H|].
  destruct (Py.int (Py.strip car_id)) as [cid|]; [|exact H].
  destruct (get_car_by_id st cid) as [car|]; [|exact H].
  destruct (c_user_id car =? u_id user) eqn:E; [exact H|].
  cbn [fst]. unfold get_or_create_thread.
  destruct (List.find _ (threads st)); [exact H|]. cbn [fst].
  apply messages_wellformed_threads_app; [|exact H].
  simpl. apply Z.eqb_neq in E. exact E.
Qed.

Lemma handle_messages_wellformed st now req :
  messages_wellformed st -> messages_wellformed (fst (handle st now req)).
Proof.
  intros H. destruct req; simpl.
  - unfold register. branches; exact H.
  - unfold add_listing. branches; exact H.
  - unfold complete_car. branches; exact H.
  - unfold remove_car_record. branches; exact H.
  - unfold delete_car, remove_car_record. branches; exact H.
  - apply new_message_wellformed, H.
  - apply message_thread_wellformed, H.
  - unfold toggle_favorite. branches; exact H.
  - unfold admin_verify_user. branches; exact H.
  - unfold admin_delete_car, remove_car_record. branches; exact H.
  - unfold admin_delete_rating. branches; exact H.
  - unfold verify_seller. branches; exact H.
  - unfold rate_transaction, upsert_rating. branches; exact H.
  - unfold confirm_transaction. branches; exact H.
  - unfold cancel_transaction. branches; exact H.
Qed.

Lemma reachable_messages_wellformed st : reachable st -> messages_wellformed st.
Proof.
  induction 1 as [|st now req _ IH].
  - split; intros x [].
  - apply handle_messages_wellformed, IH.
Qed.

(** X12. In every reachable store a thread joins two different users (nobody
    holds a conversation with themself about their own listing), and every
    message belongs to an existing thread and goes from one of its two
    parties to the other; deleting a listing removes neither its threads nor
    their messages. *)
Theorem messages_stay_between_the_parties st :
  reachable st ->
  (forall th, In th (threads st) -> th_seller_id th <> th_buyer_id th)
  /\ (forall m, In m (messages st) ->
        m_sender_id m <> m_recipient_id m
        /\ exists th, In th (threads st) /\ th_id th = m_thread_id m
             /\ ((m_sender_id m = th_seller_id th /\ m_recipient_id m = th_buyer_id th)
                 \/ (m_sender_id m = th_buyer_id th
                     /\ m_recipient_id m = th_seller_id th)))
  /\ (forall car_id,
        threads (fst (remove_car_record st car_id)) = threads st
        /\ messages (fst (remove_car_record st car_id)) = messages st).
Proof.
  intros Hr. destruct (reachable_messages_wellformed st Hr) as [Ht Hm].
  split; [exact Ht|]. split; [exact Hm|].
  intros car_id. unfold remove_car_record. branches; auto.
Qed.

Lemma messages_stay_between_the_parties_witness :
  reachable messaging_store
  /\ (forall m, In m (messages messaging_store) ->
        m_sender_id m <> m_recipient_id m)
  /\ threads (fst (remove_car_record messaging_store 1)) = threads messaging_store.
Proof.
  assert (H : reachable messaging_store) by (do 2 apply reachable_run; constructor).
  split; [exact H|].
  destruct (messages_stay_between_the_parties messaging_store H) as (_ & Hm & Hd).
  split.
  - intros m Hin. exact (proj1 (Hm m Hin)).
  - exact (proj1 (Hd 1)).
Defined.

(** ** Deleting a listing *)

(** X13. remove_car_record on a missing listing (with an id SQLite can
    bind, see [sqlite_int]) answers False and changes nothing. On an existing listing it answers True and removes exactly the
    listing rows with that id, the transactions of that listing and the
    ratings that refer to one of those transactions; every other listing,
    transaction and rating row stays, and users and favorites are not
    touched, so a favorite may outlive its listing. *)
Theorem remove_car_record_cascade st car_id :
  (sqlite_int car_id = true -> get_car_by_id st car_id = None ->
   remove_car_record st car_id = (st, false))
  /\ (forall car, get_car_by_id st car_id = Some car ->
        let st' := fst (remove_car_record st car_id) in
        snd (remove_car_record st car_id) = true
        /\ get_car_by_id st' car_id = None
        /\ (forall c, In c (cars st') <-> In c (cars st) /\ c_id c <> car_id)
        /\ (forall t, In t (transactions st')
                      <-> In t (transactions st) /\ t_car_id t <> car_id)
        /\ (forall r, In r (ratings st')
                      <-> In r (ratings st)
                          /\ ~ exists t, In t (transactions st)
                                         /\ t_car_id t = car_id
                                         /\ t_id t = r_transaction_id r)
        /\ users st' = users st /\ favorites st' = favorites st).
Proof.
  split.
  - intros _ Hnone. unfold remove_car_record. rewrite Hnone. reflexivity.
  - intros car Hc. unfold remove_car_record. rewrite Hc. cbv zeta. cbn [fst snd].
    set (tx_ids := List.map t_id
                     (List.filter (fun t => t_car_id t =? car_id) (transactions st))).
    assert (Hmem : forall i, In i tx_ids
                   <-> exists t, In t (transactions st) /\ t_car_id t = car_id
                                 /\ t_id t = i).
    { intros i. unfold tx_ids. rewrite List.in_map_iff. split.
      - intros (t & Hid & Hin). apply List.filter_In in Hin as [Hin Hk].
        apply Z.eqb_eq in Hk. eauto.
      - intros (t & Hin & Hk & Hid). exists t. split; [exact Hid|].
        apply List.filter_In. split; [exact Hin|]. apply Z.eqb_eq, Hk. }
    assert (Hrat : forall r,
              In r (ratings
                      (match tx_ids with
                       | [] => st
                       | _ :: _ =>
                           set_ratings st
                             (List.filter
                                (fun r => negb (List.existsb
                                                  (Z.eqb (r_transaction_id r)) tx_ids))
                                (ratings st)) (ratings_seq st)
                       end))
              <-> In r (ratings st)
                  /\ ~ exists t, In t (transactions st) /\ t_car_id t = car_id
                                 /\ t_id t = r_transaction_id r).
    { intros r. destruct tx_ids as [|i ids] eqn:Hids.
      - split.
        + intros Hin. split; [exact Hin|]. intros Hex.
          apply (Hmem (r_transaction_id r)) in Hex. exact Hex.
        + intros [Hin _]. exact Hin.
      - cbn [ratings set_ratings]. rewrite List.filter_In, negb_true_iff.
        split.
        + intros [Hin Hk]. split; [exact Hin|]. intros Hex.
          apply (Hmem (r_transaction_id r)) in Hex.
          assert (List.existsb (Z.eqb (r_transaction_id r)) (i :: ids) = true).
          { apply List.existsb_exists. exists (r_transaction_id r).
            split; [exact Hex|apply Z.eqb_refl]. }
          congruence.
        + intros [Hin Hno]. split; [exact Hin|].
          destruct (List.existsb (Z.eqb (r_transaction_id r)) (i :: ids)) eqn:Ex;
            [|reflexivity].
          exfalso. apply Hno. apply (Hmem (r_transaction_id r)).
          apply List.existsb_exists in Ex as (j & Hj & Ej).
          apply Z.eqb_eq in Ej. congruence. }
    assert (Heq : forall (s : Store),
              s = match tx_ids with
                  | [] => st
                  | _ :: _ =>
                      set_ratings st
                        (List.filter
                           (fun r => negb (List.existsb
                                             (Z.eqb (r_transaction_id r)) tx_ids))
                           (ratings st)) (ratings_seq st)
                  end ->
              users s = users st /\ cars s = cars st
              /\ transactions s = transactions st /\ favorites s = favorites st).
    { intros s ->. destruct tx_ids; auto. }
    match goal with
    | |- context [set_transactions ?s _ _] =>
        destruct (Heq s eq_refl) as (Eu & Ec & Et & Ef)
    end.
    cbn [cars transactions ratings users favorites set_cars set_transactions].
    rewrite Ec, Et, Eu, Ef.
    split; [reflexivity|]. split; [|split; [|split; [|split; [|auto]]]].
    + unfold get_car_by_id. cbn [cars]. clear.
      induction (cars st) as [|c l IH]; simpl; [reflexivity|].
      destruct (c_id c =? car_id) eqn:E; simpl; [exact IH|].
      rewrite E. exact IH.
    + intros c. rewrite List.filter_In, negb_true_iff, Z.eqb_neq. reflexivity.
    + intros t. rewrite List.filter_In, negb_true_iff, Z.eqb_neq. reflexivity.
    + exact Hrat.
Qed.

Lemma remove_car_record_cascade_witness :
  get_car_by_id rated_store 1 = Some (mkCar 1 2 CAR_STATUS_COMPLETED)
  /\ get_car_by_id (fst (remove_car_record rated_store 1)) 1 = None
  /\ (forall r, In r (ratings (fst (remove_car_record rated_store 1)))
                <-> In r (ratings rated_store)
                    /\ ~ exists t, In t (transactions rated_store)
                                   /\ t_car_id t = 1
                                   /\ t_id t = r_transaction_id r)
  /\ remove_car_record rated_store 99 = (rated_store, false).
Proof.
  split; [reflexivity|].
  destruct (remove_car_record_cascade rated_store 1) as [_ H].
  destruct (remove_car_record_cascade rated_store 99) as [Hmiss _].
  destruct (H (mkCar 1 2 CAR_STATUS_COMPLETED) eq_refl) as (_ & Hg & _ & _ & Hr & _).
  split; [exact Hg|]. split; [exact Hr|exact (Hmiss eq_refl eq_refl)].
Defined.

(** X14. Who may delete a listing: delete_car lets only the owner through and
    admin_delete_car only an administrator; anyone else is turned away with
    the store unchanged, and when let through (the administrator with a
    listing id SQLite can bind, see [sqlite_int]) both leave the store
    exactly as remove_car_record does. *)
Theorem deleting_a_listing_needs_rights st username car_id :
  (forall user car,
     get_user_by_username st username = Some user ->
     get_car_by_id st car_id = Some car ->
     (c_user_id car <> u_id user ->
      delete_car st username car_id
      = (st, Redirect (Some "You can only delete your own listings.")))
     /\ (c_user_id car = u_id user ->
         delete_car st username car_id
         = (fst (remove_car_record st car_id), Redirect None)))
  /\ (get_user_by_username st username = None ->
      delete_car st username car_id
      = (st, Redirect (Some "Please log in to manage listings.")))
  /\ (forall field,
        (admin_required (get_user_by_username st username) = false ->
         admin_delete_car st username field = (st, Redirect None))
        /\ (admin_required (get_user_by_username st username) = true ->
            Py.int (Py.strip field) = Some car_id ->
            sqlite_int car_id = true ->
            admin_delete_car st username field
            = (fst (remove_car_record st car_id), Redirect None))).
Proof.
  split; [|split].
  - intros user car Hu Hc. unfold delete_car. rewrite Hu, Hc. split.
    + intros Hne. apply Z.eqb_neq in Hne. rewrite Hne. reflexivity.
    + intros ->. rewrite Z.eqb_refl. reflexivity.
  - intros Hnone. unfold delete_car. rewrite Hnone. reflexivity.
  - intros field. unfold admin_delete_car. split.
    + intros ->. reflexivity.
    + intros -> Hi _. cbn [negb]. cbv zeta.
      rewrite (int_some_isdigit _ _ Hi), Hi. reflexivity.
Qed.

Lemma deleting_a_listing_needs_rights_witness :
  delete_car listed_store "buyer" 1
  = (listed_store, Redirect (Some "You can only delete your own listings."))
  /\ admin_delete_car listed_store "seller" "1" = (listed_store, Redirect None)
  /\ get_car_by_id (fst (delete_car listed_store "seller" 1)) 1 = None
  /\ admin_delete_car listed_store "admin" " 1 "
     = (fst (remove_car_record listed_store 1), Redirect None).
Proof.
  destruct (deleting_a_listing_needs_rights listed_store "buyer" 1) as (Hb & _ & _).
  destruct (deleting_a_listing_needs_rights listed_store "seller" 1)
    as (Hs & _ & Ha).
  destruct (deleting_a_listing_needs_rights listed_store "admin" 1)
    as (_ & _ & Hadmin).
  split; [|split; [|split; [|exact (proj2 (Hadmin " 1 ") eq_refl eq_refl eq_refl)]]].
  - refine (proj1 (Hb (mkUser 3 "buyer" "bea@example.com" false false)
                     (mkCar 1 2 CAR_STATUS_ACTIVE) eq_refl eq_refl) _).
    simpl. discriminate.
  - exact (proj1 (Ha "1") eq_refl).
  - rewrite (proj2 (Hs (mkUser 2 "seller" "sam@example.com" false false)
                      (mkCar 1 2 CAR_STATUS_ACTIVE) eq_refl eq_refl) eq_refl).
    reflexivity.
Defined.

(** ** Favorite ids *)

Lemma elem_of_get_favorite_ids st user_id car_id :
  car_id ∈ get_favorite_ids st user_id
  <-> user_id <> 0 /\ is_favorite st user_id car_id.
Proof.
  unfold get_favorite_ids, is_favorite.
  destruct (user_id =? 0) eqn:E.
  - apply Z.eqb_eq in E. split; [set_solver|]. intros [H _]. contradiction.
  - apply Z.eqb_neq in E. rewrite elem_of_map. split.
    + intros ([u c] & Hc & Hin). simpl in Hc. subst c.
      apply elem_of_filter in Hin as [Hu Hin]. simpl in Hu. subst u.
      apply elem_of_dom in Hin. auto.
    + intros [_ Hf]. exists (user_id, car_id). split; [reflexivity|].
      apply elem_of_filter. split; [reflexivity|]. apply elem_of_dom. exact Hf.
Qed.

(** X15. get_favorite_ids follows toggle_favorite: in a reachable store,
    after a logged-in user toggles an active listing, that listing is among
    the user's favorite ids exactly if it was not before, the user's other
    favorite ids are the same, and so are the favorite ids of everyone
    else. *)
Theorem favorite_ids_follow_toggle st now username user car_id car :
  reachable st ->
  get_user_by_username st username = Some user ->
  get_car_by_id st car_id = Some car ->
  c_status car = CAR_STATUS_ACTIVE ->
  let st1 := fst (toggle_favorite st now username car_id) in
  (car_id ∈ get_favorite_ids st1 (u_id user)
   <-> car_id ∉ get_favorite_ids st (u_id user))
  /\ (forall c, c <> car_id ->
        c ∈ get_favorite_ids st1 (u_id user) <-> c ∈ get_favorite_ids st (u_id user))
  /\ (forall uid, uid <> u_id user ->
        get_favorite_ids st1 uid = get_favorite_ids st uid).
Proof.
  intros Hr Hu Hc Hs. cbv zeta.
  assert (Hid : u_id user <> 0).
  { destruct (reachable_ids_ok st Hr) as ((_ & Hrange & _) & _).
    apply get_user_by_username_some in Hu as (Hin & _).
    specialize (Hrange user Hin). lia. }
  rewrite (toggle_favorite_flip st now username user car car_id Hu Hc Hs).
  cbn [fst].
  assert (Hother : forall u c, (u, c) <> (u_id user, car_id) ->
            is_favorite
              (set_favorites st
                 match favorites st !! (u_id user, car_id) with
                 | Some _ => delete (u_id user, car_id) (favorites st)
                 | None => <[(u_id user, car_id):=now]> (favorites st)
                 end) u c
            <-> is_favorite st u c).
  { intros u c Hne. unfold is_favorite. cbn [favorites set_favorites].
    destruct (favorites st !! (u_id user, car_id)).
    - rewrite lookup_delete_ne by congruence. reflexivity.
    - rewrite lookup_insert_ne by congruence. reflexivity. }
  split; [|split].
  - rewrite !elem_of_get_favorite_ids. unfold is_favorite.
    cbn [favorites set_favorites].
    destruct (favorites st !! (u_id user, car_id)) as [ts|] eqn:Hf.
    + rewrite lookup_delete_eq. split.
      * intros [_ [x Hx]]. discriminate.
      * intros Hno. exfalso. apply Hno. split; [exact Hid|]. eauto.
    + rewrite lookup_insert_eq. split.
      * intros _ [_ [x Hx]]. congruence.
      * intros _. split; [exact Hid|]. eauto.
  - intros c Hne. rewrite !elem_of_get_favorite_ids.
    rewrite (Hother (u_id user) c) by congruence. reflexivity.
  - intros uid Hne. apply set_eq. intros c.
    rewrite !elem_of_get_favorite_ids.
    rewrite (Hother uid c) by congruence. reflexivity.
Qed.

Lemma favorite_ids_follow_toggle_witness :
  reachable listed_store
  /\ get_favorite_ids listed_store 3 = ∅
  /\ (1 ∈ get_favorite_ids
            (fst (toggle_favorite listed_store "2026-01-02T08:00:00" "buyer" 1)) 3
      <-> 1 ∉ get_favorite_ids listed_store 3).
Proof.
  assert (H : reachable listed_store) by (apply reachable_run; constructor).
  split; [exact H|]. split; [reflexivity|].
  exact (proj1 (favorite_ids_follow_toggle listed_store "2026-01-02T08:00:00"
                  "buyer" (mkUser 3 "buyer" "bea@example.com" false false) 1
                  (mkCar 1 2 CAR_STATUS_ACTIVE) H eq_refl eq_refl eq_refl)).
Defined.

(** ** Recent views *)

Lemma same_view_refresh user_id car_id viewed_at u c v :
  same_view u c
    (if same_view user_id car_id v
     then mkRecentView (rv_user_id v) (rv_car_id v) viewed_at else v)
  = same_view u c v.
Proof. destruct (same_view user_id car_id v); reflexivity. Qed.

(** X16. record_recent_view is an upsert on the key (user, listing): it does
    nothing when either id is 0; otherwise, on a table that respects its
    primary key, it leaves exactly one row for the pair, stamped with the time
    of this view, keeps the rows of every other pair as they are, keeps the
    primary key, and adds a row only if the pair had none. *)
Theorem record_recent_view_upsert views viewed_at user_id car_id :
  views_unique views ->
  ((user_id = 0 \/ car_id = 0) ->
   record_recent_view views viewed_at user_id car_id = views)
  /\ (user_id <> 0 -> car_id <> 0 ->
      let views' := record_recent_view views viewed_at user_id car_id in
      List.filter (same_view user_id car_id) views'
      = [mkRecentView user_id car_id viewed_at]
      /\ (forall u c, (u, c) <> (user_id, car_id) ->
            List.filter (same_view u c) views' = List.filter (same_view u c) views)
      /\ views_unique views'
      /\ List.length views'
         = (List.length views
            + (if List.existsb (same_view user_id car_id) views then 0 else 1))%nat).
Proof.
  intros Hu. split.
  - intros Hz. unfold record_recent_view.
    destruct Hz as [-> | ->]; simpl; [reflexivity|].
    rewrite orb_true_r. reflexivity.
  - intros Hn Hc. cbv zeta. unfold record_recent_view.
    apply Z.eqb_neq in Hn, Hc. rewrite Hn, Hc. cbn [orb].
    assert (Hsame : forall u c, (u, c) <> (user_id, car_id) ->
              same_view u c (mkRecentView user_id car_id viewed_at) = false).
    { intros u c Hne. unfold same_view. simpl.
      destruct (user_id =? u) eqn:E1; [|reflexivity].
      destruct (car_id =? c) eqn:E2; [|reflexivity].
      apply Z.eqb_eq in E1, E2. congruence. }
    assert (Hrefl : same_view user_id car_id (mkRecentView user_id car_id viewed_at)
                    = true).
    { unfold same_view. simpl. rewrite !Z.eqb_refl. reflexivity. }
    destruct (List.existsb (same_view user_id car_id) views) eqn:Hex.
    + set (f := fun v => if same_view user_id car_id v
                         then mkRecentView (rv_user_id v) (rv_car_id v) viewed_at
                         else v).
      assert (Hkey : forall u c v, same_view u c (f v) = same_view u c v).
      { intros u c v. apply same_view_refresh. }
      split; [|split; [|split]].
      * rewrite (filter_map_same_key f (same_view user_id car_id))
          by (intros v; apply Hkey).
        pose proof (existsb_true_filter _ _ Hex) as Hge.
        specialize (Hu user_id car_id).
        destruct (List.filter (same_view user_id car_id) views)
          as [|v [|w rest]] eqn:Hf; simpl in Hu, Hge; try lia.
        assert (Hin : In v (List.filter (same_view user_id car_id) views))
          by (rewrite Hf; left; reflexivity).
        apply List.filter_In in Hin as [_ Hv]. simpl. unfold f. rewrite Hv.
        unfold same_view in Hv. apply andb_prop in Hv as [E1 E2].
        apply Z.eqb_eq in E1, E2. rewrite E1, E2. reflexivity.
      * intros u c Hne.
        rewrite (filter_map_same_key f (same_view u c)) by (intros v; apply Hkey).
        rewrite <- (List.map_id (List.filter (same_view u c) views)) at 2.
        apply List.map_ext_in. intros v Hin.
        apply List.filter_In in Hin as [_ Hv]. unfold f.
        destruct (same_view user_id car_id v) eqn:Ev; [|reflexivity].
        exfalso. unfold same_view in Hv, Ev.
        apply andb_prop in Hv as [A1 A2]. apply andb_prop in Ev as [B1 B2].
        apply Z.eqb_eq in A1, A2, B1, B2. apply Hne. congruence.
      * intros u c.
        rewrite (filter_map_same_key f (same_view u c)) by (intros v; apply Hkey).
        rewrite List.length_map. apply Hu.
      * rewrite List.length_map. lia.
    + pose proof (existsb_false_filter _ _ Hex) as Hnil.
      split; [|split; [|split]].
      * rewrite List.filter_app, Hnil. simpl. rewrite Hrefl. reflexivity.
      * intros u c Hne. rewrite List.filter_app. simpl.
        rewrite (Hsame u c Hne). apply List.app_nil_r.
      * intros u c. rewrite List.filter_app, List.length_app. simpl.
        destruct (same_view u c (mkRecentView user_id car_id viewed_at)) eqn:E.
        -- assert ((u, c) = (user_id, car_id)) as [= -> ->].
           { destruct (decide ((u, c) = (user_id, car_id))) as [Heq|Hne];
               [exact Heq|]. rewrite (Hsame u c Hne) in E. discriminate. }
           rewrite Hnil. simpl. lia.
        -- simpl. specialize (Hu u c). lia.
      * rewrite List.length_app. simpl. lia.
Qed.

Lemma record_recent_view_upsert_witness :
  views_unique [mkRecentView 3 1 "2026-01-02T08:00:00"]
  /\ record_recent_view [mkRecentView 3 1 "2026-01-02T08:00:00"]
       "2026-01-03T08:00:00" 3 0
     = [mkRecentView 3 1 "2026-01-02T08:00:00"]
  /\ List.filter (same_view 3 1)
       (record_recent_view [mkRecentView 3 1 "2026-01-02T08:00:00"]
          "2026-01-03T08:00:00" 3 1)
     = [mkRecentView 3 1 "2026-01-03T08:00:00"].
Proof.
  assert (Hu : views_unique [mkRecentView 3 1 "2026-01-02T08:00:00"]).
  { intros u c. simpl. destruct (same_view u c _); simpl; lia. }
  split; [exact Hu|].
  pose proof (record_recent_view_upsert [mkRecentView 3 1 "2026-01-02T08:00:00"]
                "2026-01-03T08:00:00" 3 0 Hu) as [H0 _].
  pose proof (record_recent_view_upsert [mkRecentView 3 1 "2026-01-02T08:00:00"]
                "2026-01-03T08:00:00" 3 1 Hu) as [_ H1].
  split; [exact (H0 (or_intror eq_refl))|].
  refine (proj1 (H1 _ _)); discriminate.
Defined.

(** ** Byte strings *)

#[local] Arguments String.append !s1 s2 : simpl nomatch.

Lemma string_app_assoc (a b c : string) :
  ((a ++ b) ++ c = a ++ (b ++ c))%string.
Proof. induction a as [|x a IH]; simpl; congruence. Qed.

Lemma string_app_nil_r (a : string) : (a ++ "" = a)%string.
Proof. induction a as [|x a IH]; simpl; congruence. Qed.

Lemma string_length_app (a b : string) :
  String.length (a ++ b)%string = (String.length a + String.length b)%nat.
Proof. induction a as [|x a IH]; simpl; congruence. Qed.

(** ** build_simple_pdf *)

(** *** Encoding *)

Lemma byte_code n : (n < 256)%N -> N_of_ascii (Pdf.byte n) = n.
Proof. apply N_ascii_embedding. Qed.

Lemma encode_utf8_app a b :
  Pdf.encode_utf8 (a ++ b)
  = match Pdf.encode_utf8 a, Pdf.encode_utf8 b with
    | Some x, Some y => Some (x ++ y)%string
    | _, _ => None
    end.
Proof.
  induction a as [|c a IH]; cbn [Pdf.encode_utf8 List.app].
  - destruct (Pdf.encode_utf8 b); reflexivity.
  - rewrite IH. destruct (Pdf.encode_char c) as [u|]; [|reflexivity].
    destruct (Pdf.encode_utf8 a) as [x|]; [|reflexivity].
    destruct (Pdf.encode_utf8 b) as [y|]; [|reflexivity].
    rewrite string_app_assoc. reflexivity.
Qed.

Lemma encode_char_scalar c :
  Pdf.scalar c = true -> exists u, Pdf.encode_char c = Some u.
Proof.
  unfold Pdf.scalar, Pdf.encode_char. intros H.
  assert (Hs : (c < 55296 \/ (57343 < c /\ c < 1114112))%N).
  { apply orb_prop in H as [H | H]; [left; apply N.ltb_lt, H|right].
    apply andb_prop in H as [H1 H2]. split; apply N.ltb_lt; assumption. }
  clear H.
  destruct (c <? 128)%N; [eauto|].
  destruct (c <? 2048)%N; [eauto|].
  destruct (c <? 65536)%N eqn:E3.
  - destruct ((55296 <=? c) && (c <=? 57343))%N eqn:Es; [|eauto].
    exfalso. apply andb_prop in Es as [E1 E2].
    apply N.leb_le in E1, E2. lia.
  - destruct (c <? 1114112)%N eqn:E4; [eauto|]. exfalso.
    apply N.ltb_ge in E3, E4. lia.
Qed.

Lemma encode_utf8_scalar t :
  List.forallb Pdf.scalar t = true -> exists b, Pdf.encode_utf8 t = Some b.
Proof.
  induction t as [|c t IH]; cbn [List.forallb Pdf.encode_utf8]; [eauto|].
  intros H. apply andb_prop in H as [Hc Ht].
  destruct (encode_char_scalar c Hc) as [u ->]. destruct (IH Ht) as [b ->]. eauto.
Qed.

(** The bytes of one code point: the code point itself below 128, and
    otherwise bytes from 128 on only. *)
Lemma encode_char_bytes c u :
  Pdf.encode_char c = Some u ->
  ((c < 128)%N /\ u = String (Pdf.byte c) EmptyString)
  \/ ((128 <= c)%N /\ Pdf.high_only u = true).
Proof.
  unfold Pdf.encode_char.
  destruct (c <? 128)%N eqn:E1.
  { intros [= <-]. left. apply N.ltb_lt in E1. auto. }
  apply N.ltb_ge in E1. right. split; [exact E1|].
  assert (Hm : forall x, (x mod 64 < 64)%N) by (intros x; apply N.mod_lt; lia).
  pose proof (Hm c) as H3. pose proof (Hm (c / 64)%N) as H2.
  pose proof (Hm (c / 4096)%N) as H1. clear Hm.
  set (b3 := (c mod 64)%N) in *. set (b2 := ((c / 64) mod 64)%N) in *.
  set (b1 := ((c / 4096) mod 64)%N) in *.
  destruct (c <? 2048)%N eqn:E2.
  { apply N.ltb_lt in E2. injection H as <-.
    assert (Hq : (c / 64 < 32)%N) by (apply N.Div0.div_lt_upper_bound; lia).
    set (q := (c / 64)%N) in *. clearbody q b1 b2 b3.
    unfold Pdf.high_only. cbn [Py.all_chars].
    rewrite !byte_code by lia.
    repeat (apply andb_true_intro; split); try reflexivity; apply N.leb_le; lia. }
  destruct (c <? 65536)%N eqn:E3.
  { apply N.ltb_lt in E3. destruct (_ && _); [discriminate|]. injection H as <-.
    assert (Hq : (c / 4096 < 16)%N) by (apply N.Div0.div_lt_upper_bound; lia).
    set (q := (c / 4096)%N) in *. clearbody q b1 b2 b3.
    unfold Pdf.high_only. cbn [Py.all_chars].
    rewrite !byte_code by lia.
    repeat (apply andb_true_intro; split); try reflexivity; apply N.leb_le; lia. }
  destruct (c <? 1114112)%N eqn:E4; [|discriminate].
  apply N.ltb_lt in E4. injection H as <-.
  assert (Hq : (c / 262144 < 5)%N) by (apply N.Div0.div_lt_upper_bound; lia).
  set (q := (c / 262144)%N) in *. clearbody q b1 b2 b3.
  unfold Pdf.high_only. cbn [Py.all_chars].
  rewrite !byte_code by lia.
  repeat (apply andb_true_intro; split); try reflexivity; apply N.leb_le; lia.
Qed.

Lemma encode_lit s :
  Pdf.ascii_only s = true -> Pdf.encode_utf8 (Pdf.lit s) = Some s.
Proof.
  unfold Pdf.ascii_only, Pdf.lit. induction s as [|c s IH]; [reflexivity|].
  cbn [Py.all_chars list_ascii_of_string List.map Pdf.encode_utf8].
  intros H. apply andb_prop in H as [Hc Hs]. rewrite (IH Hs).
  unfold Pdf.encode_char, Pdf.byte. rewrite Hc, ascii_N_embedding. reflexivity.
Qed.

Lemma ascii_only_app a b :
  Pdf.ascii_only (a ++ b)%string = Pdf.ascii_only a && Pdf.ascii_only b.
Proof.
  unfold Pdf.ascii_only. induction a as [|c a IH]; [reflexivity|].
  cbn [String.append Py.all_chars]. rewrite IH. apply andb_assoc.
Qed.

Lemma digit_char_ascii d :
  0 <= d <= 9 -> (N_of_ascii (Pdf.digit_char d) <? 128)%N = true.
Proof.
  intros H.
  assert (Hd : d = 0 \/ d = 1 \/ d = 2 \/ d = 3 \/ d = 4 \/ d = 5 \/ d = 6
               \/ d = 7 \/ d = 8 \/ d = 9) by lia.
  repeat (destruct Hd as [-> | Hd]; [reflexivity|]). subst d. reflexivity.
Qed.

Lemma dec_digits_ascii fuel : forall n,
  0 <= n -> Pdf.ascii_only (Pdf.dec_digits fuel n) = true.
Proof.
  induction fuel as [|f IH]; intros n Hn; [reflexivity|].
  cbn [Pdf.dec_digits]. destruct (n <? 10) eqn:E.
  - apply Z.ltb_lt in E. unfold Pdf.ascii_only. cbn [Py.all_chars].
    rewrite digit_char_ascii by lia. reflexivity.
  - rewrite ascii_only_app, IH by (apply Z.div_pos; lia).
    unfold Pdf.ascii_only. cbn [Py.all_chars].
    pose proof (Z.mod_pos_bound n 10 ltac:(lia)) as Hm.
    rewrite digit_char_ascii; [reflexivity|].
    set (r := n mod 10) in *. clearbody r. lia.
Qed.

Lemma str_ascii n : Pdf.ascii_only (Pdf.str n) = true.
Proof.
  unfold Pdf.str. destruct (n <? 0) eqn:E.
  - apply Z.ltb_lt in E. rewrite ascii_only_app.
    unfold Pdf.dec. rewrite dec_digits_ascii by lia. reflexivity.
  - apply Z.ltb_ge in E. unfold Pdf.dec. apply dec_digits_ascii, E.
Qed.

(** *** escape, on the text and on its bytes *)

Lemma replace_char_app a r s1 s2 :
  Pdf.replace_char a r (s1 ++ s2)
  = Pdf.replace_char a r s1 ++ Pdf.replace_char a r s2.
Proof. unfold Pdf.replace_char. apply List.flat_map_app. Qed.

Lemma escape_app s1 s2 : Pdf.escape (s1 ++ s2) = Pdf.escape s1 ++ Pdf.escape s2.
Proof. unfold Pdf.escape. rewrite !replace_char_app. reflexivity. Qed.

Lemma escape_bytes_app a b :
  Pdf.escape_bytes (a ++ b)%string
  = (Pdf.escape_bytes a ++ Pdf.escape_bytes b)%string.
Proof.
  induction a as [|c a IH]; [reflexivity|].
  cbn [String.append Pdf.escape_bytes]. rewrite IH.
  destruct (Pdf.special c); reflexivity.
Qed.

Lemma high_not_special c :
  (128 <=? N_of_ascii c)%N = true -> Pdf.special c = false.
Proof.
  intros H. apply N.leb_le in H. unfold Pdf.special. cbv zeta.
  repeat apply orb_false_intro; apply N.eqb_neq; lia.
Qed.

Lemma escape_bytes_high u : Pdf.high_only u = true -> Pdf.escape_bytes u = u.
Proof.
  unfold Pdf.high_only. induction u as [|c u IH]; [reflexivity|].
  cbn [Py.all_chars Pdf.escape_bytes]. intros H. apply andb_prop in H as [Hc Hu].
  rewrite (high_not_special c Hc), (IH Hu). reflexivity.
Qed.

Lemma escape_plain c :
  c <> 92%N -> c <> 40%N -> c <> 41%N -> Pdf.escape [c] = [c].
Proof.
  intros H1 H2 H3. apply N.eqb_neq in H1, H2, H3.
  unfold Pdf.escape, Pdf.replace_char. cbn [List.flat_map List.app].
  rewrite H1. cbn [List.flat_map List.app]. rewrite H2.
  cbn [List.flat_map List.app]. rewrite H3. reflexivity.
Qed.

Lemma encode_escape_char c u :
  Pdf.encode_char c = Some u ->
  Pdf.encode_utf8 (Pdf.escape [c]) = Some (Pdf.escape_bytes u).
Proof.
  intros Hu.
  destruct (N.eq_dec c 92%N) as [-> | N1]; [injection Hu as <-; reflexivity|].
  destruct (N.eq_dec c 40%N) as [-> | N2]; [injection Hu as <-; reflexivity|].
  destruct (N.eq_dec c 41%N) as [-> | N3]; [injection Hu as <-; reflexivity|].
  rewrite (escape_plain c N1 N2 N3). cbn [Pdf.encode_utf8]. rewrite Hu.
  rewrite string_app_nil_r. f_equal.
  destruct (encode_char_bytes c u Hu) as [[Hlt ->] | [_ Hhigh]].
  - cbn [Pdf.escape_bytes]. unfold Pdf.special. cbv zeta.
    rewrite byte_code by lia.
    apply N.eqb_neq in N1, N2, N3. rewrite N1, N2, N3. reflexivity.
  - symmetry. apply escape_bytes_high, Hhigh.
Qed.

Lemma encode_escape t : forall b,
  Pdf.encode_utf8 t = Some b ->
  Pdf.encode_utf8 (Pdf.escape t) = Some (Pdf.escape_bytes b).
Proof.
  induction t as [|c t IH]; intros b.
  - intros [= <-]. reflexivity.
  - cbn [Pdf.encode_utf8].
    destruct (Pdf.encode_char c) as [u|] eqn:Hc; [|discriminate].
    destruct (Pdf.encode_utf8 t) as [v|] eqn:Ht; [|discriminate].
    intros [= <-].
    change (c :: t) with ([c] ++ t). rewrite escape_app, encode_utf8_app.
    rewrite (encode_escape_char c u Hc), (IH v eq_refl), escape_bytes_app.
    reflexivity.
Qed.

(** *** The reader on escaped bytes *)

Lemma code_eq c n : (N_of_ascii c =? n)%N = true -> c = Pdf.byte n.
Proof.
  intros H. apply N.eqb_eq in H. subst n. symmetry. apply ascii_N_embedding.
Qed.

Lemma read_escaped_special c r :
  Pdf.special c = true ->
  Pdf.read_literal_at 0 (String "\" (String c r))
  = Pdf.emit c (Pdf.read_literal_at 0 r).
Proof.
  unfold Pdf.special. cbv zeta. intros H.
  apply orb_prop in H as [H | H]; [apply orb_prop in H as [H | H]|];
    apply code_eq in H; subst c; reflexivity.
Qed.

Lemma read_plain c r :
  Pdf.special c = false -> (N_of_ascii c =? 13)%N = false ->
  Pdf.read_literal_at 0 (String c r) = Pdf.emit c (Pdf.read_literal_at 0 r).
Proof.
  unfold Pdf.special. cbv zeta. intros H H13.
  apply orb_false_elim in H as [H H41]. apply orb_false_elim in H as [H92 H40].
  cbn [Pdf.read_literal_at]. cbv zeta. rewrite H41, H40, H13, H92. reflexivity.
Qed.

(** The first byte of escaped bytes is a line feed only when the first byte
    escaped is one. *)
Lemma escape_bytes_head a b r :
  (N_of_ascii a =? 10)%N = false ->
  exists l r', (Pdf.escape_bytes (String a b) ++ r)%string = String l r'
               /\ (N_of_ascii l =? 10)%N = false.
Proof.
  intros H. cbn [Pdf.escape_bytes]. destruct (Pdf.special a).
  - eexists _, _. split; reflexivity.
  - eexists _, _. split; [reflexivity|exact H].
Qed.

Lemma read_escaped_step c b :
  (forall rest, Pdf.read_literal_at 0 (Pdf.escape_bytes b ++ String ")" rest)%string
                = Some (Pdf.normalize_eol b, rest)) ->
  (forall a b', b = String a b' -> (N_of_ascii a =? 10)%N = true ->
     forall rest, Pdf.read_literal_at 0 (Pdf.escape_bytes b' ++ String ")" rest)%string
                  = Some (Pdf.normalize_eol b', rest)) ->
  forall rest,
    Pdf.read_literal_at 0 (Pdf.escape_bytes (String c b) ++ String ")" rest)%string
    = Some (Pdf.normalize_eol (String c b), rest).
Proof.
  intros IH IH2 rest.
  destruct (N_of_ascii c =? 13)%N eqn:E13.
  - assert (Hsp : Pdf.special c = false).
    { apply N.eqb_eq in E13. unfold Pdf.special. cbv zeta. rewrite E13. reflexivity. }
    cbn [Pdf.escape_bytes Pdf.normalize_eol]. rewrite Hsp, E13.
    cbn [String.append Pdf.read_literal_at]. cbv zeta.
    apply N.eqb_eq in E13. rewrite E13. cbn [N.eqb Pos.eqb].
    destruct b as [|a b'].
    + reflexivity.
    + destruct (N_of_ascii a =? 10)%N eqn:E10.
      * assert (Hsa : Pdf.special a = false).
        { apply N.eqb_eq in E10. unfold Pdf.special. cbv zeta. rewrite E10.
          reflexivity. }
        cbn [Pdf.escape_bytes]. rewrite Hsa. cbn [String.append]. rewrite E10.
        rewrite (IH2 a b' eq_refl E10 rest). reflexivity.
      * destruct (escape_bytes_head a b' (String ")" rest) E10)
          as (l & r' & Hr & Hl).
        rewrite Hr, Hl, <- Hr, IH. reflexivity.
  - destruct (Pdf.special c) eqn:Hsp.
    + cbn [Pdf.escape_bytes Pdf.normalize_eol]. rewrite Hsp, E13.
      cbn [String.append]. rewrite (read_escaped_special c _ Hsp), IH. reflexivity.
    + cbn [Pdf.escape_bytes Pdf.normalize_eol]. rewrite Hsp, E13.
      cbn [String.append]. rewrite (read_plain c _ Hsp E13), IH. reflexivity.
Qed.

Lemma read_escaped b : forall rest,
  Pdf.read_literal (Pdf.escape_bytes b ++ String ")" rest)%string
  = Some (Pdf.normalize_eol b, rest).
Proof.
  unfold Pdf.read_literal.
  assert (H : (forall rest,
                 Pdf.read_literal_at 0 (Pdf.escape_bytes b ++ String ")" rest)%string
                 = Some (Pdf.normalize_eol b, rest))
              /\ (forall a b', b = String a b' -> (N_of_ascii a =? 10)%N = true ->
                    forall rest,
                      Pdf.read_literal_at 0
                        (Pdf.escape_bytes b' ++ String ")" rest)%string
                      = Some (Pdf.normalize_eol b', rest))).
  { induction b as [|c b [IH IH2]].
    - split; [reflexivity|]. intros a b' H. discriminate H.
    - split; [apply read_escaped_step; assumption|].
      intros a b' [= -> ->] _. exact IH. }
  exact (proj1 H).
Qed.

(** *** Ends of line *)

Lemma normalize_eol_no_cr b :
  Py.all_chars (fun c => negb (N_of_ascii c =? 13)%N) b = true ->
  Pdf.normalize_eol b = b.
Proof.
  induction b as [|c b IH]; [reflexivity|].
  cbn [Py.all_chars Pdf.normalize_eol]. intros H. apply andb_prop in H as [Hc Hb].
  apply negb_true_iff in Hc. rewrite Hc, (IH Hb). reflexivity.
Qed.

Lemma all_chars_app p a b :
  Py.all_chars p (a ++ b)%string = Py.all_chars p a && Py.all_chars p b.
Proof.
  induction a as [|c a IH]; [reflexivity|].
  cbn [String.append Py.all_chars]. rewrite IH. apply andb_assoc.
Qed.

Lemma encode_no_cr t : forall b,
  Pdf.encode_utf8 t = Some b -> ~ In 13%N t ->
  Py.all_chars (fun c => negb (N_of_ascii c =? 13)%N) b = true.
Proof.
  induction t as [|c t IH]; intros b.
  - intros [= <-] _. reflexivity.
  - cbn [Pdf.encode_utf8].
    destruct (Pdf.encode_char c) as [u|] eqn:Hc; [|discriminate].
    destruct (Pdf.encode_utf8 t) as [v|] eqn:Ht; [|discriminate].
    intros [= <-] Hno. rewrite all_chars_app.
    rewrite (IH v eq_refl) by (intros Hin; apply Hno; right; exact Hin).
    rewrite andb_true_r.
    destruct (encode_char_bytes c u Hc) as [[Hlt ->] | [_ Hhigh]].
    + cbn [Py.all_chars]. rewrite byte_code by lia. rewrite andb_true_r.
      apply negb_true_iff, N.eqb_neq. intros E. apply Hno. left. exact E.
    + clear Hc. unfold Pdf.high_only in Hhigh.
      induction u as [|x u IHu]; [reflexivity|].
      cbn [Py.all_chars] in *. apply andb_prop in Hhigh as [Hx Hu].
      rewrite (IHu Hu), andb_true_r. apply N.leb_le in Hx.
      apply negb_true_iff, N.eqb_neq. lia.
Qed.

(** *** The content stream *)

Lemma content_line_encodes y line bytes :
  Pdf.encode_utf8 line = Some bytes ->
  Pdf.encode_utf8 (Pdf.content_line y line)
  = Some ("BT /F1 12 Tf 50 " ++ Pdf.str y ++ " Td (" ++ Pdf.escape_bytes bytes
          ++ ") Tj ET")%string.
Proof.
  intros H. unfold Pdf.content_line.
  rewrite !encode_utf8_app, (encode_escape line bytes H).
  rewrite (encode_lit (Pdf.str y) (str_ascii y)).
  rewrite !encode_lit by reflexivity. reflexivity.
Qed.

Lemma join_encodes sep s parts :
  Pdf.encode_utf8 sep = Some s ->
  (forall p, In p parts -> exists b, Pdf.encode_utf8 p = Some b) ->
  exists c, Pdf.encode_utf8 (Pdf.join sep parts) = Some c.
Proof.
  intros Hs. induction parts as [|p rest IH]; intros H; [exists ""%string; reflexivity|].
  destruct (H p (or_introl eq_refl)) as [b Hb].
  destruct rest as [|q rest]; [exists b; exact Hb|].
  destruct IH as [c Hc]; [intros x Hx; apply H; right; exact Hx|].
  change (Pdf.join sep (p :: q :: rest)) with (p ++ sep ++ Pdf.join sep (q :: rest)).
  rewrite !encode_utf8_app, Hb, Hs, Hc. eauto.
Qed.

Lemma content_lines_encodable lines : forall y p,
  List.forallb (List.forallb Pdf.scalar) lines = true ->
  In p (Pdf.content_lines y lines) -> exists b, Pdf.encode_utf8 p = Some b.
Proof.
  induction lines as [|line lines IH]; intros y p H Hin; [destruct Hin|].
  cbn [List.forallb] in H. apply andb_prop in H as [Hl Hr].
  destruct Hin as [<- | Hin]; [|exact (IH _ p Hr Hin)].
  destruct (encode_utf8_scalar line Hl) as [b Hb].
  rewrite (content_line_encodes y line b Hb). eauto.
Qed.

Lemma content_encodes lines :
  List.forallb (List.forallb Pdf.scalar) lines = true ->
  exists content, Pdf.content lines = Some content.
Proof.
  intros H. unfold Pdf.content.
  apply (join_encodes (Pdf.lit Pdf.LF) Pdf.LF); [reflexivity|].
  intros p Hin. exact (content_lines_encodable lines 760 p H Hin).
Qed.

(** The line that car_pdf writes for a price, and a description as a form
    sends it, with a parenthesis and a line break (CR LF). *)
Example build_simple_pdf_car_lines :
  let price := (Pdf.lit "Price: " ++ [8364%N] ++ Pdf.lit "12500")%list in
  let description :=
    (Pdf.lit "Description: one owner (garage kept)" ++ [13%N; 10%N]
     ++ Pdf.lit "new tyres")%list in
  Pdf.content [Pdf.lit "Listing #1"; price; description]
  = Some ("BT /F1 12 Tf 50 760 Td (Listing #1) Tj ET" ++ Pdf.LF
          ++ "BT /F1 12 Tf 50 742 Td (Price: "
          ++ String (Pdf.byte 226) (String (Pdf.byte 130) (String (Pdf.byte 172) ""))
          ++ "12500) Tj ET" ++ Pdf.LF
          ++ "BT /F1 12 Tf 50 724 Td (Description: one owner \(garage kept\)"
          ++ String (Pdf.byte 13) Pdf.LF ++ "new tyres) Tj ET")%string
  /\ option_map String.length
       (Pdf.build_simple_pdf [Pdf.lit "Listing #1"; price; description])
     = Some 713%nat
  /\ option_map Pdf.offsets (Pdf.content [Pdf.lit "Listing #1"; price; description])
     = Some [0; 9; 58; 115; 241; 461]%nat
  /\ option_map Pdf.xref_offset
       (Pdf.content [Pdf.lit "Listing #1"; price; description])
     = Some 531%nat.
Proof. repeat split; reflexivity. Qed.

(** X17. The text of a PDF line can be read back. For a line that can be
    encoded (no lone surrogate), the bytes written for it are the fixed
    prefix followed by a well-formed literal string, whatever backslashes and
    parentheses the line holds; a PDF reader takes from the literal the UTF-8
    bytes of the line with every line break (CR LF or a bare CR) read as one
    LF, and stops at the closing parenthesis before " Tj ET". A line without
    a carriage return is read back byte for byte. *)
Theorem pdf_line_text_reads_back y line bytes :
  Pdf.encode_utf8 line = Some bytes ->
  exists literal,
    Pdf.encode_utf8 (Pdf.content_line y line)
    = Some ("BT /F1 12 Tf 50 " ++ Pdf.str y ++ " Td (" ++ literal)%string
    /\ Pdf.read_literal literal = Some (Pdf.normalize_eol bytes, " Tj ET"%string)
    /\ (~ In 13%N line ->
        Pdf.read_literal literal = Some (bytes, " Tj ET"%string)).
Proof.
  intros H.
  exists (Pdf.escape_bytes bytes ++ ") Tj ET")%string.
  split; [exact (content_line_encodes y line bytes H)|].
  pose proof (read_escaped bytes " Tj ET") as Hread.
  split; [exact Hread|].
  intros Hno. rewrite Hread.
  rewrite (normalize_eol_no_cr bytes (encode_no_cr line bytes H Hno)). reflexivity.
Qed.

Lemma pdf_line_text_reads_back_witness :
  let description :=
    (Pdf.lit "Description: one owner (garage kept), " ++ [8364%N] ++ Pdf.lit "500 off"
     ++ [13%N; 10%N] ++ Pdf.lit "new tyres")%list in
  exists literal,
    Pdf.encode_utf8 (Pdf.content_line 544 description)
    = Some ("BT /F1 12 Tf 50 544 Td (" ++ literal)%string
    /\ Pdf.read_literal literal
       = Some ("Description: one owner (garage kept), "
               ++ String (Pdf.byte 226) (String (Pdf.byte 130) (String (Pdf.byte 172) ""))
               ++ "500 off" ++ Pdf.LF ++ "new tyres", " Tj ET")%string.
Proof.
  cbv zeta.
  destruct (pdf_line_text_reads_back 544
              (Pdf.lit "Description: one owner (garage kept), " ++ [8364%N]
               ++ Pdf.lit "500 off" ++ [13%N; 10%N] ++ Pdf.lit "new tyres")%list
              _ eq_refl) as (literal & Henc & Hread & _).
  exists literal. split; [exact Henc|exact Hread].
Defined.

(** *** Numerals *)

Lemma digit_char_decimal d :
  0 <= d <= 9 ->
  Py.isdecimal_char (Pdf.digit_char d) = true
  /\ Z.of_N (Py.code (Pdf.digit_char d) - 48) = d.
Proof.
  intros H.
  assert (Hd : d = 0 \/ d = 1 \/ d = 2 \/ d = 3 \/ d = 4 \/ d = 5 \/ d = 6
               \/ d = 7 \/ d = 8 \/ d = 9) by lia.
  repeat (destruct Hd as [-> | Hd]; [split; reflexivity|]).
  subst d. split; reflexivity.
Qed.

Lemma int_acc_app s1 s2 : forall acc,
  Py.int_acc acc (s1 ++ s2)%string
  = match Py.int_acc acc s1 with
    | Some a => Py.int_acc a s2
    | None => None
    end.
Proof.
  induction s1 as [|c s1 IH]; intros acc; simpl; [reflexivity|].
  destruct (Py.isdecimal_char c); [apply IH|reflexivity].
Qed.

Lemma int_acc_digit acc d :
  0 <= d <= 9 ->
  Py.int_acc acc (String (Pdf.digit_char d) EmptyString) = Some (10 * acc + d).
Proof.
  intros H. destruct (digit_char_decimal d H) as [Hdec Hval].
  simpl. rewrite Hdec, Hval. reflexivity.
Qed.

Lemma dec_digits_value fuel : forall n,
  0 <= n < 10 ^ Z.of_nat fuel ->
  Py.int_acc 0 (Pdf.dec_digits fuel n) = Some n.
Proof.
  induction fuel as [|f IH]; intros n Hn.
  - simpl in *. f_equal. lia.
  - cbn [Pdf.dec_digits]. destruct (n <? 10) eqn:E.
    + apply Z.ltb_lt in E. rewrite int_acc_digit by lia. reflexivity.
    + apply Z.ltb_ge in E. rewrite int_acc_app.
      rewrite Nat2Z.inj_succ, Z.pow_succ_r in Hn by lia.
      rewrite IH.
      * pose proof (Z.mod_pos_bound n 10 ltac:(lia)) as Hm.
        rewrite int_acc_digit by lia.
        f_equal. pose proof (Z.div_mod n 10). lia.
      * split; [apply Z.div_pos; lia|].
        apply Z.div_lt_upper_bound; lia.
Qed.

Lemma dec_digits_nonempty fuel n : Pdf.dec_digits (S fuel) n <> EmptyString.
Proof.
  cbn [Pdf.dec_digits]. destruct (n <? 10); [discriminate|].
  destruct (Pdf.dec_digits fuel (n / 10)); discriminate.
Qed.

Lemma log2_fuel_enough n :
  0 <= n -> n < 10 ^ Z.of_nat (S (Z.to_nat (Z.log2 n))).
Proof.
  intros Hn. rewrite Nat2Z.inj_succ, Z2Nat.id by apply Z.log2_nonneg.
  destruct (Z.eq_dec n 0) as [-> | Hne].
  - simpl. lia.
  - assert (Hpos : 0 < n) by lia.
    pose proof (Z.log2_spec n Hpos) as [_ Hlt].
    assert (Hle : 2 ^ Z.succ (Z.log2 n) <= 10 ^ Z.succ (Z.log2 n)).
    { apply Z.pow_le_mono_l. lia. }
    lia.
Qed.

Lemma int_str n : 0 <= n -> Py.int (Pdf.str n) = Some n.
Proof.
  intros Hn. unfold Pdf.str.
  assert (E : (n <? 0) = false) by (apply Z.ltb_ge; exact Hn).
  rewrite E. unfold Pdf.dec, Py.int.
  pose proof (dec_digits_nonempty (Z.to_nat (Z.log2 n)) n) as Hne.
  destruct (Pdf.dec_digits (S (Z.to_nat (Z.log2 n))) n) eqn:Ed; [congruence|].
  rewrite <- Ed. apply dec_digits_value. split; [exact Hn|].
  apply log2_fuel_enough, Hn.
Qed.

Lemma dec_digits_length fuel : forall n k,
  0 <= n < 10 ^ Z.of_nat k -> (1 <= k)%nat ->
  (String.length (Pdf.dec_digits fuel n) <= k)%nat.
Proof.
  induction fuel as [|f IH]; intros n k Hn Hk; [simpl; lia|].
  cbn [Pdf.dec_digits]. destruct (n <? 10) eqn:E; [simpl; lia|].
  apply Z.ltb_ge in E. rewrite string_length_app. simpl.
  destruct k as [|k]; [lia|].
  rewrite Nat2Z.inj_succ, Z.pow_succ_r in Hn by lia.
  destruct k as [|k]; [simpl in Hn; lia|].
  assert (Hq : 0 <= n / 10 < 10 ^ Z.of_nat (S k)).
  { split; [apply Z.div_pos; lia|]. apply Z.div_lt_upper_bound; lia. }
  specialize (IH (n / 10) (S k) Hq ltac:(lia)). lia.
Qed.

Lemma zeros_length k : String.length (Pdf.zeros k) = k.
Proof. induction k; simpl; congruence. Qed.

Lemma int_acc_zeros k s : Py.int_acc 0 (Pdf.zeros k ++ s)%string = Py.int_acc 0 s.
Proof. induction k as [|k IH]; simpl; [reflexivity|exact IH]. Qed.

Lemma zfill10_reads_back off :
  Py.int (Pdf.zfill10 off) = Some (Z.of_nat off).
Proof.
  unfold Pdf.zfill10. cbv zeta.
  pose proof (int_str (Z.of_nat off) ltac:(lia)) as Hs.
  unfold Py.int in *.
  destruct (Pdf.str (Z.of_nat off)) as [|c s] eqn:Es; [discriminate|].
  destruct (Pdf.zeros _ ++ String c s)%string eqn:Ez.
  - destruct (Pdf.zeros (10 - String.length (String c s))); discriminate.
  - rewrite <- Ez, int_acc_zeros. exact Hs.
Qed.

Lemma zfill10_length off :
  Z.of_nat off < 10 ^ 10 -> String.length (Pdf.zfill10 off) = 10%nat.
Proof.
  intros H. unfold Pdf.zfill10. cbv zeta.
  rewrite string_length_app, zeros_length.
  assert (Hlen : (String.length (Pdf.str (Z.of_nat off)) <= 10)%nat).
  { unfold Pdf.str.
    assert (E : (Z.of_nat off <? 0) = false) by (apply Z.ltb_ge; lia).
    rewrite E. unfold Pdf.dec.
    apply dec_digits_length; [|lia]. split; [lia|exact H]. }
  lia.
Qed.

(** *** Layout *)

Lemma layout_fst objs : forall pdf offs,
  fst (Pdf.layout pdf offs objs) = (pdf ++ String.concat "" objs)%string.
Proof.
  induction objs as [|o objs IH]; intros pdf offs.
  - simpl. symmetry. apply string_app_nil_r.
  - cbn [Pdf.layout]. rewrite IH.
    destruct objs as [|o' objs'].
    + simpl. rewrite string_app_nil_r. reflexivity.
    + change (String.concat "" (o :: o' :: objs'))
        with (o ++ "" ++ String.concat "" (o' :: objs'))%string.
      simpl (""%string ++ _)%string. apply string_app_assoc.
Qed.

Lemma layout_keeps_offsets objs : forall pdf (offs : list nat) i x,
  nth_error offs i = Some x ->
  nth_error (snd (Pdf.layout pdf offs objs)) i = Some x.
Proof.
  induction objs as [|o objs IH]; intros pdf offs i x H; [exact H|].
  cbn [Pdf.layout]. apply IH.
  rewrite List.nth_error_app1; [exact H|].
  apply List.nth_error_Some. congruence.
Qed.

Lemma layout_offsets objs : forall pdf offs k obj off,
  nth_error objs k = Some obj ->
  nth_error (snd (Pdf.layout pdf offs objs)) (List.length offs + k) = Some off ->
  exists before after,
    fst (Pdf.layout pdf offs objs) = (before ++ obj ++ after)%string
    /\ String.length before = off.
Proof.
  induction objs as [|o objs IH]; intros pdf offs k obj off Hobj Hoff.
  - destruct k; discriminate.
  - cbn [Pdf.layout] in *. destruct k as [|k].
    + injection Hobj as ->.
      assert (Hat : nth_error
                      (snd (Pdf.layout (pdf ++ obj)
                              (offs ++ [String.length pdf]) objs))
                      (List.length offs) = Some (String.length pdf)).
      { apply layout_keeps_offsets.
        rewrite List.nth_error_app2 by lia.
        rewrite Nat.sub_diag. reflexivity. }
      rewrite Nat.add_0_r in Hoff. rewrite Hat in Hoff. injection Hoff as <-.
      rewrite layout_fst.
      assert (Hdecomp : ((pdf ++ obj) ++ String.concat "" objs)%string
                        = (pdf ++ obj ++ String.concat "" objs)%string)
        by apply string_app_assoc.
      exists pdf, (String.concat "" objs). rewrite Hdecomp. split; reflexivity.
    + apply (IH (pdf ++ o)%string (offs ++ [String.length pdf]) k obj off Hobj).
      rewrite List.length_app. simpl.
      replace (List.length offs + 1 + k)%nat with (List.length offs + S k)%nat by lia.
      exact Hoff.
Qed.

Lemma fold_left_entries offs : forall acc,
  List.fold_left (fun pdf off => (pdf ++ Pdf.xref_entry off)%string) offs acc
  = (acc ++ String.concat "" (List.map Pdf.xref_entry offs))%string.
Proof.
  induction offs as [|o offs IH]; intros acc.
  - simpl. symmetry. apply string_app_nil_r.
  - cbn [List.fold_left List.map]. rewrite IH.
    destruct offs as [|o' offs'].
    + simpl. rewrite string_app_nil_r. reflexivity.
    + change (String.concat "" (Pdf.xref_entry o :: List.map Pdf.xref_entry (o' :: offs')))
        with (Pdf.xref_entry o ++ ""
              ++ String.concat "" (List.map Pdf.xref_entry (o' :: offs')))%string.
      simpl (""%string ++ _)%string. apply string_app_assoc.
Qed.

Lemma objects_start_with_their_number content k obj :
  nth_error (Pdf.objects content) k = Some obj ->
  String.prefix (Pdf.str (Z.of_nat (S k)) ++ " 0 obj" ++ Pdf.LF)%string obj = true.
Proof.
  unfold Pdf.objects. intros H.
  do 5 (destruct k as [|k]; [injection H as <-; reflexivity|]).
  destruct k; discriminate.
Qed.

(** X18. The cross-reference table of the PDF is right for every list of
    lines that can be encoded (no lone surrogate; the euro sign of car_pdf
    and any text a form sends qualify): build_simple_pdf returns a file; the
    table lists the five objects in order; its k-th in-use entry holds, as a
    ten-digit numeral that reads back to it, the byte offset at which object
    k begins in the file, where "k 0 obj" stands; the number after startxref
    reads back to the offset at which the table itself begins; and as long
    as the file is shorter than 10^10 bytes each entry is 20 bytes long. *)
Theorem pdf_cross_reference_table lines :
  List.forallb (List.forallb Pdf.scalar) lines = true ->
  exists content pdf,
    Pdf.content lines = Some content
    /\ Pdf.build_simple_pdf lines = Some pdf
    /\ let entries := List.tl (Pdf.offsets content) in
       List.length entries = 5%nat
       /\ pdf
          = (Pdf.body content
             ++ ("xref" ++ Pdf.LF ++ "0 6" ++ Pdf.LF)
             ++ ("0000000000 65535 f " ++ Pdf.LF)
             ++ String.concat "" (List.map Pdf.xref_entry entries)
             ++ Pdf.trailer 6 (String.length (Pdf.body content)))%string
       /\ Py.int (Pdf.str (Z.of_nat (String.length (Pdf.body content))))
          = Some (Z.of_nat (String.length (Pdf.body content)))
       /\ (forall k obj off,
             nth_error (Pdf.objects content) k = Some obj ->
             nth_error entries k = Some off ->
             (exists before after,
                Pdf.body content = (before ++ obj ++ after)%string
                /\ String.length before = off)
             /\ String.prefix (Pdf.str (Z.of_nat (S k)) ++ " 0 obj" ++ Pdf.LF)%string
                  obj = true
             /\ Py.int (Pdf.zfill10 off) = Some (Z.of_nat off)
             /\ (Z.of_nat (String.length pdf) < 10 ^ 10 ->
                 String.length (Pdf.xref_entry off) = 20%nat)).
Proof.
  intros Hlines. destruct (content_encodes lines Hlines) as [content Hcontent].
  exists content. eexists. split; [exact Hcontent|].
  unfold Pdf.build_simple_pdf. rewrite Hcontent. split; [reflexivity|].
  cbv zeta.
  assert (Hlen : List.length (Pdf.offsets content) = 6%nat) by reflexivity.
  assert (Htl : List.length (List.tl (Pdf.offsets content)) = 5%nat) by reflexivity.
  assert (Hpdf :
    (Pdf.body content
     ++ ("xref" ++ Pdf.LF ++ "0 "
         ++ Pdf.str (Z.of_nat (List.length (Pdf.offsets content))) ++ Pdf.LF)
     ++ ("0000000000 65535 f " ++ Pdf.LF)
     ++ Pdf.xref_entries (Pdf.offsets content)
     ++ Pdf.trailer (List.length (Pdf.offsets content)) (Pdf.xref_offset content))%string
    = (Pdf.body content
       ++ ("xref" ++ Pdf.LF ++ "0 6" ++ Pdf.LF)
       ++ ("0000000000 65535 f " ++ Pdf.LF)
       ++ String.concat "" (List.map Pdf.xref_entry (List.tl (Pdf.offsets content)))
       ++ Pdf.trailer 6 (String.length (Pdf.body content)))%string).
  { unfold Pdf.xref_entries, Pdf.xref_offset.
    rewrite Hlen, fold_left_entries. reflexivity. }
  split; [exact Htl|]. split; [exact Hpdf|].
  split; [apply int_str; lia|].
  intros k obj off Hobj Hoff.
  assert (Hoff' : nth_error (Pdf.offsets content) (1 + k) = Some off).
  { destruct (Pdf.offsets content) as [|o rest]; [destruct k; discriminate|].
    exact Hoff. }
  destruct (layout_offsets (Pdf.objects content) Pdf.header [0%nat] k obj off
              Hobj Hoff') as (before & after & Hbody & Hbefore).
  split; [exists before, after; split; assumption|].
  split; [exact (objects_start_with_their_number content k obj Hobj)|].
  split; [apply zfill10_reads_back|].
  intros Hsmall. unfold Pdf.xref_entry.
  rewrite string_length_app, zfill10_length; [reflexivity|].
  assert (Hle : (off <= String.length
                          (Pdf.body content
                           ++ ("xref" ++ Pdf.LF ++ "0 "
                               ++ Pdf.str (Z.of_nat (List.length (Pdf.offsets content)))
                               ++ Pdf.LF)
                           ++ ("0000000000 65535 f " ++ Pdf.LF)
                           ++ Pdf.xref_entries (Pdf.offsets content)
                           ++ Pdf.trailer (List.length (Pdf.offsets content))
                                (Pdf.xref_offset content))%string)%nat).
  { unfold Pdf.body at 1. rewrite Hbody. rewrite !string_length_app. lia. }
  lia.
Qed.

(** The three lines of the example above: the fifth object, the font, starts
    at byte 461 of a file of 713 bytes. *)
Lemma pdf_cross_reference_table_witness :
  let lines :=
    [Pdf.lit "Listing #1";
     (Pdf.lit "Price: " ++ [8364%N] ++ Pdf.lit "12500")%list;
     (Pdf.lit "Description: one owner (garage kept)" ++ [13%N; 10%N]
      ++ Pdf.lit "new tyres")%list] in
  exists content pdf,
    Pdf.content lines = Some content
    /\ Pdf.build_simple_pdf lines = Some pdf
    /\ nth_error (List.tl (Pdf.offsets content)) 4 = Some 461%nat
    /\ (exists before after,
          Pdf.body content = (before ++ Pdf.object5 ++ after)%string
          /\ String.length before = 461%nat)
    /\ String.length (Pdf.xref_entry 461) = 20%nat.
Proof.
  cbv zeta.
  destruct (pdf_cross_reference_table
              [Pdf.lit "Listing #1";
               (Pdf.lit "Price: " ++ [8364%N] ++ Pdf.lit "12500")%list;
               (Pdf.lit "Description: one owner (garage kept)" ++ [13%N; 10%N]
                ++ Pdf.lit "new tyres")%list] eq_refl)
    as (content & pdf & Hc & Hp & _ & _ & _ & H).
  exists content, pdf. split; [exact Hc|]. split; [exact Hp|].
  injection Hc as <-. injection Hp as <-.
  split; [reflexivity|].
  destruct (H 4%nat Pdf.object5 461%nat eq_refl eq_refl) as (Hpos & _ & _ & Hlen).
  split; [exact Hpos|]. apply Hlen. vm_compute. reflexivity.
Defined.

(** ** Opening a conversation from a listing *)

Lemma get_car_by_id_some st car_id car :
  get_car_by_id st car_id = Some car -> In car (cars st) /\ c_id car = car_id.
Proof.
  unfold get_car_by_id. intros H. apply List.find_some in H as [Hin Hid].
  apply Z.eqb_eq in Hid. split; assumption.
Qed.

(** X19. new_message on an existing listing. The owner is answered 'You
    cannot message yourself.' and nothing is written. Anybody else is
    redirected to the thread: afterwards exactly one thread joins the listing,
    its owner as seller and the caller as buyer, whatever the status of the
    listing; the threads of every other triple and all other tables are as
    before; and asking again changes nothing more. *)
Theorem new_message_opens_one_thread st now now2 username user car_id cid car :
  reachable st ->
  get_user_by_username st username = Some user ->
  Py.isdigit (Py.strip car_id) = true ->
  Py.int (Py.strip car_id) = Some cid ->
  get_car_by_id st cid = Some car ->
  let r := new_message st now username car_id in
  (c_user_id car = u_id user ->
     r = (st, Redirect (Some "You cannot message yourself.")))
  /\ (c_user_id car <> u_id user ->
      snd r = Redirect None
      /\ (exists th, threads_for (fst r) cid (c_user_id car) (u_id user) = [th])
      /\ (forall l s b, (l, s, b) <> (cid, c_user_id car, u_id user) ->
            threads_for (fst r) l s b = threads_for st l s b)
      /\ users (fst r) = users st
      /\ cars (fst r) = cars st
      /\ transactions (fst r) = transactions st
      /\ ratings (fst r) = ratings st
      /\ messages (fst r) = messages st
      /\ favorites (fst r) = favorites st
      /\ new_message (fst r) now2 username car_id = (fst r, Redirect None)).
Proof.
  intros Hr Hu Hd Hi Hc. cbv zeta.
  destruct (get_car_by_id_some _ _ _ Hc) as [_ Hid].
  pose proof (reachable_threads_unique st Hr) as Huniq.
  unfold new_message. rewrite Hu, Hd, Hi, Hc. cbn [negb]. split.
  - intros E. apply Z.eqb_eq in E. rewrite E. reflexivity.
  - intros N. apply Z.eqb_neq in N. rewrite N. cbn [fst snd]. rewrite Hid.
    split; [reflexivity|].
    unfold get_or_create_thread.
    destruct (List.find _ (threads st)) as [row|] eqn:Hfind; cbn [fst].
    + split.
      { destruct (find_some_filter _ _ _ Hfind) as [rest Hrest].
        specialize (Huniq cid (c_user_id car) (u_id user)).
        unfold threads_for in *. rewrite Hrest in Huniq |- *.
        destruct rest; [|simpl in Huniq; lia]. exists row. reflexivity. }
      split; [reflexivity|].
      repeat (split; [reflexivity|]).
      rewrite Hu, Hc. cbn [negb]. rewrite N, Hid, Hfind. reflexivity.
    + split.
      { rewrite threads_for_after_create, !Z.eqb_refl. cbn [andb].
        unfold threads_for. rewrite (find_none_filter _ _ Hfind).
        eexists. reflexivity. }
      split.
      { intros l s b Hne. rewrite threads_for_after_create.
        destruct ((cid =? l) && (c_user_id car =? s) && (u_id user =? b)) eqn:E.
        - apply andb_prop in E as [E Eb]. apply andb_prop in E as [El Es].
          apply Z.eqb_eq in El, Es, Eb. subst l s b. contradiction Hne. reflexivity.
        - apply List.app_nil_r. }
      repeat (split; [reflexivity|]).
      unfold get_user_by_username, get_car_by_id in *. cbn [users cars set_threads].
      rewrite Hu, Hc. cbn [negb]. rewrite N, Hid.
      cbn [threads set_threads fst].
      rewrite (find_app_none _ _ _ Hfind). cbn [th_car_id th_seller_id th_buyer_id].
      rewrite !Z.eqb_refl. reflexivity.
Qed.

Lemma new_message_opens_one_thread_witness :
  let r := new_message confirmed_store "2026-01-04T08:00:00" "buyer" " 1 " in
  snd r = Redirect None
  /\ (exists th, threads_for (fst r) 1 2 3 = [th])
  /\ new_message (fst r) "2026-01-04T09:00:00" "buyer" " 1 " = (fst r, Redirect None).
Proof.
  assert (Hr : reachable confirmed_store) by (do 3 apply reachable_run; constructor).
  pose proof (new_message_opens_one_thread confirmed_store
                "2026-01-04T08:00:00" "2026-01-04T09:00:00" "buyer"
                (mkUser 3 "buyer" "bea@example.com" false false) " 1 " 1
                (mkCar 1 2 CAR_STATUS_COMPLETED)
                Hr eq_refl eq_refl eq_refl eq_refl) as [_ H].
  destruct (H ltac:(intros E; vm_compute in E; discriminate E))
    as (H1 & H2 & _ & _ & _ & _ & _ & _ & _ & H3).
  cbv zeta. split; [exact H1|]. split; [exact H2|exact H3].
Defined.

(** ** Uploaded images *)

Lemma substring_all s : String.substring 0 (String.length s) s = s.
Proof.
  induction s as [|c s IH]; [reflexivity|]. simpl. rewrite IH. reflexivity.
Qed.

Lemma substring_split p n :
  (n <= String.length p)%nat ->
  (String.substring 0 n p ++ String.substring n (String.length p - n) p)%string = p.
Proof.
  revert n. induction p as [|c p IH]; intros n Hn.
  - destruct n; [reflexivity|simpl in Hn; lia].
  - destruct n as [|n].
    + cbn [String.substring String.append]. cbn [String.length Nat.sub].
      cbn [String.substring]. rewrite substring_all. reflexivity.
    + cbn [String.length] in *. cbn [Nat.sub String.substring String.append].
      rewrite IH by lia. reflexivity.
Qed.

Lemma substring_none n p : String.substring n 0 p = "".
Proof.
  revert n. induction p as [|c p IH]; intros [|n]; try reflexivity.
  cbn [String.substring]. apply IH.
Qed.

Lemma rfind_bounds c p : -1 <= PyPath.rfind c p < Z.of_nat (String.length p).
Proof.
  induction p as [|a p IH]; cbn [PyPath.rfind String.length]; [lia|].
  destruct (0 <=? PyPath.rfind c p) eqn:E; [lia|].
  destruct (Ascii.eqb a c); lia.
Qed.

(** What os.path.splitext promises: root + ext == p. *)
Lemma splitext_app p :
  (fst (PyPath.splitext p) ++ snd (PyPath.splitext p))%string = p.
Proof.
  unfold PyPath.splitext.
  pose proof (rfind_bounds "/" p) as Hs. pose proof (rfind_bounds "." p) as Hd.
  destruct (_ && _) eqn:E; cbn [fst snd]; [|apply string_app_nil_r].
  apply andb_prop in E as [E _]. apply Z.ltb_lt in E.
  unfold PyPath.slice. rewrite Z.sub_0_r. change (Z.to_nat 0) with 0%nat.
  replace (Z.to_nat (Z.of_nat (String.length p) - PyPath.rfind "." p))
    with (String.length p - Z.to_nat (PyPath.rfind "." p))%nat by lia.
  apply substring_split. lia.
Qed.

Lemma splitext_root p :
  snd (PyPath.splitext p) <> "" -> fst (PyPath.splitext p) <> "".
Proof.
  unfold PyPath.splitext.
  pose proof (rfind_bounds "/" p) as Hs. pose proof (rfind_bounds "." p) as Hd.
  destruct (_ && _) eqn:E; cbn [fst snd]; [intros _|intros H; contradiction H; reflexivity].
  apply andb_prop in E as [E Ha]. apply Z.ltb_lt in E.
  unfold PyPath.slice in *. rewrite Z.sub_0_r. change (Z.to_nat 0) with 0%nat.
  destruct (Z.to_nat (PyPath.rfind "." p)) as [|d] eqn:Ed.
  - assert (Z.to_nat (PyPath.rfind "." p - (PyPath.rfind "/" p + 1)) = 0%nat) as E0 by lia.
    rewrite E0, substring_none in Ha. discriminate Ha.
  - destruct p as [|c p]; [cbn [String.length] in Hd; lia|]. discriminate.
Qed.

Lemma mem_string_In s l : mem_string s l = true -> In s l.
Proof.
  unfold mem_string. intros H. apply List.existsb_exists in H as (x & Hin & E).
  apply String.eqb_eq in E. subst x. exact Hin.
Qed.

Lemma validate_images_skips_unnamed images :
  validate_images (List.filter (fun img => negb (unnamed img)) images)
  = validate_images images.
Proof.
  induction images as [|image rest IH]; [reflexivity|].
  cbn [List.filter validate_images].
  destruct (unnamed image) eqn:E; cbn [negb]; [exact IH|].
  cbn [validate_images]. rewrite E, IH. reflexivity.
Qed.

(** X20. The verdict of validate_images. When it accepts, the message is
    empty and every file with a name has: a lower-cased name made of a
    non-empty root followed by .jpg, .jpeg or .png; a MIME type image/jpeg
    or image/png (which need not match the extension); and a readable size
    of at most 1048576 bytes. When it rejects, some named file in the list
    is the cause, and the message says which check failed. Files without a
    name are never looked at. *)
Theorem validate_images_verdict images :
  (fst (validate_images images) = true ->
     validate_images images = (true, "")
     /\ forall image, In image images -> img_filename image <> "" ->
          (exists root ext,
              PyPath.lower (img_filename image) = (root ++ ext)%string
              /\ root <> "" /\ In ext allowed_exts)
          /\ In (img_mimetype image) allowed_mimes
          /\ exists size, img_size image = Some size /\ size <= 1048576)
  /\ (fst (validate_images images) = false ->
      exists image, In image images /\ img_filename image <> ""
        /\ let ext := snd (PyPath.splitext (PyPath.lower (img_filename image))) in
           let msg := snd (validate_images images) in
           ((mem_string ext allowed_exts = false
             \/ mem_string (img_mimetype image) allowed_mimes = false)
            /\ msg = "Only JPG and PNG images are allowed.")
           \/ (img_size image = None /\ msg = "Could not read image size.")
           \/ ((exists size, img_size image = Some size /\ 1048576 < size)
               /\ msg = "Each image must be 1MB or меньше."))
  /\ validate_images (List.filter (fun img => negb (unnamed img)) images)
     = validate_images images.
Proof.
  split; [|split; [|apply validate_images_skips_unnamed]].
  - induction images as [|image rest IH]; intros H.
    + split; [reflexivity|]. intros image [].
    + cbn [validate_images] in H |- *.
      destruct (unnamed image) eqn:En.
      { destruct (IH H) as [E Hall]. split; [exact E|].
        intros x [<- | Hin] Hx; [|exact (Hall x Hin Hx)].
        apply String.eqb_eq in En. contradiction. }
      destruct (mem_string _ allowed_exts) eqn:Ee; cbn [negb] in *; [|discriminate H].
      destruct (mem_string _ allowed_mimes) eqn:Em; cbn [negb] in *; [|discriminate H].
      destruct (img_size image) as [size|] eqn:Es; [|discriminate H].
      destruct (MAX_IMAGE_BYTES <? size) eqn:El; [discriminate H|].
      destruct (IH H) as [E Hall]. split; [exact E|].
      intros x [<- | Hin] Hx; [|exact (Hall x Hin Hx)].
      split; [|split].
      * exists (fst (PyPath.splitext (PyPath.lower (img_filename image)))),
               (snd (PyPath.splitext (PyPath.lower (img_filename image)))).
        split; [symmetry; apply splitext_app|].
        apply mem_string_In in Ee. split; [|exact Ee].
        apply splitext_root. intros E0. rewrite E0 in Ee.
        destruct Ee as [Ee | [Ee | [Ee | []]]]; discriminate Ee.
      * apply mem_string_In, Em.
      * exists size. split; [exact Es|]. apply Z.ltb_ge in El.
        unfold MAX_IMAGE_BYTES in El. lia.
  - induction images as [|image rest IH]; intros H; [discriminate H|].
    cbn [validate_images] in H |- *.
    destruct (unnamed image) eqn:En.
    { destruct (IH H) as (x & Hin & Hx & Hcause).
      exists x. split; [right; exact Hin|]. split; [exact Hx|exact Hcause]. }
    assert (Hname : img_filename image <> "").
    { intros E. apply String.eqb_neq in En. contradiction. }
    destruct (mem_string _ allowed_exts) eqn:Ee; cbn [negb] in *.
    2:{ exists image. split; [left; reflexivity|]. split; [exact Hname|].
        cbv zeta. left. split; [left; exact Ee|reflexivity]. }
    destruct (mem_string _ allowed_mimes) eqn:Em; cbn [negb] in *.
    2:{ exists image. split; [left; reflexivity|]. split; [exact Hname|].
        cbv zeta. left. split; [right; exact Em|reflexivity]. }
    destruct (img_size image) as [size|] eqn:Es.
    2:{ exists image. split; [left; reflexivity|]. split; [exact Hname|].
        cbv zeta. right. left. split; [exact Es|reflexivity]. }
    destruct (MAX_IMAGE_BYTES <? size) eqn:El.
    { exists image. split; [left; reflexivity|]. split; [exact Hname|].
      cbv zeta. right. right. split; [|reflexivity].
      exists size. split; [exact Es|]. apply Z.ltb_lt in El.
      unfold MAX_IMAGE_BYTES in El. lia. }
    destruct (IH H) as (x & Hin & Hx & Hcause).
    exists x. split; [right; exact Hin|]. split; [exact Hx|exact Hcause].
Qed.

Lemma validate_images_verdict_witness :
  (exists root ext,
      PyPath.lower "IMG_0001.JPG" = (root ++ ext)%string
      /\ root <> "" /\ In ext allowed_exts)
  /\ In "image/png" allowed_mimes
  /\ exists size, Some 1048576 = Some size /\ size <= 1048576.
Proof.
  destruct (validate_images_verdict
              [mkImage "" "text/plain" None;
               mkImage "IMG_0001.JPG" "image/png" (Some 1048576)])
    as [H _].
  destruct (H eq_refl) as [_ Hall].
  exact (Hall (mkImage "IMG_0001.JPG" "image/png" (Some 1048576))
              (or_intror (or_introl eq_refl))
              ltac:(intros E; discriminate E)).
Defined.

(** A file whose whole name is an extension has no extension for
    os.path.splitext and is turned down; so is a file one byte over the
    limit. *)
Example validate_images_edge_cases :
  validate_images [mkImage ".png" "image/png" (Some 10)]
  = (false, "Only JPG and PNG images are allowed.")
  /\ fst (validate_images [mkImage "a.png" "image/png" (Some 1048577)]) = false
  /\ validate_images [mkImage "a.jpeg" "image/jpeg" None]
     = (false, "Could not read image size.").
Proof. repeat split. Qed.

(** ** The upload step of add_listing *)

(** X21. add_listing stores the listing before it looks at the files. With
    a valid form, whatever files are uploaded, the store after the request is
    the store [add_listing] leaves (so it is reachable) and holds the new
    active listing of the caller under a fresh id. When validate_images turns
    the files down, or more than 15 files have a name, the form is shown
    again with the message, and the listing has been created all the same;
    the redirect is answered exactly when the files pass and are at most
    15. *)
Theorem add_listing_stores_listing_before_image_checks st username user images :
  reachable st ->
  get_user_by_username st username = Some user ->
  let r := add_listing_upload st username true images in
  let named := List.filter (fun img => negb (unnamed img)) images in
  fst r = fst (add_listing st username true)
  /\ reachable (fst r)
  /\ get_car_by_id st (cars_seq st + 1) = None
  /\ get_car_by_id (fst r) (cars_seq st + 1)
     = Some (mkCar (cars_seq st + 1) (u_id user) CAR_STATUS_ACTIVE)
  /\ (fst (validate_images images) = false ->
      snd r = Template (Some (snd (validate_images images))))
  /\ (fst (validate_images images) = true -> (15 < List.length named)%nat ->
      snd r = Template (Some "You can upload up to 15 photos."))
  /\ (snd r = Redirect None <->
      fst (validate_images images) = true /\ (List.length named <= 15)%nat).
Proof.
  intros Hr Hu. cbv zeta.
  assert (Hst : fst (add_listing_upload st username true images)
                = fst (add_listing st username true)).
  { unfold add_listing_upload, add_listing. rewrite Hu.
    destruct (validate_images _) as [[] msg]; [|reflexivity].
    destruct (_ <? _)%nat; reflexivity. }
  assert (Hnone : get_car_by_id st (cars_seq st + 1) = None).
  { destruct (get_car_by_id st (cars_seq st + 1)) as [c|] eqn:E; [|reflexivity].
    apply get_car_by_id_some in E as [Hin Hid].
    destruct (reachable_ids_ok st Hr) as (_ & (_ & Hrange & _) & _).
    specialize (Hrange c Hin). lia. }
  split; [exact Hst|]. split.
  { rewrite Hst. exact (reachable_handle st "" (ReqAddListing username true) Hr). }
  split; [exact Hnone|]. split.
  { rewrite Hst. unfold add_listing. rewrite Hu. cbn [fst].
    unfold get_car_by_id in *. cbn [cars set_cars].
    rewrite (find_app_none _ _ _ Hnone). cbn [c_id]. rewrite Z.eqb_refl. reflexivity. }
  unfold add_listing_upload. rewrite Hu, validate_images_skips_unnamed.
  destruct (validate_images images) as [ok msg]. cbn [fst snd].
  split; [intros ->; reflexivity|]. split.
  - intros -> Hlen. apply Nat.ltb_lt in Hlen. rewrite Hlen. reflexivity.
  - destruct ok; [|split; [discriminate|intros [E _]; discriminate E]].
    destruct (_ <? _)%nat eqn:E; cbn [snd].
    + apply Nat.ltb_lt in E. split; [discriminate|intros [_ Hle]; lia].
    + apply Nat.ltb_ge in E. split; [intros _; split; [reflexivity|exact E]|reflexivity].
Qed.

Lemma add_listing_stores_listing_before_image_checks_witness :
  let r := add_listing_upload listed_store "seller" true
             [mkImage "scan.gif" "image/gif" (Some 2048)] in
  snd r = Template (Some "Only JPG and PNG images are allowed.")
  /\ get_car_by_id (fst r) 2 = Some (mkCar 2 2 CAR_STATUS_ACTIVE)
  /\ get_car_by_id listed_store 2 = None.
Proof.
  assert (Hr : reachable listed_store) by (apply reachable_run; constructor).
  destruct (add_listing_stores_listing_before_image_checks listed_store "seller"
              (mkUser 2 "seller" "sam@example.com" false false)
              [mkImage "scan.gif" "image/gif" (Some 2048)] Hr eq_refl)
    as (_ & _ & Hnone & Hcar & Hbad & _).
  cbv zeta. split; [exact (Hbad eq_refl)|]. split; [exact Hcar|exact Hnone].
Defined.
